(** * plant-tracker server: caching, retry and dispatch layer

    A shallow embedding of [server/main.py]: the expiring LRU cache, the
    blind retry wrapper, the two request operations and the dispatcher
    that maps their outcomes to response envelopes.

    Modelling conventions.
    - Python exceptions are values of [exn]; a computation that can raise
      returns a [result].
    - Wall-clock readings ([time.time()]) and sleep delays are rationals
      ([Q]), every binary64 number being one.  The program computes
      with clock readings in one place, the expiry test of
      [LRUCache.get]: [LRUCache.get] takes the difference exactly, and
      [FloatLRUCache.get] takes it in binary64, as the interpreter does.
    - The process state (the module-level cache, the lazily created
      client, the clock) and everything the process does to the outside
      (remote calls, sleeps, lines printed) live in a [World]; effectful
      functions are world transformers that keep the world on failure,
      as a raised Python exception keeps earlier mutations. *)

From Stdlib Require Import List String Ascii Bool ZArith QArith Lia Lqa.
From Stdlib Require Import Qpower Qround.
From Stdlib.Strings Require Import Byte.
Import ListNotations.
Local Open Scope string_scope.
Local Open Scope list_scope.
Local Open Scope Z_scope.

Set Implicit Arguments.
Set Warnings "-register-all".

(** ** Python values and exceptions *)

(** A decoded JSON document, as [json.loads] and [request.get_json]
    produce it.  [JNull] is Python's [None]. *)
Inductive json : Type :=
| JNull
| JBool (b : bool)
| JNum (q : Q)
| JStr (s : string)
| JList (items : list json)
| JObj (fields : list (string * json)).

(** A Python [dict] with string keys, in insertion order. *)
Definition dict := list (string * json).

(** Python truthiness ([if x:] / [not x] / [x or y]). *)
Definition truthy (v : json) : bool :=
  match v with
  | JNull => false
  | JBool b => b
  | JNum q => negb (Qeq_bool q 0)
  | JStr s => negb (String.eqb s "")
  | JList l => match l with [] => false | _ => true end
  | JObj f => match f with [] => false | _ => true end
  end.

(** [d.get(key)]: the value, or [None]. *)
Fixpoint dict_get (d : dict) (key : string) : json :=
  match d with
  | [] => JNull
  | (k, v) :: d' => if String.eqb k key then v else dict_get d' key
  end.

(** [d.get(key, default)]. *)
Fixpoint dict_get_default (d : dict) (key : string) (default : json) : json :=
  match d with
  | [] => default
  | (k, v) :: d' => if String.eqb k key then v else dict_get_default d' key default
  end.

(** [d[key] = v]. *)
Fixpoint dict_set (d : dict) (key : string) (v : json) : dict :=
  match d with
  | [] => [(key, v)]
  | (k, v') :: d' =>
      if String.eqb k key then (k, v) :: d' else (k, v') :: dict_set d' key v
  end.

(** The exception classes the program meets.  [BinasciiError] and
    [JSONDecodeError] are subclasses of [ValueError] in Python. *)
Inductive exn_class : Type :=
| ValueError
| BinasciiError
| JSONDecodeError
| TypeError
| AttributeError
| KeyError
| RuntimeError
| ProviderError.

Record exn : Type := Exn { exn_class_of : exn_class; exn_str : string }.

(** [isinstance(exc, ValueError)], what [except ValueError] tests. *)
Definition is_ValueError (e : exn) : bool :=
  match exn_class_of e with
  | ValueError | BinasciiError | JSONDecodeError => true
  | _ => false
  end.

Inductive result (A : Type) : Type :=
| Ok (a : A)
| Err (e : exn).
Arguments Ok {A} a.
Arguments Err {A} e.

(** ** OrderedDict

    [collections.OrderedDict] as the list of its items, oldest first;
    the operations below are the ones [LRUCache] calls. *)
Module OrderedDict.
Section WithValue.
Variable V : Type.

Definition t := list (string * V).

Definition keys (d : t) : list string := map fst d.

(** [d[key]] (as an option: [None] where Python raises [KeyError]). *)
Fixpoint lookup (key : string) (d : t) : option V :=
  match d with
  | [] => None
  | (k, v) :: d' => if String.eqb k key then Some v else lookup key d'
  end.

(** [key in d]. *)
Definition contains (key : string) (d : t) : bool :=
  match lookup key d with Some _ => true | None => false end.

(** [del d[key]]. *)
Fixpoint remove (key : string) (d : t) : t :=
  match d with
  | [] => []
  | (k, v) :: d' => if String.eqb k key then d' else (k, v) :: remove key d'
  end.

(** [d.move_to_end(key)]; the callers test [key in d] first. *)
Definition move_to_end (key : string) (d : t) : t :=
  match lookup key d with
  | Some v => remove key d ++ [(key, v)]
  | None => d
  end.

(** [d[key] = v]: an existing key keeps its position. *)
Fixpoint setitem (key : string) (v : V) (d : t) : t :=
  match d with
  | [] => [(key, v)]
  | (k, v') :: d' =>
      if String.eqb k key then (k, v) :: d' else (k, v') :: setitem key v d'
  end.

(** [d.popitem(last=False)]: drops the oldest item. *)
Definition popitem_first (d : t) : result t :=
  match d with
  | [] => Err (Exn KeyError "dictionary is empty")
  | _ :: d' => Ok d'
  end.
End WithValue.
End OrderedDict.

(** ** LRUCache *)
Module LRUCache.

(** A stored entry: the value and the clock reading at insertion. *)
Definition entry : Type := (json * Q)%type.

Record t : Type := Build {
  _cache : OrderedDict.t entry;
  _max_size : Z;
  _ttl_seconds : Z
}.

Definition __init__ (max_size ttl_seconds : Z) : t :=
  Build [] max_size ttl_seconds.

Definition with_cache (self : t) (d : OrderedDict.t entry) : t :=
  Build d (_max_size self) (_ttl_seconds self).

Definition size (self : t) : Z := Z.of_nat (List.length (_cache self)).

(** [x > y] on clock values. *)
Definition Qgt_bool (x y : Q) : bool := negb (Qle_bool x y).

(** [get(self, key)], where [now] is what [time.time()] returns. *)
Definition get (self : t) (key : string) (now : Q) : option json * t :=
  match OrderedDict.lookup key (_cache self) with
  | None => (None, self)
  | Some (value, timestamp) =>
      if Qgt_bool (now - timestamp) (inject_Z (_ttl_seconds self)) then
        (None, with_cache self (OrderedDict.remove key (_cache self)))
      else
        (Some value, with_cache self (OrderedDict.move_to_end key (_cache self)))
  end.

(** The loop [while len(self._cache) > self._max_size: popitem(last=False)].
    With a negative bound the loop empties the dict and [popitem] then
    raises; the dict stays emptied. *)
Fixpoint evict (max_size : Z) (d : OrderedDict.t entry)
  : result unit * OrderedDict.t entry :=
  if Z.of_nat (List.length d) >? max_size then
    match d with
    | [] => (match OrderedDict.popitem_first d with
             | Ok d' => Ok tt
             | Err e => Err e
             end, d)
    | _ :: d' => evict max_size d'
    end
  else (Ok tt, d).

(** [set(self, key, value)], where [now] is what [time.time()] returns. *)
Definition set (self : t) (key : string) (value : json) (now : Q)
  : result unit * t :=
  let d := if OrderedDict.contains key (_cache self)
           then OrderedDict.move_to_end key (_cache self)
           else _cache self in
  let d := OrderedDict.setitem key (value, now) d in
  let (r, d') := evict (_max_size self) d in
  (r, with_cache self d').

(** One cache operation with the clock reading it observes. *)
Inductive op : Type :=
| Get (key : string) (now : Q)
| Set_ (key : string) (value : json) (now : Q).

Definition step (self : t) (o : op) : result unit * t :=
  match o with
  | Get key now => (Ok tt, snd (get self key now))
  | Set_ key value now => set self key value now
  end.

(** Runs the operations in order and lists the state reached after
    each one; stops at the first operation that raises. *)
Fixpoint run (self : t) (ops : list op) : result (list t) :=
  match ops with
  | [] => Ok []
  | o :: ops' =>
      match step self o with
      | (Err e, _) => Err e
      | (Ok _, self') =>
          match run self' ops' with
          | Err e => Err e
          | Ok states => Ok (self' :: states)
          end
      end
  end.

(** Inserts the items in order, each at its own clock reading. *)
Fixpoint set_all (self : t) (items : list (string * json * Q)) : result t :=
  match items with
  | [] => Ok self
  | (key, value, now) :: items' =>
      match set self key value now with
      | (Err e, _) => Err e
      | (Ok _, self') => set_all self' items'
      end
  end.

Definition keys (self : t) : list string := OrderedDict.keys (_cache self).

Definition item_key (item : string * json * Q) : string := fst (fst item).

(** The entry [set] stores for an item. *)
Definition item_entry (item : string * json * Q) : string * entry :=
  let '(key, value, now) := item in (key, (value, now)).

(** The keys that were stored in [before] and are gone in [after]. *)
Definition evicted_keys (before after : t) : list string :=
  filter (fun k => negb (OrderedDict.contains k (_cache after))) (keys before).

End LRUCache.

(** ** The expiry test in binary64

    [time.time()] returns a binary64 float and so does the stored
    timestamp; [time.time() - timestamp] is their correctly rounded
    difference.  The comparison of that float with the int
    [_ttl_seconds] is exact. *)

Module Binary64.

Local Open Scope Q_scope.

(** [2 ^ e], for any integer [e]. *)
Definition pow2 (e : Z) : Q := Qpower 2 e.

(** [floor (log2 q)], for [q > 0]. *)
Definition ilog2 (q : Q) : Z :=
  let e := (Z.log2 (Qnum q) - Z.log2 (Zpos (Qden q)))%Z in
  if Qle_bool (pow2 e) q then e else (e - 1)%Z.

(** The nearest integer, a tie going to the even one. *)
Definition rint (q : Q) : Z :=
  let f := Qfloor q in
  match Qcompare (q - inject_Z f) (1 # 2) with
  | Lt => f
  | Gt => (f + 1)%Z
  | Eq => if Z.even f then f else (f + 1)%Z
  end.

(** The binary64 number nearest to [q > 0], were there no largest
    one: 53 significant bits, and no bit below [2 ^ -1074]. *)
Definition round_pos (q : Q) : Q :=
  let p := Z.max (ilog2 q - 52) (-1074) in
  inject_Z (rint (q / pow2 p)) * pow2 p.

(** A result of binary64 arithmetic on finite numbers. *)
Inductive float : Type :=
| Finite (q : Q)
| Infinity (negative : bool).

(** From [2 ^ 1024] on, the rounded magnitude is an infinity. *)
Definition overflow (negative : bool) (magnitude : Q) : float :=
  if Qle_bool (pow2 1024) magnitude then Infinity negative
  else Finite (if negative then - magnitude else magnitude).

(** Round to nearest, ties to even. *)
Definition round (q : Q) : float :=
  match Qcompare q 0 with
  | Eq => Finite 0
  | Gt => overflow false (round_pos q)
  | Lt => overflow true (round_pos (- q))
  end.

(** [x - y] on two binary64 numbers. *)
Definition sub (x y : Q) : float := round (x - y).

(** [x > n] for a float and a Python int: the comparison is exact. *)
Definition gt_int (x : float) (n : Z) : bool :=
  match x with
  | Finite q => negb (Qle_bool q (inject_Z n))
  | Infinity negative => negb negative
  end.

(** [q] is a binary64 number. *)
Definition is_double (q : Q) : bool :=
  match round q with
  | Finite r => Qeq_bool r q
  | Infinity _ => false
  end.

(** The same float. *)
Definition eqb (x y : float) : bool :=
  match x, y with
  | Finite p, Finite q => Qeq_bool p q
  | Infinity s, Infinity t => Bool.eqb s t
  | _, _ => false
  end.

End Binary64.

Module FloatLRUCache.

(** [time.time() - timestamp > self._ttl_seconds], for binary64
    readings [now] and [timestamp]. *)
Definition expired (self : LRUCache.t) (timestamp now : Q) : bool :=
  Binary64.gt_int (Binary64.sub now timestamp) (LRUCache._ttl_seconds self).

(** [get(self, key)], where [now] is what [time.time()] returns. *)
Definition get (self : LRUCache.t) (key : string) (now : Q)
  : option json * LRUCache.t :=
  match OrderedDict.lookup key (LRUCache._cache self) with
  | None => (None, self)
  | Some (value, timestamp) =>
      if expired self timestamp now then
        (None,
         LRUCache.with_cache self (OrderedDict.remove key (LRUCache._cache self)))
      else
        (Some value,
         LRUCache.with_cache self
           (OrderedDict.move_to_end key (LRUCache._cache self)))
  end.

End FloatLRUCache.

(** ** Strings and bytes *)

Definition bytes := list byte.

Fixpoint bytes_eqb (a b : bytes) : bool :=
  match a, b with
  | [], [] => true
  | x :: a', y :: b' => Byte.eqb x y && bytes_eqb a' b'
  | _, _ => false
  end.

(** [b[lo:hi]] for [0 <= lo <= hi]. *)
Definition bytes_slice (lo hi : nat) (b : bytes) : bytes :=
  firstn (hi - lo) (skipn lo b).

(** [text.find(c)] for a one-character needle: first index, or [-1]. *)
Fixpoint str_find (c : ascii) (text : string) : Z :=
  match text with
  | EmptyString => -1
  | String a text' =>
      if Ascii.eqb a c then 0
      else let r := str_find c text' in
           if r =? -1 then -1 else r + 1
  end.

(** [text.rfind(c)] for a one-character needle: last index, or [-1]. *)
Fixpoint str_rfind (c : ascii) (text : string) : Z :=
  match text with
  | EmptyString => -1
  | String a text' =>
      let r := str_rfind c text' in
      if r =? -1 then (if Ascii.eqb a c then 0 else -1) else r + 1
  end.

(** [text[lo:hi]] for [0 <= lo <= hi]. *)
Definition str_slice (lo hi : Z) (text : string) : string :=
  substring (Z.to_nat lo) (Z.to_nat (hi - lo)) text.

(** ** The remote collaborator's data *)

(** What the program sends: [types.Part] and [types.Content]. *)
Inductive Part : Type :=
| Part_from_bytes (data : bytes) (mime_type : string)
| Part_from_text (text : string).

Record Content : Type := Build_Content {
  role : string;
  parts : list Part
}.

(** What comes back.  Every attribute on the path
    [response.candidates[0].content.parts[0].text] may be [None]. *)
Record RPart : Type := { rpart_text : option string }.
Record RContent : Type := { rcontent_parts : option (list RPart) }.
Record RCandidate : Type := { rcandidate_content : option RContent }.
Record Response : Type := {
  response_text : option string;
  response_candidates : option (list RCandidate)
}.

(** ** Effects *)

(** The lines the program prints, by the statement that prints them. *)
Inductive line : Type :=
| DebugReceived (n : nat)
| DebugPlantContext (context : json)
| DebugMessage (i : nat) (role : string) (has_text has_image : bool)
| DebugImage (i : nat) (size : nat) (mime : string)
| WarningDecode (i : nat) (e : exn)
| DebugAdding (n : nat) (role : string)
| DebugTotal (n : nat)
| ErrorLine (e : exn)
| Traceback (e : exn).

(** What the process does besides printing: backoff sleeps and calls
    to the remote collaborator, in the order they happen. *)
Inductive event : Type :=
| EvSleep (delay : Q)
| EvGenerate (model : string) (contents : list Content).

(** The module globals [_analysis_cache] and [_client], the clock, the
    history of sleeps and remote calls, and what was printed. *)
Record World : Type := Build_World {
  _analysis_cache : LRUCache.t;
  _client : option string;
  clock : Q;
  trace : list event;
  stdout : list line
}.

(** What the process is started with and the library calls it makes. *)
Record Env : Type := Build_Env {
  MAX_IMAGE_BYTES : option string;
  GEMINI_MODEL : string;
  GEMINI_API_KEY : option string;
  CACHE_MAX_SIZE : Z;
  CACHE_TTL_SECONDS : Z;
  (** [base64.b64decode]; raises [binascii.Error] on bad padding. *)
  b64decode : json -> result bytes;
  (** [hashlib.sha256(b).hexdigest()]. *)
  sha256_hexdigest : bytes -> string;
  (** [json.loads]; raises [json.JSONDecodeError]. *)
  json_loads : string -> result json;
  (** [int(s)]. *)
  int_of_str : string -> result Z;
  str_lower : string -> string;
  str_strip : string -> string;
  (** [prompts.py]: pure formatting. *)
  build_analyze_prompt : dict -> string;
  build_chat_prompt : list json -> json -> result string;
  (** [client.models.generate_content]: given the sleeps and remote
      calls so far, the request's outcome and how long it took. *)
  generate_content : list event -> string -> list Content -> result Response * Q
}.

(** The process right after import, at clock reading [now]. *)
Definition startup (env : Env) (now : Q) : World :=
  Build_World (LRUCache.__init__ (CACHE_MAX_SIZE env) (CACHE_TTL_SECONDS env))
              None now [] [].

(** World transformers that may raise. *)
Definition M (A : Type) : Type := World -> result A * World.

Definition ret {A} (a : A) : M A := fun w => (Ok a, w).

Definition raise {A} (e : exn) : M A := fun w => (Err e, w).

Definition bind {A B} (m : M A) (k : A -> M B) : M B :=
  fun w =>
    match m w with
    | (Ok a, w') => k a w'
    | (Err e, w') => (Err e, w')
    end.

(** [try: m  except Exception as e: h e]. *)
Definition try_except {A} (m : M A) (h : exn -> M A) : M A :=
  fun w =>
    match m w with
    | (Ok a, w') => (Ok a, w')
    | (Err e, w') => h e w'
    end.

Definition lift {A} (r : result A) : M A := fun w => (r, w).

Declare Scope monad_scope.
Delimit Scope monad_scope with monad.
Notation "x <- m ;; k" := (bind m (fun x => k))
  (at level 61, m at next level, right associativity) : monad_scope.
Notation "m ;;; k" := (bind m (fun _ => k))
  (at level 61, right associativity) : monad_scope.
Local Open Scope monad_scope.

Definition print_line (l : line) (w : World) : World :=
  Build_World (_analysis_cache w) (_client w) (clock w) (trace w)
              (stdout w ++ [l]).

Definition print (l : line) : M unit := fun w => (Ok tt, print_line l w).

(** [time.sleep(delay)]. *)
Definition sleep (delay : Q) : M unit :=
  fun w =>
    (Ok tt, Build_World (_analysis_cache w) (_client w) (clock w + delay)
                        (trace w ++ [EvSleep delay]) (stdout w)).

(** [_analysis_cache.get(key)], reading the clock. *)
Definition cache_get (key : string) : M (option json) :=
  fun w =>
    let (r, c) := LRUCache.get (_analysis_cache w) key (clock w) in
    (Ok r, Build_World c (_client w) (clock w) (trace w) (stdout w)).

(** [_analysis_cache.set(key, value)], reading the clock. *)
Definition cache_set (key : string) (value : json) : M unit :=
  fun w =>
    let (r, c) := LRUCache.set (_analysis_cache w) key value (clock w) in
    (r, Build_World c (_client w) (clock w) (trace w) (stdout w)).

(** ** The server functions *)

(** A response; [body] is the document that [json.dumps] serialises. *)
Record HttpResponse : Type := Build_HttpResponse {
  body : json;
  status : Z;
  headers : list (string * string)
}.

Record Request : Type := Build_Request {
  path : string;
  method : string;
  (** [request.get_json(silent=True)]: the parsed body, or [None]. *)
  get_json : json
}.

Definition V_image_required : exn := Exn ValueError "image_base64 is required".
Definition V_image_too_large : exn := Exn ValueError "image exceeds max size".
Definition V_messages_not_list : exn := Exn ValueError "messages must be a list".
Definition V_no_json : exn := Exn ValueError "No JSON object found in response".

(** [range(n)]. *)
Definition range (n : Z) : list Z := map Z.of_nat (seq 0 (Z.to_nat n)).

Definition str_nonempty (s : string) : bool := negb (String.eqb s "").

(** [obj.get(key, default)] on a value that need not be a dict. *)
Definition py_get (obj : json) (key : string) (default : json) : result json :=
  match obj with
  | JObj d => Ok (dict_get_default d key default)
  | _ => Err (Exn AttributeError "object has no attribute 'get'")
  end.

Section Server.
Variable env : Env.

(** [v.lower()] and [v.strip()] on a value that need not be a str. *)
Definition py_lower (v : json) : result string :=
  match v with
  | JStr s => Ok (str_lower env s)
  | _ => Err (Exn AttributeError "object has no attribute 'lower'")
  end.

Definition py_strip (v : json) : result string :=
  match v with
  | JStr s => Ok (str_strip env s)
  | _ => Err (Exn AttributeError "object has no attribute 'strip'")
  end.

Definition _get_client : M string :=
  fun w =>
    match _client w with
    | Some c => (Ok c, w)
    | None =>
        match GEMINI_API_KEY env with
        | Some api_key =>
            if str_nonempty api_key then
              (Ok api_key,
               Build_World (_analysis_cache w) (Some api_key) (clock w)
                           (trace w) (stdout w))
            else (Err (Exn RuntimeError "GEMINI_API_KEY is not set"), w)
        | None => (Err (Exn RuntimeError "GEMINI_API_KEY is not set"), w)
        end
    end.

(** [client.models.generate_content(model=..., contents=...)]. *)
Definition generate (model : string) (contents : list Content) : M Response :=
  fun w =>
    let (r, latency) := generate_content env (trace w) model contents in
    (r, Build_World (_analysis_cache w) (_client w) (clock w + latency)
                    (trace w ++ [EvGenerate model contents]) (stdout w)).

Definition _json_response (payload : json) (status : Z) : HttpResponse :=
  Build_HttpResponse payload status [("Content-Type", "application/json")].

Definition _error_response (code message : string) (status : Z) : HttpResponse :=
  _json_response
    (JObj [("error", JStr code); ("message", JStr message);
           ("retryable", JBool true)])
    status.

(** The body of [for attempt in range(max_retries + 1)], over the
    attempts that remain. *)
Fixpoint retry_loop {A} (func : M A) (max_retries : Z) (attempts : list Z)
         (delay : Q) : M A :=
  match attempts with
  | [] => raise (Exn RuntimeError "unreachable")
  | attempt :: attempts' =>
      try_except func
        (fun e =>
           if attempt =? max_retries then raise e
           else sleep delay ;;;
                retry_loop func max_retries attempts' (delay * 2)%Q)
  end.

Definition initial_delay : Q := 8 # 10.

Definition _call_with_retry {A} (func : M A) (max_retries : Z) : M A :=
  retry_loop func max_retries (range (max_retries + 1)) initial_delay.

(** [response.candidates[0].content.parts[0].text]; [None] where the
    path raises. *)
Definition candidates_path (response : Response) : option (option string) :=
  match response_candidates response with
  | Some (c :: _) =>
      match rcandidate_content c with
      | Some ct =>
          match rcontent_parts ct with
          | Some (p :: _) => Some (rpart_text p)
          | _ => None
          end
      | None => None
      end
  | _ => None
  end.

(** The result is a str or [None]. *)
Definition _extract_text (response : Response) : option string :=
  let fallback :=
    match candidates_path response with
    | Some t => t
    | None => Some ""
    end in
  match response_text response with
  | Some text => if str_nonempty text then Some text else fallback
  | None => fallback
  end.

Definition _extract_json (text : option string) : result json :=
  match text with
  | None => Err (Exn AttributeError "'NoneType' object has no attribute 'find'")
  | Some text =>
      let start := str_find "{"%char text in
      let end_ := str_rfind "}"%char text in
      if (start =? -1) || (end_ =? -1) || (end_ <=? start) then Err V_no_json
      else json_loads env (str_slice start (end_ + 1) text)
  end.

Definition _detect_mime_type (image_bytes : bytes) : string :=
  if bytes_eqb (bytes_slice 0 8 image_bytes)
               [x89; x50; x4e; x47; x0d; x0a; x1a; x0a] then "image/png"
  else if bytes_eqb (bytes_slice 0 2 image_bytes) [xff; xd8] then "image/jpeg"
  else if bytes_eqb (bytes_slice 0 6 image_bytes) [x47; x49; x46; x38; x37; x61]
          || bytes_eqb (bytes_slice 0 6 image_bytes) [x47; x49; x46; x38; x39; x61]
       then "image/gif"
  else if bytes_eqb (bytes_slice 0 4 image_bytes) [x52; x49; x46; x46]
          && bytes_eqb (bytes_slice 8 12 image_bytes) [x57; x45; x42; x50]
       then "image/webp"
  else "image/jpeg".

(** The size check of [_analyze]. *)
Definition check_max_bytes (image_bytes : bytes) : M unit :=
  match MAX_IMAGE_BYTES env with
  | Some s =>
      if str_nonempty s then
        max_bytes <- lift (int_of_str env s) ;;
        if Z.of_nat (List.length image_bytes) >? max_bytes
        then raise V_image_too_large
        else ret tt
      else ret tt
  | None => ret tt
  end.

(** The rest of [_analyze] when [if cached:] is false ([None] or a
    falsy stored value): the remote call, the parse, and the store. *)
Definition _analyze_remote (payload : dict) (image_bytes : bytes)
           (image_hash : string) : M json :=
  let prompt := build_analyze_prompt env payload in
  _get_client ;;;
  let mime_type := _detect_mime_type image_bytes in
  let parts := [Part_from_bytes image_bytes mime_type; Part_from_text prompt] in
  response <- generate (GEMINI_MODEL env) [Build_Content "user" parts] ;;
  let text := _extract_text response in
  data <- lift (_extract_json text) ;;
  cache_set image_hash data ;;;
  ret data.

Definition _analyze (payload : dict) : M json :=
  let image_base64 := dict_get payload "image_base64" in
  if negb (truthy image_base64) then raise V_image_required
  else
    image_bytes <- lift (b64decode env image_base64) ;;
    check_max_bytes image_bytes ;;;
    let image_hash := sha256_hexdigest env image_bytes in
    cached <- cache_get image_hash ;;
    match cached with
    | Some v =>
        if truthy v then ret v
        else _analyze_remote payload image_bytes image_hash
    | None => _analyze_remote payload image_bytes image_hash
    end.

(** The [try] block of one chat message: the image part, or nothing
    and a warning when decoding raises. *)
Definition chat_image_parts (i : nat) (image_base64 : json) : M (list Part) :=
  if truthy image_base64 then
    try_except
      (image_bytes <- lift (b64decode env image_base64) ;;
       let mime_type := _detect_mime_type image_bytes in
       print (DebugImage i (List.length image_bytes) mime_type) ;;;
       ret [Part_from_bytes image_bytes mime_type])
      (fun e => print (WarningDecode i e) ;;; ret [])
  else ret [].

(** One iteration of [for i, msg in enumerate(messages)]: the
    conversation turns it appends. *)
Definition chat_message (i : nat) (msg : json) : M (list Content) :=
  role <- lift (match py_get msg "role" (JStr "user") with
                | Ok v => py_lower v
                | Err e => Err e
                end) ;;
  let role := if String.eqb role "assistant" then "model" else role in
  content_text <- lift (match py_get msg "content" (JStr "") with
                        | Ok v => py_strip v
                        | Err e => Err e
                        end) ;;
  image_base64 <- lift (py_get msg "image_base64" JNull) ;;
  print (DebugMessage i role (str_nonempty content_text) (truthy image_base64)) ;;;
  image_parts <- chat_image_parts i image_base64 ;;
  let parts := image_parts ++
               (if str_nonempty content_text
                then [Part_from_text content_text] else []) in
  match parts with
  | [] => ret []
  | _ :: _ =>
      print (DebugAdding (List.length parts) role) ;;;
      ret [Build_Content role parts]
  end.

Fixpoint chat_messages (i : nat) (messages : list json) (contents : list Content)
  : M (list Content) :=
  match messages with
  | [] => ret contents
  | msg :: messages' =>
      added <- chat_message i msg ;;
      chat_messages (S i) messages' (contents ++ added)
  end.

Definition understood : string :=
  "Understood. I'll provide plant care assistance with JSON responses.".

Definition _chat (payload : dict) : M json :=
  match dict_get payload "messages" with
  | JList messages =>
      let context :=
        let c := dict_get payload "plant_context" in
        if truthy c then c else JObj [] in
      _get_client ;;;
      print (DebugReceived (List.length messages)) ;;;
      print (DebugPlantContext context) ;;;
      system_prompt <- lift (build_chat_prompt env [] context) ;;
      let contents :=
        match messages with
        | [] => []
        | _ :: _ =>
            [Build_Content "user" [Part_from_text system_prompt];
             Build_Content "model" [Part_from_text understood]]
        end in
      contents <- chat_messages 0 messages contents ;;
      print (DebugTotal (List.length contents)) ;;;
      response <- generate (GEMINI_MODEL env) contents ;;
      let text := _extract_text response in
      lift (_extract_json text)
  | _ => raise V_messages_not_list
  end.

(** The [try] block of [handle]. *)
Definition route (path : string) (payload : dict) : M HttpResponse :=
  if String.eqb path "/analyze" then
    data <- _call_with_retry (_analyze payload) 2 ;;
    ret (_json_response data 200)
  else if String.eqb path "/chat" then
    data <- _call_with_retry (_chat payload) 2 ;;
    ret (_json_response data 200)
  else ret (_error_response "not_found" "Unknown endpoint" 404).

Definition handle (request : Request) (w : World) : HttpResponse * World :=
  let path := if str_nonempty (path request) then path request else "/" in
  if negb (String.eqb (method request) "POST") then
    (_json_response (JObj [("error", JStr "method_not_allowed")]) 405, w)
  else
    match get_json request with
    | JObj payload =>
        match route path payload w with
        | (Ok response, w') => (response, w')
        | (Err exc, w') =>
            if is_ValueError exc then
              (_error_response "bad_request" (exn_str exc) 400, w')
            else
              (_error_response "gemini_failed"
                               "Gemini request failed. Please retry." 502,
               print_line (Traceback exc) (print_line (ErrorLine exc) w'))
        end
    | _ => (_error_response "invalid_json" "Request body must be JSON" 400, w)
    end.

End Server.

(** ** Reference descriptions used by the statements *)

Definition set_analysis_cache (c : LRUCache.t) (w : World) : World :=
  Build_World c (_client w) (clock w) (trace w) (stdout w).

(** Worlds that differ at most in what was printed. *)
Definition same_but_stdout (w1 w2 : World) : Prop :=
  _analysis_cache w1 = _analysis_cache w2 /\ _client w1 = _client w2 /\
  clock w1 = clock w2 /\ trace w1 = trace w2.

(** The world after [n] rounds of "invoke [func], then sleep", the sleep
    starting at [delay] and doubling each round. *)
Fixpoint failed_rounds {A} (func : M A) (n : nat) (delay : Q) (w : World) : World :=
  match n with
  | O => w
  | S n' => failed_rounds func n' (delay * 2)%Q (snd (sleep delay (snd (func w))))
  end.

(** [func] raises in each of those [n] rounds. *)
Fixpoint fails_for {A} (func : M A) (n : nat) (delay : Q) (w : World) : Prop :=
  match n with
  | O => True
  | S n' =>
      (exists e, fst (func w) = Err e) /\
      fails_for func n' (delay * 2)%Q (snd (sleep delay (snd (func w))))
  end.

(** [delay, 2 * delay, 4 * delay, ...], [n] of them. *)
Fixpoint backoff_delays (n : nat) (delay : Q) : list Q :=
  match n with
  | O => []
  | S n' => delay :: backoff_delays n' (delay * 2)%Q
  end.

(** [delay] doubled [n] times. *)
Fixpoint doubled (n : nat) (delay : Q) : Q :=
  match n with
  | O => delay
  | S n' => doubled n' (delay * 2)%Q
  end.

(** One [ev] per attempt, a sleep between consecutive attempts. *)
Fixpoint retry_trace (ev : event) (delays : list Q) : list event :=
  match delays with
  | [] => [ev]
  | d :: delays' => ev :: EvSleep d :: retry_trace ev delays'
  end.

Definition is_sleep (ev : event) : bool :=
  match ev with EvSleep _ => true | EvGenerate _ _ => false end.

Definition is_generate (ev : event) : bool :=
  match ev with EvGenerate _ _ => true | EvSleep _ => false end.

(** The input-validation failures of the two operations: the endpoint,
    the payload, and the exception the check raises. *)
Inductive validation_failure (env : Env) : string -> dict -> exn -> Prop :=
| VF_missing_image payload :
    truthy (dict_get payload "image_base64") = false ->
    validation_failure env "/analyze" payload V_image_required
| VF_decode payload e :
    truthy (dict_get payload "image_base64") = true ->
    b64decode env (dict_get payload "image_base64") = Err e ->
    is_ValueError e = true ->
    validation_failure env "/analyze" payload e
| VF_oversized payload image_bytes limit max_bytes :
    truthy (dict_get payload "image_base64") = true ->
    b64decode env (dict_get payload "image_base64") = Ok image_bytes ->
    MAX_IMAGE_BYTES env = Some limit ->
    str_nonempty limit = true ->
    int_of_str env limit = Ok max_bytes ->
    Z.of_nat (List.length image_bytes) > max_bytes ->
    validation_failure env "/analyze" payload V_image_too_large
| VF_messages payload :
    (forall messages, dict_get payload "messages" <> JList messages) ->
    validation_failure env "/chat" payload V_messages_not_list.

(** A failure body with all three fields. *)
Definition error_body (code message : string) : json :=
  JObj [("error", JStr code); ("message", JStr message); ("retryable", JBool true)].

(** A response that exposes neither a truthy [text] nor the candidates
    path. *)
Definition textless (response : Response) : Prop :=
  (response_text response = None \/ response_text response = Some "") /\
  candidates_path response = None.

(** Two computations that, from related worlds, give the same result
    and related worlds. *)
Definition related (R : World -> World -> Prop) {A} (m1 m2 : M A) : Prop :=
  forall w1 w2, R w1 w2 ->
    fst (m1 w1) = fst (m2 w2) /\ R (snd (m1 w1)) (snd (m2 w2)).

(** Message lists whose messages are handled alike, index by index. *)
Definition alike (R : World -> World -> Prop) (env : Env)
           (messages1 messages2 : list json) : Prop :=
  Forall2 (fun msg1 msg2 =>
             forall i, related R (chat_message env i msg1) (chat_message env i msg2))
          messages1 messages2.

(** The worlds [set_analysis_cache c w], against [w]. *)
Definition cache_swapped (c : LRUCache.t) (w1 w2 : World) : Prop :=
  w1 = set_analysis_cache c w2.

(** The body of a 405 response. *)
Definition method_not_allowed_body : json :=
  JObj [("error", JStr "method_not_allowed")].

(** The last [n] items of a list. *)
Definition lastn {A} (n : nat) (l : list A) : list A :=
  skipn (List.length l - n) l.

(** The remote collaborator answers every call, with a response that
    exposes no text. *)
Definition always_textless (env : Env) : Prop :=
  forall history model contents,
  exists response latency,
    generate_content env history model contents = (Ok response, latency) /\
    textless response.

(** A client exists already or can be created. *)
Definition client_available (env : Env) (w : World) : Prop :=
  (exists c, _client w = Some c) \/
  (exists api_key, GEMINI_API_KEY env = Some api_key /\ str_nonempty api_key = true).

(** A computation that changes nothing but what was printed. *)
Definition only_prints {A} (m : M A) : Prop :=
  forall w, same_but_stdout w (snd (m w)).

(** A message dict without its [image_base64] entry. *)
Definition drop_image (msg : dict) : dict :=
  filter (fun kv => negb (String.eqb (fst kv) "image_base64")) msg.

(** ** A concrete environment for examples

    Stand-ins for the library calls that agree with the libraries on
    the inputs the examples use. *)
Module Demo.

(** [type(v).__name__]; a number without a fraction is an [int]. *)
Definition type_name (v : json) : string :=
  match v with
  | JNull => "NoneType"
  | JBool _ => "bool"
  | JNum q => if Pos.eqb (Qden q) 1 then "int" else "float"
  | JStr _ => "str"
  | JList _ => "list"
  | JObj _ => "dict"
  end.

(** [b64decode]: knows ["QQ=="] (the byte [A]) and ["QUJD"] (the bytes
    [ABC]); any other str is taken as badly padded, as ["abc"] is; a
    value that is not a str is a [TypeError]. *)
Definition b64decode (v : json) : result bytes :=
  match v with
  | JStr s =>
      if String.eqb s "QQ==" then Ok [x41]
      else if String.eqb s "QUJD" then Ok [x41; x42; x43]
      else Err (Exn BinasciiError "Incorrect padding")
  | _ =>
      Err (Exn TypeError
               ("argument should be a bytes-like object or ASCII string, not '"
                ++ type_name v ++ "'"))
  end.

Definition hex_digit (n : nat) : ascii :=
  nth n ["0"; "1"; "2"; "3"; "4"; "5"; "6"; "7"; "8"; "9";
         "a"; "b"; "c"; "d"; "e"; "f"]%char "0"%char.

(** An injective stand-in for the digest: the hex dump of the bytes. *)
Fixpoint hexdigest (b : bytes) : string :=
  match b with
  | [] => ""
  | x :: b' =>
      let n := Byte.to_nat x in
      String (hex_digit (n / 16)) (String (hex_digit (n mod 16)) (hexdigest b'))
  end.

Definition dq : string := String (ascii_of_nat 34) "".

(** The text of a one-field JSON object: status healthy. *)
Definition healthy_text : string :=
  ("{" ++ dq ++ "status" ++ dq ++ ": " ++ dq ++ "healthy" ++ dq ++ "}")%string.

(** [json.loads] on the documents the examples use: two objects and
    the malformed [{oops}]; any other string is taken as rejected. *)
Definition json_loads (s : string) : result json :=
  if String.eqb s "{}" then Ok (JObj [])
  else if String.eqb s healthy_text then Ok (JObj [("status", JStr "healthy")])
  else if String.eqb s "{oops}" then
    Err (Exn JSONDecodeError
             "Expecting property name enclosed in double quotes: line 1 column 2 (char 1)")
  else Err (Exn JSONDecodeError "Expecting value").

(** [int] on a plain run of decimal digits. *)
Fixpoint digits (acc : Z) (s : string) : option Z :=
  match s with
  | EmptyString => Some acc
  | String c s' =>
      let n := Z.of_nat (nat_of_ascii c) in
      if (48 <=? n) && (n <=? 57) then digits (10 * acc + (n - 48)) s' else None
  end.

Definition int_of_str (s : string) : result Z :=
  match s with
  | EmptyString => Err (Exn ValueError "invalid literal for int()")
  | _ => match digits 0 s with
         | Some n => Ok n
         | None => Err (Exn ValueError "invalid literal for int()")
         end
  end.

(** ASCII [lower]. *)
Fixpoint lower (s : string) : string :=
  match s with
  | EmptyString => EmptyString
  | String c s' =>
      let n := nat_of_ascii c in
      String (if (65 <=? n)%nat && (n <=? 90)%nat then ascii_of_nat (n + 32) else c)
             (lower s')
  end.

(** The examples strip nothing. *)
Definition strip (s : string) : string := s.

Definition build_chat_prompt (messages : list json) (context : json) : result string :=
  match context with
  | JObj _ => Ok "You are a plant care assistant."
  | _ => Err (Exn AttributeError "object has no attribute 'get'")
  end.

(** The environment, by the size limit and the remote collaborator;
    the other settings are the defaults. *)
Definition env (limit : option string)
           (remote : list event -> string -> list Content -> result Response * Q)
  : Env :=
  Build_Env limit "gemini-3-flash-preview" (Some "key") 100 3600
            b64decode hexdigest json_loads int_of_str lower strip
            (fun _ => "You are a plant health assistant.")
            build_chat_prompt remote.

Definition text_response (text : string) : Response :=
  {| response_text := Some text; response_candidates := None |}.

(** A collaborator that answers [text] after one second. *)
Definition answers (text : string)
  : list event -> string -> list Content -> result Response * Q :=
  fun _ _ _ => (Ok (text_response text), 1%Q).

(** A collaborator that is down. *)
Definition down : list event -> string -> list Content -> result Response * Q :=
  fun _ _ _ => (Err (Exn ProviderError "503 UNAVAILABLE"), 1%Q).

(** An operation that calls a collaborator that is down: it records
    the call and raises. *)
Definition failing_call : M json :=
  fun w =>
    (Err (Exn ProviderError "503 UNAVAILABLE"),
     Build_World (_analysis_cache w) (_client w) (clock w)
                 (trace w ++ [EvGenerate "gemini-3-flash-preview" []])
                 (stdout w)).

(** A chat message with some text and an attachment that is not
    base64. *)
Definition message_with_bad_image : dict :=
  [("role", JStr "user"); ("content", JStr "what is this plant?");
   ("image_base64", JStr "abc")].

(** The world of a process that just started, at clock reading 0;
    the cache has the default capacity 100 and TTL 3600. *)
Definition start : World := startup (env None down) 0.

Definition post (path : string) (payload : dict) : Request :=
  Build_Request path "POST" (JObj payload).

End Demo.

(** ** The prompt builders ([prompts.py]) *)

Module Prompts.

Local Open Scope string_scope.

(** A line break, the [\n] of the source's literals. *)
Definition nl : string := String (ascii_of_nat 10) "".

(** [x or "Unknown"]. *)
Definition or_unknown (v : json) : json :=
  if truthy v then v else JStr "Unknown".

(** [x == "Unknown"]. *)
Definition is_unknown (v : json) : bool :=
  match v with
  | JStr s => String.eqb s "Unknown"
  | _ => false
  end.

Section WithFormat.
(** [str(v)] for a value that is not a str, as an f-string renders it. *)
Variable str_of : json -> string.
Variable env : Env.

(** [f"{v}"]. *)
Definition fmt (v : json) : string :=
  match v with
  | JStr s => s
  | _ => str_of v
  end.

Definition analyze_preamble : string :=
  "You are a plant health assistant. Analyze the plant photo and return JSON only. "
  ++ "Do not include extra text or markdown." ++ nl ++ nl
  ++ "Return a JSON object with exactly these keys:" ++ nl
  ++ "status (one of: healthy, needs_attention, critical)," ++ nl
  ++ "confidence (0.0 to 1.0)," ++ nl
  ++ "issues (array of strings)," ++ nl
  ++ "recommendations (array of strings)," ++ nl
  ++ "suggested_interval_days (number)," ++ nl
  ++ "rationale (string)," ++ nl
  ++ "suggested_name (string, optional - provide if plant_name is Unknown)."
  ++ nl ++ nl
  ++ "Context:" ++ nl.

Definition name_note : string :=
  nl ++ "NOTE: The user has not provided a name for this plant. "
  ++ "Please analyze the image and suggest an appropriate name in the 'suggested_name' field. "
  ++ "This could be the common name or scientific name based on what you can identify."
  ++ nl.

Definition analyze_closing : string :=
  nl ++ "If information is uncertain, state that in the rationale.".

Definition build_analyze_prompt (context : dict) : string :=
  let plant_name := or_unknown (dict_get context "plant_name") in
  let species := or_unknown (dict_get context "species") in
  let season := or_unknown (dict_get context "season") in
  let last_watered := or_unknown (dict_get context "last_watered") in
  let current_date := or_unknown (dict_get context "current_date") in
  let custom_prompt := dict_get context "custom_prompt" in
  let base_prompt :=
    analyze_preamble
    ++ "- plant_name: " ++ fmt plant_name ++ nl
    ++ "- species: " ++ fmt species ++ nl
    ++ "- season: " ++ fmt season ++ nl
    ++ "- current_date: " ++ fmt current_date ++ nl
    ++ "- last_watered: " ++ fmt last_watered ++ nl in
  let base_prompt :=
    if is_unknown plant_name then base_prompt ++ name_note else base_prompt in
  let base_prompt :=
    if truthy custom_prompt then
      (base_prompt
       ++ (nl ++ "User's specific question/concern: " ++ fmt custom_prompt ++ nl))
      ++ ("Please address this question in your analysis." ++ nl)
    else base_prompt in
  base_prompt ++ analyze_closing.

Definition chat_preamble : string :=
  "You are a plant care assistant. Respond to the user and return JSON only. "
  ++ "Do not include extra text or markdown." ++ nl ++ nl
  ++ "Return a JSON object with exactly these keys:" ++ nl
  ++ "reply (string)," ++ nl
  ++ "action_suggestions (array of strings)," ++ nl
  ++ "safety_note (string, optional)." ++ nl ++ nl
  ++ "Plant context:" ++ nl.

Definition chat_image_hint : string :=
  "If the user has attached an image, analyze it in your response. "
  ++ "Reference images in the conversation history when relevant (e.g., 'Based on the photo you shared earlier...').".

(** The system prompt, from a context that is a dict. *)
Definition system_prompt (context : dict) : string :=
  let plant_name := or_unknown (dict_get context "plant_name") in
  let species := or_unknown (dict_get context "species") in
  let status := or_unknown (dict_get context "last_assessment_status") in
  let current_date := or_unknown (dict_get context "current_date") in
  chat_preamble
  ++ "- plant_name: " ++ fmt plant_name ++ nl
  ++ "- species: " ++ fmt species ++ nl
  ++ "- current_date: " ++ fmt current_date ++ nl
  ++ "- last_assessment_status: " ++ fmt status ++ nl ++ nl
  ++ chat_image_hint.

(** One iteration of [for msg in messages]: the line it appends, if
    any. *)
Definition history_line (msg : json) : result (option string) :=
  match py_get msg "role" (JStr "user") with
  | Err e => Err e
  | Ok r =>
      match py_strip env r with
      | Err e => Err e
      | Ok r' =>
          let role := str_lower env r' in
          match py_get msg "content" (JStr "") with
          | Err e => Err e
          | Ok c =>
              match py_strip env c with
              | Err e => Err e
              | Ok content =>
                  match py_get msg "image_base64" JNull with
                  | Err e => Err e
                  | Ok image =>
                      if str_nonempty content then
                        let image_note :=
                          if truthy image then " [with image]" else "" in
                        Ok (Some (role ++ ": " ++ content ++ image_note))
                      else Ok None
                  end
              end
          end
      end
  end.

Fixpoint history_lines (messages : list json) (lines : list string)
  : result (list string) :=
  match messages with
  | [] => Ok lines
  | msg :: messages' =>
      match history_line msg with
      | Err e => Err e
      | Ok (Some l) => history_lines messages' (lines ++ [l])
      | Ok None => history_lines messages' lines
      end
  end.

Definition build_chat_prompt (messages : list json) (context : json)
  : result string :=
  match context with
  | JObj context =>
      let system_prompt := system_prompt context in
      match messages with
      | [] => Ok system_prompt
      | _ :: _ =>
          match history_lines messages [] with
          | Err e => Err e
          | Ok lines =>
              let history :=
                match lines with
                | [] => "user: (no messages)"
                | _ :: _ => String.concat nl lines
                end in
              Ok (system_prompt ++ nl ++ nl ++ "Conversation:" ++ nl ++ history ++ nl)
          end
      end
  | _ => Err (Exn AttributeError "object has no attribute 'get'")
  end.

(** [env] with the two builders above in place. *)
Definition install : Env :=
  Build_Env (MAX_IMAGE_BYTES env) (GEMINI_MODEL env) (GEMINI_API_KEY env)
            (CACHE_MAX_SIZE env) (CACHE_TTL_SECONDS env)
            (b64decode env) (sha256_hexdigest env) (json_loads env)
            (int_of_str env) (str_lower env) (str_strip env)
            build_analyze_prompt build_chat_prompt (generate_content env).
End WithFormat.
End Prompts.

(** ** Reference descriptions used by the further statements *)

(** The sum of a list of delays. *)
Definition sum_delays (delays : list Q) : Q := fold_right Qplus 0%Q delays.

(** [c in text], for a character. *)
Fixpoint occurs (c : ascii) (text : string) : bool :=
  match text with
  | EmptyString => false
  | String a text' => Ascii.eqb a c || occurs c text'
  end.

(** The magic numbers [_detect_mime_type] looks for. *)
Definition PNG_SIGNATURE : bytes := [x89; x50; x4e; x47; x0d; x0a; x1a; x0a].
Definition JPEG_SIGNATURE : bytes := [xff; xd8].
Definition GIF87a : bytes := [x47; x49; x46; x38; x37; x61].
Definition GIF89a : bytes := [x47; x49; x46; x38; x39; x61].
Definition RIFF : bytes := [x52; x49; x46; x46].
Definition WEBP : bytes := [x57; x45; x42; x50].

(** The number of remote calls and of sleeps in a history. *)
Definition generate_count (evs : list event) : nat :=
  List.length (filter is_generate evs).

Definition sleep_count (evs : list event) : nat :=
  List.length (filter is_sleep evs).

(** A computation whose effect on the history is to append at most
    [g] remote calls and [s] sleeps. *)
Definition bounded (g s : nat) {A} (m : M A) : Prop :=
  forall w, exists evs,
    trace (snd (m w)) = trace w ++ evs /\
    (generate_count evs <= g)%nat /\ (sleep_count evs <= s)%nat.

(** The statuses [handle] answers with. *)
Definition statuses : list Z := [200; 400; 404; 405; 502].

(** The API key is not configured. *)
Definition no_api_key (env : Env) : Prop :=
  GEMINI_API_KEY env = None \/ GEMINI_API_KEY env = Some "".

(** Every remote call ends badly in the same way: the collaborator
    raises [e], or answers something whose parse raises [e]. *)
Definition attempts_fail_with (env : Env) (e : exn) : Prop :=
  forall history model contents,
    match fst (generate_content env history model contents) with
    | Ok response => _extract_json env (_extract_text response) = Err e
    | Err e' => e' = e
    end.

(** The remote call an analyze request makes for an image. *)
Definition analyze_call (env : Env) (payload : dict) (image_bytes : bytes) : event :=
  EvGenerate (GEMINI_MODEL env)
    [Build_Content "user"
       [Part_from_bytes image_bytes (_detect_mime_type image_bytes);
        Part_from_text (build_analyze_prompt env payload)]].

(** How [handle] answers an operation that ended in [e]. *)
Definition failure_response (e : exn) : HttpResponse :=
  if is_ValueError e then _error_response "bad_request" (exn_str e) 400
  else _error_response "gemini_failed" "Gemini request failed. Please retry." 502.

(** A response without a truthy [text] whose candidates path leads to
    a part whose text is [None]. *)
Definition text_is_none (response : Response) : Prop :=
  (response_text response = None \/ response_text response = Some "") /\
  candidates_path response = Some None.

(** The state an analyze attempt needs to get as far as the remote
    call: the image's fingerprint is not cached and a client can be
    had. *)
Definition analyze_ready (env : Env) (image_bytes : bytes) (w : World) : Prop :=
  OrderedDict.lookup (sha256_hexdigest env image_bytes)
                     (LRUCache._cache (_analysis_cache w)) = None /\
  client_available env w.

(** The remote collaborator answers every call with something that
    parses. *)
Definition always_answers_json (env : Env) : Prop :=
  forall history model contents,
  exists response latency data,
    generate_content env history model contents = (Ok response, latency) /\
    _extract_json env (_extract_text response) = Ok data.

(** A chat message the loop cannot read: not an object, or with a
    [role] or a [content] that is not a string. *)
Definition malformed_message (msg : json) : Prop :=
  (forall d, msg <> JObj d) \/
  (exists d, msg = JObj d /\
             forall s, dict_get_default d "role" (JStr "user") <> JStr s) \/
  (exists d, msg = JObj d /\
             forall s, dict_get_default d "content" (JStr "") <> JStr s).

(** A turn the remote collaborator accepts: it has parts, and its role
    is not the label [assistant]. *)
Definition proper_turn (c : Content) : Prop :=
  role c <> "assistant" /\ parts c <> [].

(** The context keys [build_analyze_prompt] reads, and those among
    them it defaults with [or "Unknown"]. *)
Definition analyze_prompt_keys : list string :=
  ["plant_name"; "species"; "season"; "last_watered"; "current_date";
   "custom_prompt"].

Definition analyze_defaulted_keys : list string :=
  ["plant_name"; "species"; "season"; "last_watered"; "current_date"].

(** A well-formed history message whose content is blank once
    stripped. *)
Definition blank_message (env : Env) (msg : json) : Prop :=
  exists d r c,
    msg = JObj d /\
    dict_get_default d "role" (JStr "user") = JStr r /\
    dict_get_default d "content" (JStr "") = JStr c /\
    str_strip env c = "".

(** ** The conversation of a chat request, message by message *)

(** A chat message the loop can read: an object whose [role] and
    [content] are strings. *)
Definition readable_message (msg : json) : Prop :=
  exists d r c,
    msg = JObj d /\
    dict_get_default d "role" (JStr "user") = JStr r /\
    dict_get_default d "content" (JStr "") = JStr c.

Definition as_str (v : json) : string :=
  match v with
  | JStr s => s
  | _ => ""
  end.

(** The role and the text of the turn a readable message gives. *)
Definition turn_role (env : Env) (msg : dict) : string :=
  let role := str_lower env (as_str (dict_get_default msg "role" (JStr "user"))) in
  if String.eqb role "assistant" then "model" else role.

Definition turn_text (env : Env) (msg : dict) : string :=
  str_strip env (as_str (dict_get_default msg "content" (JStr ""))).

(** The image part of a message: none without an image, and none
    when the image does not decode. *)
Definition image_part (env : Env) (image_base64 : json) : list Part :=
  if truthy image_base64 then
    match b64decode env image_base64 with
    | Ok image_bytes =>
        [Part_from_bytes image_bytes (_detect_mime_type image_bytes)]
    | Err _ => []
    end
  else [].

Definition turn_parts (env : Env) (msg : dict) : list Part :=
  image_part env (dict_get_default msg "image_base64" JNull)
  ++ (if str_nonempty (turn_text env msg)
      then [Part_from_text (turn_text env msg)] else []).

(** The turns a readable message adds to the conversation: one, or
    none when it has neither text nor image part. *)
Definition message_turn (env : Env) (msg : json) : list Content :=
  match msg with
  | JObj d =>
      match turn_parts env d with
      | [] => []
      | _ :: _ => [Build_Content (turn_role env d) (turn_parts env d)]
      end
  | _ => []
  end.

Definition conversation (env : Env) (messages : list json) : list Content :=
  flat_map (message_turn env) messages.

(** The lines the loop prints for message [i]. *)
Definition image_lines (env : Env) (i : nat) (image_base64 : json) : list line :=
  if truthy image_base64 then
    match b64decode env image_base64 with
    | Ok image_bytes =>
        [DebugImage i (List.length image_bytes) (_detect_mime_type image_bytes)]
    | Err e => [WarningDecode i e]
    end
  else [].

Definition message_lines (env : Env) (i : nat) (msg : json) : list line :=
  match msg with
  | JObj d =>
      DebugMessage i (turn_role env d) (str_nonempty (turn_text env d))
                   (truthy (dict_get_default d "image_base64" JNull))
      :: image_lines env i (dict_get_default d "image_base64" JNull)
      ++ match turn_parts env d with
         | [] => []
         | _ :: _ => [DebugAdding (List.length (turn_parts env d)) (turn_role env d)]
         end
  | _ => []
  end.

Fixpoint conversation_lines (env : Env) (i : nat) (messages : list json)
  : list line :=
  match messages with
  | [] => []
  | msg :: messages' =>
      message_lines env i msg ++ conversation_lines env (S i) messages'
  end.

Definition print_lines (ls : list line) (w : World) : World :=
  Build_World (_analysis_cache w) (_client w) (clock w) (trace w)
              (stdout w ++ ls).

(** The two turns that carry the system prompt, for a non-empty
    message list. *)
Definition system_turns (messages : list json) (system_prompt : string)
  : list Content :=
  match messages with
  | [] => []
  | _ :: _ =>
      [Build_Content "user" [Part_from_text system_prompt];
       Build_Content "model" [Part_from_text understood]]
  end.

(** What an operation returns for a conversation: the parse of the
    collaborator's answer, or the collaborator's exception. *)
Definition answer_of (env : Env) (history : list event) (contents : list Content)
  : result json :=
  match fst (generate_content env history (GEMINI_MODEL env) contents) with
  | Ok response => _extract_json env (_extract_text response)
  | Err e => Err e
  end.

(** The remote collaborator raises [e] at every call. *)
Definition remote_raises (env : Env) (e : exn) : Prop :=
  forall history model contents,
    fst (generate_content env history model contents) = Err e.

(** ** Further sample inputs *)

Module Samples.

(** A response whose [text] is [None] and whose first candidate's
    first part has the text [None]. *)
Definition none_response : Response :=
  {| response_text := None;
     response_candidates :=
       Some [ {| rcandidate_content :=
                   Some {| rcontent_parts := Some [ {| rpart_text := None |} ] |} |} ] |}.

Definition answers_none
  : list event -> string -> list Content -> result Response * Q :=
  fun _ _ _ => (Ok none_response, 1%Q).

(** The image [A], alone and with a question. *)
Definition image_payload : dict := [("image_base64", JStr "QQ==")].

Definition question_payload : dict :=
  [("image_base64", JStr "QQ==");
   ("custom_prompt", JStr "why are the leaves yellow?")].

(** The environment of [Demo] without an API key, and with a cache
    of capacity 0. *)
Definition no_key_env : Env :=
  Build_Env None "gemini-3-flash-preview" None 100 3600
            Demo.b64decode Demo.hexdigest Demo.json_loads Demo.int_of_str
            Demo.lower Demo.strip
            (fun _ => "You are a plant health assistant.")
            Demo.build_chat_prompt Demo.down.

Definition no_cache_env
           (remote : list event -> string -> list Content -> result Response * Q)
  : Env :=
  Build_Env None "gemini-3-flash-preview" (Some "key") 0 3600
            Demo.b64decode Demo.hexdigest Demo.json_loads Demo.int_of_str
            Demo.lower Demo.strip
            (fun _ => "You are a plant health assistant.")
            Demo.build_chat_prompt remote.

(** A history message without text. *)
Definition blank : json := JObj [("role", JStr "user"); ("content", JStr "")].

(** An operation that raises and does nothing else. *)
Definition quiet : M json := raise (Exn ProviderError "503 UNAVAILABLE").

(** A full cache of capacity 2. *)
Definition two_entries : LRUCache.t :=
  LRUCache.Build [("a", (JObj [], 1%Q)); ("b", (JObj [], 2%Q))] 2 3600.

(** A collaborator whose first answer exposes no text and which
    then behaves like [next]. *)
Definition textless_then
           (next : list event -> string -> list Content -> result Response * Q)
  : list event -> string -> list Content -> result Response * Q :=
  fun history model contents =>
    match generate_count history with
    | O => (Ok (Demo.text_response ""), 1%Q)
    | S _ => next history model contents
    end.

(** A collaborator that raises a [ValueError]. *)
Definition confused : list event -> string -> list Content -> result Response * Q :=
  fun _ _ _ => (Err (Exn ValueError "unsupported response"), 1%Q).

(** The binary64 numbers that the literals [0.1], [0.3] and [3600.3]
    denote. *)
Definition float_0_1 : Q := Qmake 3602879701896397 (2 ^ 55).
Definition float_0_3 : Q := Qmake 5404319552844595 (2 ^ 54).
Definition float_3600_3 : Q := Qmake 3958571713481933 (2 ^ 40).

(** A cache holding one entry, stored at [0.3]. *)
Definition stored_at_0_3 : LRUCache.t :=
  snd (LRUCache.set (LRUCache.__init__ 100 3600) "k"
                    (JObj [("status", JStr "healthy")]) float_0_3).

(** A chat message with an attachment that is not base64, between
    two plain ones. *)
Definition three_messages : list json :=
  [JObj [("role", JStr "user"); ("content", JStr "hello")];
   JObj Demo.message_with_bad_image;
   JObj [("role", JStr "assistant"); ("content", JStr "a fern")]].

(** [str] of a value that is not a str: not needed by the samples. *)
Definition str_of (v : json) : string := "?".

End Samples.

(** * Properties *)

(** ** OrderedDict and LRUCache *)

Module CacheFacts.
Import OrderedDict.

Lemma Qgt_bool_iff (x y : Q) : LRUCache.Qgt_bool x y = true <-> (y < x)%Q.
Proof.
  unfold LRUCache.Qgt_bool. rewrite negb_true_iff.
  split; intro H.
  - apply Qnot_le_lt. intro Hle. apply Qle_bool_iff in Hle. congruence.
  - destruct (Qle_bool x y) eqn:E; [|reflexivity].
    apply Qle_bool_iff in E. exfalso. exact (Qlt_not_le _ _ H E).
Qed.

Lemma Qgt_bool_false_iff (x y : Q) : LRUCache.Qgt_bool x y = false <-> (x <= y)%Q.
Proof.
  unfold LRUCache.Qgt_bool. rewrite negb_false_iff. apply Qle_bool_iff.
Qed.

Section Dict.
Variable V : Type.
Implicit Types (d : OrderedDict.t V) (k : string) (v : V).

Lemma lookup_None_keys k d : lookup k d = None <-> ~ In k (keys d).
Proof.
  induction d as [|[k' v'] d IH]; simpl.
  - tauto.
  - destruct (String.eqb k' k) eqn:E.
    + apply String.eqb_eq in E. split; [discriminate | intros H; exfalso; auto].
    + apply String.eqb_neq in E. rewrite IH. tauto.
Qed.


Lemma remove_length k d : (List.length (remove k d) <= List.length d)%nat.
Proof.
  induction d as [|[k' v'] d IH]; simpl; [lia|].
  destruct (String.eqb k' k); simpl; lia.
Qed.

Lemma remove_length_Some k d v :
  lookup k d = Some v -> S (List.length (remove k d)) = List.length d.
Proof.
  induction d as [|[k' v'] d IH]; simpl; [discriminate|].
  destruct (String.eqb k' k); simpl; intros H; [reflexivity|].
  rewrite IH by assumption. reflexivity.
Qed.

Lemma move_to_end_length k d :
  List.length (move_to_end k d) = List.length d.
Proof.
  unfold move_to_end. destruct (lookup k d) eqn:E; [|reflexivity].
  rewrite length_app. simpl. rewrite <- (remove_length_Some _ _ E). lia.
Qed.

Lemma keys_remove_incl k d x : In x (keys (remove k d)) -> In x (keys d).
Proof.
  induction d as [|[k' v'] d IH]; simpl; [tauto|].
  destruct (String.eqb k' k); simpl; tauto.
Qed.

Lemma remove_NoDup k d : NoDup (keys d) -> NoDup (keys (remove k d)).
Proof.
  induction d as [|[k' v'] d IH]; simpl; intros H; [constructor|].
  inversion H as [|? ? Hn Hd]; subst.
  destruct (String.eqb k' k); simpl; [assumption|].
  constructor; [|auto].
  intro Hin. apply Hn. eapply keys_remove_incl; eassumption.
Qed.

Lemma lookup_remove_same k d :
  NoDup (keys d) -> lookup k (remove k d) = None.
Proof.
  induction d as [|[k' v'] d IH]; simpl; intros H; [reflexivity|].
  inversion H as [|? ? Hn Hd]; subst.
  destruct (String.eqb k' k) eqn:E; simpl.
  - apply String.eqb_eq in E. subst. apply lookup_None_keys. assumption.
  - rewrite E. auto.
Qed.

Lemma setitem_absent k v d :
  lookup k d = None -> setitem k v d = d ++ [(k, v)].
Proof.
  induction d as [|[k' v'] d IH]; simpl; [reflexivity|].
  destruct (String.eqb k' k); [discriminate|].
  intros H. rewrite IH by assumption. reflexivity.
Qed.


Lemma lookup_app_last k v d :
  lookup k d = None -> lookup k (d ++ [(k, v)]) = Some v.
Proof.
  induction d as [|[k' v'] d IH]; simpl.
  - rewrite String.eqb_refl. reflexivity.
  - destruct (String.eqb k' k); [discriminate | assumption].
Qed.

Lemma contains_false k d : lookup k d = None -> contains k d = false.
Proof. unfold contains. intros ->. reflexivity. Qed.
End Dict.

Lemma lastn_all {A} (n : nat) (l : list A) :
  (List.length l <= n)%nat -> lastn n l = l.
Proof.
  intros H. unfold lastn. replace (List.length l - n)%nat with 0%nat by lia.
  reflexivity.
Qed.

Lemma lastn_length {A} (n : nat) (l : list A) :
  List.length (lastn n l) = Nat.min n (List.length l).
Proof. unfold lastn. rewrite length_skipn. lia. Qed.

Lemma lastn_cons {A} (n : nat) (x : A) (l : list A) :
  (n <= List.length l)%nat -> lastn n (x :: l) = lastn n l.
Proof.
  intros H. unfold lastn. simpl List.length.
  replace (S (List.length l) - n)%nat with (S (List.length l - n)) by lia.
  reflexivity.
Qed.


(** With a bound that is not negative the eviction loop never raises
    and keeps the newest [max_size] items. *)
Lemma evict_lastn (max_size : Z) (d : OrderedDict.t LRUCache.entry) :
  0 <= max_size ->
  LRUCache.evict max_size d = (Ok tt, lastn (Z.to_nat max_size) d).
Proof.
  intros Hmax. induction d as [|x d IH].
  - simpl. destruct (Z.gtb_spec 0 max_size); [lia|]. reflexivity.
  - cbn [LRUCache.evict].
    destruct (Z.gtb_spec (Z.of_nat (List.length (x :: d))) max_size) as [E|E];
      simpl List.length in E.
    + rewrite IH. rewrite lastn_cons; [reflexivity|]. lia.
    + rewrite lastn_all; [reflexivity|]. simpl List.length. lia.
Qed.
End CacheFacts.

Module CacheProps.
Import CacheFacts.

Lemma lastn_app {A} (n : nat) (l r : list A) :
  lastn n (lastn n l ++ r) = lastn n (l ++ r).
Proof.
  unfold lastn.
  set (m := (List.length l - n)%nat).
  assert (Happ : skipn m l ++ r = skipn m (l ++ r)).
  { rewrite skipn_app. replace (m - List.length l)%nat with 0%nat by lia.
    reflexivity. }
  rewrite Happ, skipn_skipn. f_equal.
  rewrite length_skipn, !length_app. lia.
Qed.

Lemma In_skipn {A} (n : nat) (l : list A) (x : A) : In x (skipn n l) -> In x l.
Proof.
  revert l. induction n as [|n IH]; intros [|a l]; simpl; auto.
Qed.

(** [set] under a positive bound: never raises, keeps the bound and
    the parameters. *)
Lemma set_bounded (self : LRUCache.t) key value now :
  0 <= LRUCache._max_size self ->
  exists d,
    LRUCache.set self key value now = (Ok tt, LRUCache.with_cache self d) /\
    Z.of_nat (List.length d) <= LRUCache._max_size self.
Proof.
  intros Hmax. unfold LRUCache.set.
  rewrite evict_lastn by assumption.
  eexists. split; [reflexivity|].
  rewrite lastn_length. lia.
Qed.

Lemma get_bounded (self : LRUCache.t) key now :
  exists d,
    snd (LRUCache.get self key now) = LRUCache.with_cache self d /\
    (List.length d <= List.length (LRUCache._cache self))%nat.
Proof.
  unfold LRUCache.get.
  destruct (OrderedDict.lookup key (LRUCache._cache self)) as [[value ts]|] eqn:E.
  - destruct (LRUCache.Qgt_bool _ _); simpl; eexists; (split; [reflexivity|]).
    + apply remove_length.
    + rewrite move_to_end_length. lia.
  - exists (LRUCache._cache self). destruct self; simpl. split; [reflexivity | lia].
Qed.

Lemma run_bounded (ops : list LRUCache.op) (self : LRUCache.t) :
  0 <= LRUCache._max_size self ->
  LRUCache.size self <= LRUCache._max_size self ->
  exists states,
    LRUCache.run self ops = Ok states /\
    List.length states = List.length ops /\
    Forall (fun c => LRUCache.size c <= LRUCache._max_size self) states.
Proof.
  revert self. induction ops as [|o ops IH]; intros self Hmax Hsize.
  - exists []. simpl. auto.
  - assert (Hstep : exists d,
               LRUCache.step self o = (Ok tt, LRUCache.with_cache self d) /\
               Z.of_nat (List.length d) <= LRUCache._max_size self).
    { destruct o as [key now | key value now]; simpl.
      - destruct (get_bounded self key now) as (d & Hd & Hlen).
        exists d. rewrite Hd. split; [reflexivity|].
        unfold LRUCache.size in Hsize. lia.
      - apply set_bounded. assumption. }
    destruct Hstep as (d & Hstep & Hlen).
    destruct (IH (LRUCache.with_cache self d)) as (states & Hrun & Hl & Hall);
      [assumption | assumption |].
    exists (LRUCache.with_cache self d :: states).
    cbn [LRUCache.run]. rewrite Hstep, Hrun.
    repeat split; [simpl; congruence|].
    constructor; assumption.
Qed.

Lemma set_all_distinct (max_size ttl : Z) (items prefix : list (string * json * Q)) :
  0 < max_size ->
  NoDup (map LRUCache.item_key (prefix ++ items)) ->
  LRUCache.set_all
    (LRUCache.Build (lastn (Z.to_nat max_size) (map LRUCache.item_entry prefix))
                    max_size ttl) items
  = Ok (LRUCache.Build
          (lastn (Z.to_nat max_size) (map LRUCache.item_entry (prefix ++ items)))
          max_size ttl).
Proof.
  intros Hmax. revert prefix.
  induction items as [|[[key value] now] items IH]; intros prefix Hnd.
  - rewrite app_nil_r. reflexivity.
  - cbn [LRUCache.set_all].
    assert (Hfresh : OrderedDict.lookup key
              (lastn (Z.to_nat max_size) (map LRUCache.item_entry prefix)) = None).
    { apply lookup_None_keys. intro Hin.
      unfold OrderedDict.keys, lastn in Hin.
      rewrite <- skipn_map in Hin. apply In_skipn in Hin.
      rewrite map_map in Hin.
      rewrite map_app in Hnd. apply NoDup_remove_2 in Hnd.
      apply Hnd. apply in_or_app. left.
      erewrite map_ext; [exact Hin|].
      intros [[k v] t]. reflexivity. }
    unfold LRUCache.set. cbn [LRUCache._cache LRUCache._max_size].
    rewrite (contains_false _ _ Hfresh).
    rewrite (setitem_absent _ _ _ Hfresh).
    rewrite evict_lastn by lia.
    rewrite lastn_app.
    unfold LRUCache.with_cache. cbn [LRUCache._max_size LRUCache._ttl_seconds].
    change [(key, (value, now))] with (map LRUCache.item_entry [(key, value, now)]).
    rewrite <- map_app.
    rewrite (IH (prefix ++ [(key, value, now)])).
    + rewrite <- app_assoc. reflexivity.
    + rewrite <- app_assoc. exact Hnd.
Qed.

Lemma NoDup_skipn {A} (n : nat) (l : list A) : NoDup l -> NoDup (skipn n l).
Proof.
  revert l. induction n as [|n IH]; intros [|a l] H; simpl; auto.
  inversion H; auto.
Qed.

Lemma lastn_snoc_last {A} (n : nat) (l : list A) (x : A) :
  (0 < n)%nat -> lastn n (l ++ [x]) = lastn (n - 1) l ++ [x].
Proof.
  intros Hn. unfold lastn. rewrite length_app. simpl List.length.
  rewrite skipn_app.
  replace (List.length l + 1 - n - List.length l)%nat with 0%nat by lia.
  replace (List.length l + 1 - n)%nat with (List.length l - (n - 1))%nat by lia.
  reflexivity.
Qed.

Lemma setitem_app_last {V} (k : string) (v old : V) (d : OrderedDict.t V) :
  OrderedDict.lookup k d = None ->
  OrderedDict.setitem k v (d ++ [(k, old)]) = d ++ [(k, v)].
Proof.
  induction d as [|[k' v'] d IH]; simpl.
  - rewrite String.eqb_refl. reflexivity.
  - destruct (String.eqb k' k); [discriminate|].
    intros H. rewrite IH by assumption. reflexivity.
Qed.

(** Unique keys, the invariant of a dict, is kept by [get]. *)
Lemma get_keeps_keys_unique (self : LRUCache.t) key now :
  NoDup (LRUCache.keys self) ->
  NoDup (LRUCache.keys (snd (LRUCache.get self key now))).
Proof.
  intros Hnd. unfold LRUCache.get.
  destruct (OrderedDict.lookup key (LRUCache._cache self)) as [[value ts]|] eqn:E;
    [|exact Hnd].
  destruct (LRUCache.Qgt_bool _ _); unfold LRUCache.keys; cbn [snd LRUCache._cache LRUCache.with_cache].
  - apply remove_NoDup. exact Hnd.
  - unfold OrderedDict.move_to_end. rewrite E.
    unfold OrderedDict.keys. rewrite map_app. cbn [map fst].
    apply NoDup_app; [apply remove_NoDup; exact Hnd | repeat constructor; simpl; tauto |].
    intros x Hx [Heq|[]]. subst x.
    apply (proj1 (lookup_None_keys key
                    (OrderedDict.remove key (LRUCache._cache self))));
      [apply lookup_remove_same; exact Hnd | exact Hx].
Qed.

(** Under a positive bound [set] stores the value with the clock
    reading as the newest entry, and keeps the keys unique. *)
Lemma set_stores (self : LRUCache.t) key value now :
  0 < LRUCache._max_size self ->
  NoDup (LRUCache.keys self) ->
  exists d,
    LRUCache.set self key value now = (Ok tt, LRUCache.with_cache self d) /\
    NoDup (OrderedDict.keys d) /\
    OrderedDict.lookup key d = Some (value, now).
Proof.
  intros Hmax Hnd. unfold LRUCache.set.
  rewrite evict_lastn by lia.
  eexists. split; [reflexivity|].
  match goal with
  | |- context [lastn _ ?stored] =>
      assert (Hshape : exists d',
                 stored = d' ++ [(key, (value, now))] /\
                 NoDup (OrderedDict.keys d') /\ OrderedDict.lookup key d' = None)
  end.
  { unfold OrderedDict.contains, OrderedDict.move_to_end.
    destruct (OrderedDict.lookup key (LRUCache._cache self)) as [old|] eqn:E.
    - exists (OrderedDict.remove key (LRUCache._cache self)).
      assert (Hgone := lookup_remove_same key (LRUCache._cache self) Hnd).
      split; [apply setitem_app_last; exact Hgone|].
      split; [apply remove_NoDup; exact Hnd | exact Hgone].
    - exists (LRUCache._cache self).
      split; [apply setitem_absent; exact E | split; [exact Hnd | exact E]]. }
  destruct Hshape as (d' & -> & Hnd' & Hfresh).
  rewrite lastn_snoc_last by lia.
  assert (Hfresh' : OrderedDict.lookup key
                      (lastn (Z.to_nat (LRUCache._max_size self) - 1) d') = None).
  { apply lookup_None_keys. intros Hin.
    apply (proj1 (lookup_None_keys key d') Hfresh).
    unfold OrderedDict.keys, lastn in *. rewrite <- skipn_map in Hin.
    eapply In_skipn. exact Hin. }
  split; [|apply lookup_app_last; exact Hfresh'].
  unfold OrderedDict.keys. rewrite map_app. cbn [map fst].
  apply NoDup_app.
  - unfold lastn. rewrite <- skipn_map. apply NoDup_skipn. exact Hnd'.
  - repeat constructor. simpl. tauto.
  - intros x Hx [Heq|[]]. subst x.
    apply (proj1 (lookup_None_keys key _) Hfresh'). exact Hx.
Qed.

(** C3.  A cache with a positive capacity that starts empty never
    holds more than [capacity] entries after any operation of any
    sequence of gets and sets, and none of them raises; inserting
    [capacity + k] distinct keys leaves exactly [capacity] entries, the
    [capacity] most recently inserted ones, in insertion order. *)
Theorem cache_capacity_bound (capacity ttl : Z) :
  0 < capacity ->
  (forall ops : list LRUCache.op,
      exists states,
        LRUCache.run (LRUCache.__init__ capacity ttl) ops = Ok states /\
        List.length states = List.length ops /\
        Forall (fun c => LRUCache.size c <= capacity) states) /\
  (forall (items : list (string * json * Q)) (k : nat),
      NoDup (map LRUCache.item_key items) ->
      List.length items = (Z.to_nat capacity + k)%nat ->
      exists c,
        LRUCache.set_all (LRUCache.__init__ capacity ttl) items = Ok c /\
        LRUCache.size c = capacity /\
        LRUCache._cache c = skipn k (map LRUCache.item_entry items) /\
        LRUCache.keys c = skipn k (map LRUCache.item_key items)).
Proof.
  intros Hcap. split.
  - intros ops.
    apply (run_bounded ops (LRUCache.__init__ capacity ttl));
      unfold LRUCache.size; simpl; lia.
  - intros items k Hnd Hlen.
    pose proof (@set_all_distinct capacity ttl items [] Hcap Hnd) as H.
    simpl app in H. change (lastn _ (map _ [])) with (@nil (string * LRUCache.entry)) in H.
    eexists. split; [exact H|].
    assert (Hk : lastn (Z.to_nat capacity) (map LRUCache.item_entry items)
                 = skipn k (map LRUCache.item_entry items)).
    { unfold lastn. rewrite length_map, Hlen. f_equal. lia. }
    unfold LRUCache.size, LRUCache.keys, OrderedDict.keys.
    cbn [LRUCache._cache]. rewrite Hk.
    split; [|split; [reflexivity|]].
    + rewrite length_skipn, length_map, Hlen. lia.
    + rewrite <- skipn_map, map_map. f_equal.
      apply map_ext. intros [[key v] t]. reflexivity.
Qed.
End CacheProps.

Module CacheScenarios.
Import CacheFacts.

(** C6.  Capacity 2, starting empty: after set(A), set(B), set(C),
    get(A), set(D) with four distinct keys, B is not in the cache, the
    insertion of D evicted exactly B, and A is not among the keys that
    insertion evicted.  (A had already been evicted by the insertion
    of C, so the get(A) returns absent and the cache ends as C, D.) *)
Theorem cache_promotion_scenario (kA kB kC kD : string) (vA vB vC vD : json)
        (tA tB tC tGet tD : Q) (ttl : Z) :
  NoDup [kA; kB; kC; kD] ->
  exists c1 c2 c3 c4 c5,
    LRUCache.set (LRUCache.__init__ 2 ttl) kA vA tA = (Ok tt, c1) /\
    LRUCache.set c1 kB vB tB = (Ok tt, c2) /\
    LRUCache.set c2 kC vC tC = (Ok tt, c3) /\
    LRUCache.get c3 kA tGet = (None, c4) /\
    LRUCache.set c4 kD vD tD = (Ok tt, c5) /\
    OrderedDict.contains kB (LRUCache._cache c5) = false /\
    LRUCache.evicted_keys c4 c5 = [kB] /\
    ~ In kA (LRUCache.evicted_keys c4 c5) /\
    LRUCache.keys c5 = [kC; kD].
Proof.
  intros Hnd.
  assert (HAB : String.eqb kA kB = false /\ String.eqb kA kC = false /\
                String.eqb kA kD = false /\ String.eqb kB kC = false /\
                String.eqb kB kD = false /\ String.eqb kC kD = false /\
                String.eqb kB kA = false /\ String.eqb kC kA = false /\
                String.eqb kC kB = false /\ String.eqb kD kB = false /\
                String.eqb kD kC = false /\ kA <> kB).
  { inversion Hnd as [|? ? HA Hnd1]; subst.
    inversion Hnd1 as [|? ? HB Hnd2]; subst.
    inversion Hnd2 as [|? ? HC Hnd3]; subst.
    simpl in HA, HB, HC.
    repeat split;
      match goal with
      | |- String.eqb _ _ = false => apply String.eqb_neq
      | _ => idtac
      end; intro; subst; tauto. }
  destruct HAB as (AB & AC & AD & BC & BD & CD & BA & CA & CB & DB & DC & nAB).
  exists (LRUCache.Build [(kA, (vA, tA))] 2 ttl).
  exists (LRUCache.Build [(kA, (vA, tA)); (kB, (vB, tB))] 2 ttl).
  exists (LRUCache.Build [(kB, (vB, tB)); (kC, (vC, tC))] 2 ttl).
  exists (LRUCache.Build [(kB, (vB, tB)); (kC, (vC, tC))] 2 ttl).
  exists (LRUCache.Build [(kC, (vC, tC)); (kD, (vD, tD))] 2 ttl).
  unfold LRUCache.set, LRUCache.get, LRUCache.evicted_keys, LRUCache.keys,
    OrderedDict.contains, OrderedDict.move_to_end.
  cbn. rewrite ?AB, ?AC, ?AD, ?BC, ?BD, ?CD, ?BA, ?CA, ?CB, ?DB, ?DC.
  cbn. rewrite ?AB, ?AC, ?AD, ?BC, ?BD, ?CD, ?BA, ?CA, ?CB, ?DB, ?DC.
  cbn. rewrite ?String.eqb_refl. cbn.
  repeat split; try reflexivity.
  intros [H|[]]. apply nAB. symmetry. exact H.
Qed.
End CacheScenarios.

(** ** The retry executor *)

Module RetryProps.

Lemma range_seq (m : nat) :
  range (Z.of_nat m + 1) = map Z.of_nat (seq 0 (S m)).
Proof.
  unfold range. replace (Z.to_nat (Z.of_nat m + 1)) with (S m) by lia.
  reflexivity.
Qed.

Section Loop.
Context {A : Type}.
Variable func : M A.
Variable m : nat.

(** While attempts remain after this one, a failure sleeps and
    moves on. *)
Lemma retry_loop_failed_step (a len : nat) (delay : Q) (w : World) (e : exn) :
  (a < m)%nat -> fst (func w) = Err e ->
  retry_loop func (Z.of_nat m) (map Z.of_nat (seq a (S len))) delay w
  = retry_loop func (Z.of_nat m) (map Z.of_nat (seq (S a) len)) (delay * 2)%Q
               (snd (sleep delay (snd (func w)))).
Proof.
  intros Ha He. cbn [seq map retry_loop]. unfold try_except.
  destruct (func w) as [r w'] eqn:Ef. simpl in He. subst r.
  destruct (Z.eqb_spec (Z.of_nat a) (Z.of_nat m)); [lia|].
  unfold bind. reflexivity.
Qed.

(** The last attempt's outcome is the executor's outcome. *)
Lemma retry_loop_last (delay : Q) (w : World) :
  retry_loop func (Z.of_nat m) (map Z.of_nat (seq m 1)) delay w = func w.
Proof.
  cbn [seq map retry_loop]. unfold try_except.
  destruct (func w) as [[v|e] w']; [reflexivity|].
  rewrite Z.eqb_refl. reflexivity.
Qed.

(** A successful attempt ends the loop. *)
Lemma retry_loop_success (a len : nat) (delay : Q) (w w' : World) (v : A) :
  func w = (Ok v, w') ->
  retry_loop func (Z.of_nat m) (map Z.of_nat (seq a (S len))) delay w = (Ok v, w').
Proof.
  intros Hf. cbn [seq map retry_loop]. unfold try_except. rewrite Hf.
  reflexivity.
Qed.

(** [j] failed rounds consume [j] attempts. *)
Lemma retry_loop_rounds (j : nat) :
  forall (a len : nat) (delay : Q) (w : World),
    (a + j <= m)%nat ->
    fails_for func j delay w ->
    retry_loop func (Z.of_nat m) (map Z.of_nat (seq a (j + S len))) delay w
    = retry_loop func (Z.of_nat m) (map Z.of_nat (seq (a + j) (S len)))
                 (doubled j delay) (failed_rounds func j delay w).
Proof.
  induction j as [|j IH]; intros a len delay w Ha Hfail.
  - rewrite Nat.add_0_r. reflexivity.
  - destruct Hfail as [[e He] Hrest].
    change (S j + S len)%nat with (S (j + S len)).
    rewrite (@retry_loop_failed_step a (j + S len)%nat delay w e) by (lia || assumption).
    rewrite IH by (lia || assumption).
    replace (S a + j)%nat with (a + S j)%nat by lia.
    reflexivity.
Qed.

Lemma always_fails_for (n : nat) :
  (forall w, exists e, fst (func w) = Err e) ->
  forall delay w, fails_for func n delay w.
Proof.
  intros Hall. induction n as [|n IH]; intros delay w; simpl; auto.
Qed.

Lemma failed_rounds_trace (ev : event) :
  (forall w, trace (snd (func w)) = trace w ++ [ev]) ->
  forall n delay w,
    trace (snd (func (failed_rounds func n delay w)))
    = trace w ++ retry_trace ev (backoff_delays n delay).
Proof.
  intros Hev. induction n as [|n IH]; intros delay w.
  - simpl. apply Hev.
  - cbn [failed_rounds backoff_delays retry_trace]. rewrite IH.
    unfold sleep. cbn [snd trace]. rewrite Hev.
    rewrite <- !app_assoc. reflexivity.
Qed.
End Loop.

Lemma doubled_succ (n : nat) (delay : Q) :
  doubled (S n) delay = doubled n (delay * 2)%Q.
Proof. reflexivity. Qed.

Lemma doubled_closed (n : nat) :
  forall delay, (doubled n delay == delay * inject_Z (2 ^ Z.of_nat n))%Q.
Proof.
  induction n as [|n IH]; intros delay.
  - simpl. ring.
  - rewrite doubled_succ, IH.
    rewrite Nat2Z.inj_succ, Z.pow_succ_r by lia.
    rewrite inject_Z_mult. ring.
Qed.

Lemma backoff_delays_nth (n : nat) :
  forall i delay, (i < n)%nat ->
    nth i (backoff_delays n delay) 0%Q = doubled i delay.
Proof.
  induction n as [|n IH]; intros i delay Hi; [lia|].
  destruct i as [|i]; [reflexivity|].
  cbn [backoff_delays nth]. rewrite IH by lia. reflexivity.
Qed.

Lemma backoff_delays_length (n : nat) (delay : Q) :
  List.length (backoff_delays n delay) = n.
Proof.
  revert delay. induction n as [|n IH]; intros delay; simpl; auto.
Qed.

(** After [j] failed rounds the executor is at attempt [j]. *)
Lemma call_with_retry_after_rounds {A} (func : M A) (n j : nat) (w : World) :
  (j <= n)%nat ->
  fails_for func j initial_delay w ->
  _call_with_retry func (Z.of_nat n) w
  = retry_loop func (Z.of_nat n) (map Z.of_nat (seq j (S (n - j))))
               (doubled j initial_delay)
               (failed_rounds func j initial_delay w).
Proof.
  intros Hj Hfail. unfold _call_with_retry. rewrite range_seq.
  replace (S n) with (j + S (n - j))%nat by lia.
  rewrite (@retry_loop_rounds _ func n j 0%nat (n - j)%nat initial_delay w)
    by (lia || assumption).
  reflexivity.
Qed.

(** An operation that always raises is run through every attempt. *)
Lemma call_with_retry_exhausts {A} (func : M A) (n : nat) (w : World) :
  (forall w', exists e, fst (func w') = Err e) ->
  _call_with_retry func (Z.of_nat n) w
  = func (failed_rounds func n initial_delay w).
Proof.
  intros Hfails.
  rewrite (@call_with_retry_after_rounds _ func n n w)
    by (lia || (apply always_fails_for; assumption)).
  replace (n - n)%nat with 0%nat by lia.
  apply retry_loop_last.
Qed.

(** A failure that keeps an invariant, which sleeping keeps too, is
    what the executor ends with. *)
Lemma call_with_retry_fails_under {A} (P : World -> Prop) (func : M A) (e : exn) :
  (forall w, P w -> exists w', func w = (Err e, w') /\ P w') ->
  (forall d w, P w -> P (snd (sleep d w))) ->
  forall (n : nat) (w : World),
    P w ->
    exists w', _call_with_retry func (Z.of_nat n) w = (Err e, w') /\ P w'.
Proof.
  intros Hfunc Hsleep n w HP.
  assert (Hrounds : forall j delay w0,
             P w0 ->
             fails_for func j delay w0 /\ P (failed_rounds func j delay w0)).
  { induction j as [|j IH]; intros delay w0 HP0; [simpl; auto|].
    destruct (Hfunc w0 HP0) as (w1 & Hf & HP1).
    cbn [fails_for failed_rounds]. rewrite Hf. cbn [fst snd].
    destruct (IH (delay * 2)%Q (snd (sleep delay w1)) (Hsleep delay w1 HP1))
      as [Hfail HP2].
    repeat split; [eexists; reflexivity | exact Hfail | exact HP2]. }
  destruct (Hrounds n initial_delay w HP) as [Hfail HPn].
  rewrite (@call_with_retry_after_rounds _ func n n w) by (lia || assumption).
  replace (n - n)%nat with 0%nat by lia.
  rewrite retry_loop_last.
  destruct (Hfunc _ HPn) as (w' & Hf & HP'). eauto.
Qed.

(** C5.  With [max_retries >= 0]: an operation that raises on every
    invocation is invoked [max_retries + 1] times, with a sleep after
    each invocation but the last, and the executor's outcome is that
    of the last invocation, exception and world unchanged; the sleeps
    are [initial_delay * 2 ^ i] for [i = 0 .. max_retries - 1]; when
    an attempt succeeds after [j <= max_retries] failed ones, its
    result is the executor's result and nothing runs after it. *)
Theorem call_with_retry_bound {A} (func : M A) (max_retries : Z) (w : World) :
  0 <= max_retries ->
  let n := Z.to_nat max_retries in
  ((forall w', exists e, fst (func w') = Err e) ->
     _call_with_retry func max_retries w
     = func (failed_rounds func n initial_delay w) /\
     (exists e, fst (_call_with_retry func max_retries w) = Err e) /\
     (forall ev,
         (forall w', trace (snd (func w')) = trace w' ++ [ev]) ->
         trace (snd (_call_with_retry func max_retries w))
         = trace w ++ retry_trace ev (backoff_delays n initial_delay))) /\
  (forall (j : nat) (v : A) (w' : World),
      (j <= n)%nat ->
      fails_for func j initial_delay w ->
      func (failed_rounds func j initial_delay w) = (Ok v, w') ->
      _call_with_retry func max_retries w = (Ok v, w')) /\
  List.length (backoff_delays n initial_delay) = n /\
  (forall i, (i < n)%nat ->
      (nth i (backoff_delays n initial_delay) 0 ==
       initial_delay * inject_Z (2 ^ Z.of_nat i))%Q).
Proof.
  intros Hmax n.
  assert (Hn : max_retries = Z.of_nat n) by (unfold n; lia).
  rewrite Hn.
  split; [|split; [|split]].
  - intros Hfails.
    pose proof (call_with_retry_exhausts func n w Hfails) as Heq.
    split; [exact Heq|]. split.
    + rewrite Heq. apply Hfails.
    + intros ev Hev. rewrite Heq. apply failed_rounds_trace. exact Hev.
  - intros j v w' Hj Hfail Hok.
    rewrite (@call_with_retry_after_rounds _ func n j w) by assumption.
    eapply retry_loop_success. exact Hok.
  - apply backoff_delays_length.
  - intros i Hi. rewrite backoff_delays_nth by assumption.
    apply doubled_closed.
Qed.
End RetryProps.

(** ** The dispatcher *)

Module DispatchProps.

Ltac unfold_monad :=
  unfold bind, ret, raise, lift, try_except, print, sleep in *.

(** A failure that leaves the world alone is retried twice, with the
    two backoff sleeps, before it surfaces. *)
Lemma call_with_retry_pure_failure {A} (func : M A) (e : exn) :
  (forall w, func w = (Err e, w)) ->
  forall w,
    _call_with_retry func 2 w
    = (Err e,
       Build_World (_analysis_cache w) (_client w)
                   (clock w + initial_delay + initial_delay * 2)%Q
                   (trace w ++ [EvSleep initial_delay; EvSleep (initial_delay * 2)%Q])
                   (stdout w)).
Proof.
  intros Hf w. unfold _call_with_retry.
  change (range (2 + 1)) with [0; 1; 2].
  cbn [retry_loop]. unfold try_except, bind, sleep, raise.
  rewrite Hf. cbn [Z.eqb]. rewrite Hf. cbn. rewrite Hf. cbn.
  rewrite <- app_assoc. reflexivity.
Qed.

Section WithEnv.
Variable env : Env.

(** Each validation failure is raised before the operation has done
    anything. *)
Lemma validation_failure_raises (p : string) (payload : dict) (e : exn) :
  validation_failure env p payload e ->
  is_ValueError e = true /\
  ((p = "/analyze" /\ forall w, _analyze env payload w = (Err e, w)) \/
   (p = "/chat" /\ forall w, _chat env payload w = (Err e, w))).
Proof.
  intros Hv. destruct Hv as [payload Hm | payload e Ht Hd He
                             | payload image_bytes limit max_bytes Ht Hd Hl Hn Hi Hgt
                             | payload Hm].
  - split; [reflexivity|]. left. split; [reflexivity|]. intros w.
    unfold _analyze. rewrite Hm. reflexivity.
  - split; [assumption|]. left. split; [reflexivity|]. intros w.
    unfold _analyze. rewrite Ht, Hd. reflexivity.
  - split; [reflexivity|]. left. split; [reflexivity|]. intros w.
    unfold _analyze. rewrite Ht, Hd. cbn [negb].
    unfold check_max_bytes. rewrite Hl, Hn, Hi.
    unfold_monad.
    destruct (Z.gtb_spec (Z.of_nat (List.length image_bytes)) max_bytes); [|lia].
    reflexivity.
  - split; [reflexivity|]. right. split; [reflexivity|]. intros w.
    unfold _chat.
    destruct (dict_get payload "messages") eqn:E; try reflexivity.
    exfalso. eapply Hm. reflexivity.
Qed.

(** C1, as the code has it.  A request whose input validation fails
    (image missing, image not decodable, image too large, messages
    not a list) is answered 400 [bad_request] with the validation
    message and makes no remote call, but only after the retry
    executor has run the operation three times with its two backoff
    sleeps; the cache and the client are untouched. *)
Theorem validation_failure_surfaces_after_retries
        (p : string) (payload : dict) (e : exn) (w : World) :
  validation_failure env p payload e ->
  handle env (Build_Request p "POST" (JObj payload)) w
  = (_error_response "bad_request" (exn_str e) 400,
     Build_World (_analysis_cache w) (_client w)
                 (clock w + initial_delay + initial_delay * 2)%Q
                 (trace w ++ [EvSleep initial_delay; EvSleep (initial_delay * 2)%Q])
                 (stdout w)) /\
  (p = "/analyze" ->
   _call_with_retry (_analyze env payload) 2 w
   = _analyze env payload (failed_rounds (_analyze env payload) 2 initial_delay w)) /\
  (p = "/chat" ->
   _call_with_retry (_chat env payload) 2 w
   = _chat env payload (failed_rounds (_chat env payload) 2 initial_delay w)).
Proof.
  intros Hv. destruct (validation_failure_raises Hv) as [He Hcase].
  assert (Hrounds : forall (func : M json),
             (forall w, func w = (Err e, w)) ->
             _call_with_retry func 2 w
             = func (failed_rounds func 2 initial_delay w)).
  { intros func Hf.
    apply (@RetryProps.call_with_retry_exhausts _ func 2%nat w).
    intros w'. exists e. rewrite Hf. reflexivity. }
  destruct Hcase as [[-> Hf] | [-> Hf]].
  - split; [|split; [intros _; apply Hrounds; exact Hf | discriminate]].
    unfold handle, route. cbn -[_call_with_retry _error_response].
    unfold bind. rewrite (call_with_retry_pure_failure _ Hf).
    rewrite He. reflexivity.
  - split; [|split; [discriminate | intros _; apply Hrounds; exact Hf]].
    unfold handle, route. cbn -[_call_with_retry _error_response].
    unfold bind. rewrite (call_with_retry_pure_failure _ Hf).
    rewrite He. reflexivity.
Qed.
End WithEnv.
End DispatchProps.

(** ** The analyze cache *)

Module AnalyzeCacheProps.

(** A fingerprint that is stored, unexpired, with a truthy value is
    answered from the cache: the first attempt returns the stored
    value, the entry is promoted, and there is no remote call, no
    retry and no sleep. *)
Lemma analyze_cache_hit (env : Env) (payload : dict) (image_bytes : bytes)
      (v : json) (timestamp : Q) (w : World) :
  truthy (dict_get payload "image_base64") = true ->
  b64decode env (dict_get payload "image_base64") = Ok image_bytes ->
  check_max_bytes env image_bytes w = (Ok tt, w) ->
  OrderedDict.lookup (sha256_hexdigest env image_bytes)
                     (LRUCache._cache (_analysis_cache w)) = Some (v, timestamp) ->
  (clock w - timestamp <= inject_Z (LRUCache._ttl_seconds (_analysis_cache w)))%Q ->
  truthy v = true ->
  let w' := set_analysis_cache
              (LRUCache.with_cache (_analysis_cache w)
                 (OrderedDict.move_to_end (sha256_hexdigest env image_bytes)
                    (LRUCache._cache (_analysis_cache w)))) w in
  _analyze env payload w = (Ok v, w') /\
  handle env (Build_Request "/analyze" "POST" (JObj payload)) w
  = (_json_response v 200, w') /\
  trace w' = trace w.
Proof.
  intros Himg Hdec Hsize Hlook Hfresh Htruthy. cbv zeta.
  assert (Hrun : _analyze env payload w
                 = (Ok v,
                    set_analysis_cache
                      (LRUCache.with_cache (_analysis_cache w)
                         (OrderedDict.move_to_end (sha256_hexdigest env image_bytes)
                            (LRUCache._cache (_analysis_cache w)))) w)).
  { unfold _analyze. rewrite Himg, Hdec. cbn [negb].
    unfold bind at 1. unfold lift at 1.
    unfold bind at 1. rewrite Hsize.
    unfold bind at 1. unfold cache_get, LRUCache.get. rewrite Hlook.
    apply CacheFacts.Qgt_bool_false_iff in Hfresh. rewrite Hfresh.
    rewrite Htruthy. reflexivity. }
  split; [exact Hrun|]. split; [|reflexivity].
  unfold handle, route. cbn -[_call_with_retry _analyze _json_response].
  unfold bind. unfold _call_with_retry.
  change (range (2 + 1)) with [0; 1; 2].
  cbn [retry_loop]. unfold try_except. rewrite Hrun. reflexivity.
Qed.

(** C2, at an empty cached object.  The remote collaborator answers
    the text of the empty JSON object.  The first analyze request
    stores the empty object under the image's fingerprint; the second,
    identical request finds it unexpired, and calls the remote
    collaborator again. *)
Theorem analyze_empty_object_calls_remote_again :
  let env := Demo.env None (Demo.answers "{}") in
  let request := Demo.post "/analyze" [("image_base64", JStr "QQ==")] in
  let first := handle env request Demo.start in
  let second := handle env request (snd first) in
  fst first = _json_response (JObj []) 200 /\
  LRUCache._cache (_analysis_cache (snd first)) = [("41", (JObj [], 1%Q))] /\
  LRUCache.get (_analysis_cache (snd first)) "41" (clock (snd first))
  = (Some (JObj []), _analysis_cache (snd first)) /\
  List.length (filter is_generate (trace (snd first))) = 1%nat /\
  List.length (filter is_generate (trace (snd second))) = 2%nat.
Proof.
  vm_compute. repeat split; reflexivity.
Qed.
End AnalyzeCacheProps.

(** ** Relating two runs

    Two computations are related under a relation on worlds when, from
    related worlds, they give the same result and related worlds. *)

Module Related.

Section Generic.
Variable R : World -> World -> Prop.

Lemma related_ret {A} (a : A) : related R (ret a) (ret a).
Proof. intros w1 w2 H. split; [reflexivity | exact H]. Qed.

Lemma related_raise {A} (e : exn) : related R (@raise A e) (raise e).
Proof. intros w1 w2 H. split; [reflexivity | exact H]. Qed.

Lemma related_lift {A} (r : result A) : related R (lift r) (lift r).
Proof. intros w1 w2 H. split; [reflexivity | exact H]. Qed.

Lemma related_bind {A B} (m1 m2 : M A) (k1 k2 : A -> M B) :
  related R m1 m2 ->
  (forall a, related R (k1 a) (k2 a)) ->
  related R (bind m1 k1) (bind m2 k2).
Proof.
  intros Hm Hk w1 w2 H. unfold bind.
  destruct (Hm w1 w2 H) as [Hr Hw].
  destruct (m1 w1) as [r1 w1'], (m2 w2) as [r2 w2'].
  cbn [fst snd] in Hr, Hw. subst r2.
  destruct r1 as [a|e]; [apply Hk; exact Hw | split; [reflexivity | exact Hw]].
Qed.

Lemma related_try_except {A} (m1 m2 : M A) (h1 h2 : exn -> M A) :
  related R m1 m2 ->
  (forall e, related R (h1 e) (h2 e)) ->
  related R (try_except m1 h1) (try_except m2 h2).
Proof.
  intros Hm Hh w1 w2 H. unfold try_except.
  destruct (Hm w1 w2 H) as [Hr Hw].
  destruct (m1 w1) as [r1 w1'], (m2 w2) as [r2 w2'].
  cbn [fst snd] in Hr, Hw. subst r2.
  destruct r1 as [a|e]; [split; [reflexivity | exact Hw] | apply Hh; exact Hw].
Qed.

(** What the relation has to get along with. *)
Hypothesis R_print :
  forall l w1 w2, R w1 w2 -> R (print_line l w1) (print_line l w2).
Hypothesis R_sleep : forall d, related R (sleep d) (sleep d).

Lemma related_print (l : line) : related R (print l) (print l).
Proof. intros w1 w2 H. split; [reflexivity | apply R_print; exact H]. Qed.

Lemma related_retry_loop {A} (func1 func2 : M A) (max_retries : Z)
      (attempts : list Z) :
  related R func1 func2 ->
  forall delay,
    related R (retry_loop func1 max_retries attempts delay)
              (retry_loop func2 max_retries attempts delay).
Proof.
  intros Hf. induction attempts as [|attempt attempts IH]; intros delay.
  - apply related_raise.
  - cbn [retry_loop]. apply related_try_except; [exact Hf|].
    intros e. destruct (attempt =? max_retries).
    + apply related_raise.
    + apply related_bind; [apply R_sleep | intros _; apply IH].
Qed.

Lemma related_call_with_retry {A} (func1 func2 : M A) (max_retries : Z) :
  related R func1 func2 ->
  related R (_call_with_retry func1 max_retries)
            (_call_with_retry func2 max_retries).
Proof. intros Hf. apply related_retry_loop. exact Hf. Qed.

Variable env : Env.
Hypothesis R_get_client : related R (_get_client env) (_get_client env).
Hypothesis R_generate :
  forall model contents,
    related R (generate env model contents) (generate env model contents).

Lemma related_chat_image_parts (i : nat) (image_base64 : json) :
  related R (chat_image_parts env i image_base64)
            (chat_image_parts env i image_base64).
Proof.
  unfold chat_image_parts. destruct (truthy image_base64); [|apply related_ret].
  apply related_try_except.
  - apply related_bind; [apply related_lift|]. intros image_bytes.
    apply related_bind; [apply related_print | intros _; apply related_ret].
  - intros e. apply related_bind; [apply related_print | intros _; apply related_ret].
Qed.

Lemma related_chat_message (i : nat) (msg : json) :
  related R (chat_message env i msg) (chat_message env i msg).
Proof.
  unfold chat_message.
  apply related_bind; [apply related_lift|]. intros role.
  apply related_bind; [apply related_lift|]. intros content_text.
  apply related_bind; [apply related_lift|]. intros image_base64.
  apply related_bind; [apply related_print|]. intros _.
  apply related_bind; [apply related_chat_image_parts|]. intros image_parts.
  destruct (image_parts ++ _); [apply related_ret|].
  apply related_bind; [apply related_print | intros _; apply related_ret].
Qed.

Lemma alike_refl (messages : list json) : alike R env messages messages.
Proof.
  induction messages; constructor; auto.
  intros i. apply related_chat_message.
Qed.

Lemma related_chat_messages (messages1 messages2 : list json) :
  alike R env messages1 messages2 ->
  forall i contents,
    related R (chat_messages env i messages1 contents)
              (chat_messages env i messages2 contents).
Proof.
  induction 1 as [|msg1 msg2 messages1 messages2 Hmsg _ IH]; intros i contents.
  - apply related_ret.
  - cbn [chat_messages]. apply related_bind; [apply Hmsg|].
    intros added. apply IH.
Qed.

Lemma related_chat (payload1 payload2 : dict) (messages1 messages2 : list json) :
  dict_get payload1 "messages" = JList messages1 ->
  dict_get payload2 "messages" = JList messages2 ->
  dict_get payload1 "plant_context" = dict_get payload2 "plant_context" ->
  alike R env messages1 messages2 ->
  related R (_chat env payload1) (_chat env payload2).
Proof.
  intros H1 H2 Hctx Halike. unfold _chat. rewrite H1, H2, Hctx.
  assert (Hlen : List.length messages1 = List.length messages2)
    by (eapply Forall2_length; exact Halike).
  rewrite Hlen.
  apply related_bind; [apply R_get_client|]. intros _.
  apply related_bind; [apply related_print|]. intros _.
  apply related_bind; [apply related_print|]. intros _.
  apply related_bind; [apply related_lift|]. intros system_prompt.
  apply related_bind.
  - destruct Halike; apply related_chat_messages; constructor; assumption.
  - intros contents.
    apply related_bind; [apply related_print|]. intros _.
    apply related_bind; [apply R_generate|]. intros response.
    apply related_lift.
Qed.

Lemma related_handle_chat (payload1 payload2 : dict) :
  related R (_chat env payload1) (_chat env payload2) ->
  forall w1 w2, R w1 w2 ->
    fst (handle env (Build_Request "/chat" "POST" (JObj payload1)) w1)
    = fst (handle env (Build_Request "/chat" "POST" (JObj payload2)) w2) /\
    R (snd (handle env (Build_Request "/chat" "POST" (JObj payload1)) w1))
      (snd (handle env (Build_Request "/chat" "POST" (JObj payload2)) w2)).
Proof.
  intros Hchat w1 w2 Hw. unfold handle, route.
  cbn -[_call_with_retry _chat _error_response _json_response].
  unfold bind.
  pose proof (related_call_with_retry 2 Hchat) as Hrel.
  destruct (Hrel w1 w2 Hw) as [Hr Hw'].
  destruct (_call_with_retry (_chat env payload1) 2 w1) as [r1 w1'].
  destruct (_call_with_retry (_chat env payload2) 2 w2) as [r2 w2'].
  cbn [fst snd] in Hr, Hw'. subst r2.
  destruct r1 as [data|e]; cbn [ret fst snd]; [split; [reflexivity | exact Hw']|].
  destruct (is_ValueError e); cbn [fst snd]; (split; [reflexivity|]);
    [exact Hw' | apply R_print, R_print; exact Hw'].
Qed.
End Generic.
End Related.

(** ** Chat and the analysis cache *)

Module ChatCacheProps.

Lemma set_analysis_cache_same (w : World) :
  set_analysis_cache (_analysis_cache w) w = w.
Proof. destruct w. reflexivity. Qed.

Section Swapped.
Variable env : Env.
Variable c : LRUCache.t.

Lemma swapped_print l w1 w2 :
  cache_swapped c w1 w2 -> cache_swapped c (print_line l w1) (print_line l w2).
Proof. unfold cache_swapped. intros ->. reflexivity. Qed.

Lemma swapped_sleep d : related (cache_swapped c) (sleep d) (sleep d).
Proof. intros w1 w2 H. unfold cache_swapped in *. subst. split; reflexivity. Qed.

Lemma swapped_get_client :
  related (cache_swapped c) (_get_client env) (_get_client env).
Proof.
  intros w1 w2 H. unfold cache_swapped in *. subst.
  unfold _get_client. cbn [set_analysis_cache _client].
  destruct (_client w2); [split; reflexivity|].
  destruct (GEMINI_API_KEY env) as [k|]; [|split; reflexivity].
  destruct (str_nonempty k); split; reflexivity.
Qed.

Lemma swapped_generate model contents :
  related (cache_swapped c) (generate env model contents)
          (generate env model contents).
Proof.
  intros w1 w2 H. unfold cache_swapped in *. subst.
  unfold generate. cbn [set_analysis_cache trace].
  destruct (generate_content env (trace w2) model contents).
  split; reflexivity.
Qed.

Lemma swapped_chat (payload : dict) :
  related (cache_swapped c) (_chat env payload) (_chat env payload).
Proof.
  destruct (dict_get payload "messages") as [ | | | |messages| ] eqn:E;
    try (unfold _chat; rewrite E; apply Related.related_raise).
  eapply Related.related_chat; eauto using swapped_print, swapped_get_client,
    swapped_generate.
  apply Related.alike_refl; auto using swapped_print.
Qed.
End Swapped.

(** C9.  The chat operation neither reads nor writes the analysis
    cache: run with any other cache in place it gives the same result
    and leaves that cache as it was, items and order, and so does a
    chat request through the dispatcher, retries included. *)
Theorem chat_does_not_touch_cache (env : Env) (payload : dict) (w : World) :
  (forall c,
      _chat env payload (set_analysis_cache c w)
      = (fst (_chat env payload w),
         set_analysis_cache c (snd (_chat env payload w)))) /\
  _analysis_cache (snd (_chat env payload w)) = _analysis_cache w /\
  (forall c,
      handle env (Build_Request "/chat" "POST" (JObj payload))
             (set_analysis_cache c w)
      = (fst (handle env (Build_Request "/chat" "POST" (JObj payload)) w),
         set_analysis_cache c
           (snd (handle env (Build_Request "/chat" "POST" (JObj payload)) w)))) /\
  _analysis_cache (snd (handle env (Build_Request "/chat" "POST" (JObj payload)) w))
  = _analysis_cache w.
Proof.
  assert (Hchat : forall c,
             _chat env payload (set_analysis_cache c w)
             = (fst (_chat env payload w),
                set_analysis_cache c (snd (_chat env payload w)))).
  { intros c.
    destruct (@swapped_chat env c payload (set_analysis_cache c w) w eq_refl)
      as [Hr Hw].
    unfold cache_swapped in Hw.
    destruct (_chat env payload (set_analysis_cache c w)) as [r w'].
    cbn [fst snd] in *. congruence. }
  assert (Hhandle : forall c,
      handle env (Build_Request "/chat" "POST" (JObj payload))
             (set_analysis_cache c w)
      = (fst (handle env (Build_Request "/chat" "POST" (JObj payload)) w),
         set_analysis_cache c
           (snd (handle env (Build_Request "/chat" "POST" (JObj payload)) w)))).
  { intros c.
    destruct (@Related.related_handle_chat (cache_swapped c)
                (@swapped_print c) (@swapped_sleep c) env payload payload
                (@swapped_chat env c payload)
                (set_analysis_cache c w) w eq_refl) as [Hr Hw].
    unfold cache_swapped in Hw.
    destruct (handle env _ (set_analysis_cache c w)) as [r w'].
    cbn [fst snd] in *. congruence. }
  split; [exact Hchat|]. split; [|split; [exact Hhandle|]].
  - specialize (Hchat (_analysis_cache w)).
    rewrite set_analysis_cache_same in Hchat.
    destruct (_chat env payload w) as [r w']. cbn [fst snd] in *.
    inversion Hchat as [Hw]. rewrite Hw at 1. reflexivity.
  - specialize (Hhandle (_analysis_cache w)).
    rewrite set_analysis_cache_same in Hhandle.
    destruct (handle env _ w) as [r w']. cbn [fst snd] in *.
    inversion Hhandle as [Hw]. rewrite Hw at 1. reflexivity.
Qed.
End ChatCacheProps.

(** ** Chat images that do not decode *)

Module ChatImageProps.

Lemma quiet_refl (w : World) : same_but_stdout w w.
Proof. repeat split. Qed.

Lemma quiet_print l w1 w2 :
  same_but_stdout w1 w2 -> same_but_stdout (print_line l w1) (print_line l w2).
Proof. intros H. exact H. Qed.

Lemma quiet_sleep d : related same_but_stdout (sleep d) (sleep d).
Proof.
  intros w1 w2 (Hc & Hk & Ht & Hr). split; [reflexivity|].
  unfold sleep, same_but_stdout. cbn. rewrite ?Hc, ?Hk, ?Ht, ?Hr. auto.
Qed.

Section WithEnv.
Variable env : Env.

Lemma quiet_get_client :
  related same_but_stdout (_get_client env) (_get_client env).
Proof.
  intros w1 w2 H. pose proof H as (Hc & Hk & Ht & Hr).
  unfold _get_client. rewrite Hk.
  destruct (_client w2); [split; [reflexivity | exact H]|].
  destruct (GEMINI_API_KEY env) as [k|]; [|split; [reflexivity | exact H]].
  destruct (str_nonempty k); (split; [reflexivity|]); [|exact H].
  unfold same_but_stdout. cbn. auto.
Qed.

Lemma quiet_generate model contents :
  related same_but_stdout (generate env model contents)
          (generate env model contents).
Proof.
  intros w1 w2 (Hc & Hk & Ht & Hr). unfold generate. rewrite Hr.
  destruct (generate_content env (trace w2) model contents).
  split; [reflexivity|]. unfold same_but_stdout. cbn.
  rewrite ?Hc, ?Hk, ?Ht, ?Hr. auto.
Qed.

Lemma dict_get_default_drop_image (msg : dict) (key : string) (default : json) :
  key <> "image_base64" ->
  dict_get_default (drop_image msg) key default = dict_get_default msg key default.
Proof.
  intros Hk. induction msg as [|[k v] msg IH]; [reflexivity|].
  cbn [drop_image filter fst dict_get_default].
  destruct (String.eqb_spec k "image_base64") as [->|Hne]; cbn [negb].
  - destruct (String.eqb_spec "image_base64" key) as [E|_]; [congruence|].
    exact IH.
  - cbn [dict_get_default]. destruct (String.eqb k key); [reflexivity | exact IH].
Qed.

Lemma dict_get_default_drop_image_gone (msg : dict) :
  dict_get_default (drop_image msg) "image_base64" JNull = JNull.
Proof.
  induction msg as [|[k v] msg IH]; [reflexivity|].
  cbn [drop_image filter fst].
  destruct (String.eqb k "image_base64") eqn:E; cbn [negb]; [exact IH|].
  cbn [dict_get_default]. rewrite E. exact IH.
Qed.

Lemma dict_get_set_same (d : dict) (key : string) (v : json) :
  dict_get (dict_set d key v) key = v.
Proof.
  induction d as [|[k v'] d IH]; simpl.
  - rewrite String.eqb_refl. reflexivity.
  - destruct (String.eqb k key) eqn:E; simpl; rewrite E; auto.
Qed.

Lemma dict_get_set_other (d : dict) (key key' : string) (v : json) :
  key <> key' -> dict_get (dict_set d key v) key' = dict_get d key'.
Proof.
  intros Hne. induction d as [|[k v'] d IH]; simpl.
  - destruct (String.eqb_spec key key'); [contradiction | reflexivity].
  - destruct (String.eqb_spec k key) as [->|Hk]; simpl.
    + destruct (String.eqb_spec key key'); [contradiction | reflexivity].
    + destruct (String.eqb k key'); [reflexivity | exact IH].
Qed.

(** The image is dropped: no part, a warning, no exception. *)
Lemma chat_image_parts_undecodable (i : nat) (image_base64 : json) (e : exn)
      (w : World) :
  truthy image_base64 = true ->
  b64decode env image_base64 = Err e ->
  chat_image_parts env i image_base64 w
  = (Ok [], print_line (WarningDecode i e) w).
Proof.
  intros Ht He. unfold chat_image_parts. rewrite Ht.
  unfold try_except, bind, lift. rewrite He. reflexivity.
Qed.

(** A message whose image does not decode is handled like the
    message without the image. *)
Lemma chat_message_undecodable (i : nat) (msg : dict) (e : exn) :
  truthy (dict_get_default msg "image_base64" JNull) = true ->
  b64decode env (dict_get_default msg "image_base64" JNull) = Err e ->
  related same_but_stdout (chat_message env i (JObj msg))
          (chat_message env i (JObj (drop_image msg))).
Proof.
  intros Ht He. unfold chat_message, py_get.
  rewrite !dict_get_default_drop_image by discriminate.
  rewrite dict_get_default_drop_image_gone.
  apply Related.related_bind; [apply Related.related_lift|]. intros role.
  apply Related.related_bind; [apply Related.related_lift|]. intros content_text.
  intros w1 w2 Hw. unfold bind, lift, print, ret.
  rewrite (chat_image_parts_undecodable i _ _ Ht He).
  unfold chat_image_parts. cbn [truthy ret app].
  destruct (str_nonempty content_text); cbn [fst snd];
    (split; [reflexivity | exact Hw]).
Qed.
End WithEnv.

End ChatImageProps.

(** ** Responses without text *)

Module TextlessProps.

Lemma extract_text_textless (response : Response) :
  textless response -> _extract_text response = Some "".
Proof.
  intros [[Ht|Ht] Hc]; unfold _extract_text; rewrite Ht, Hc; reflexivity.
Qed.

Section OnlyPrints.
Lemma only_prints_ret {A} (a : A) : only_prints (ret a).
Proof. intros w. repeat split. Qed.

Lemma only_prints_lift {A} (r : result A) : only_prints (lift r).
Proof. intros w. repeat split. Qed.

Lemma only_prints_print (l : line) : only_prints (print l).
Proof. intros w. repeat split. Qed.

Lemma same_but_stdout_trans (w1 w2 w3 : World) :
  same_but_stdout w1 w2 -> same_but_stdout w2 w3 -> same_but_stdout w1 w3.
Proof.
  intros (A1 & B1 & C1 & D1) (A2 & B2 & C2 & D2).
  repeat split; congruence.
Qed.

Lemma only_prints_bind {A B} (m : M A) (k : A -> M B) :
  only_prints m -> (forall a, only_prints (k a)) -> only_prints (bind m k).
Proof.
  intros Hm Hk w. unfold bind. specialize (Hm w).
  destruct (m w) as [[a|e] w']; cbn [snd] in *; [|exact Hm].
  eapply same_but_stdout_trans; [exact Hm | apply Hk].
Qed.

Lemma only_prints_try_except {A} (m : M A) (h : exn -> M A) :
  only_prints m -> (forall e, only_prints (h e)) -> only_prints (try_except m h).
Proof.
  intros Hm Hh w. unfold try_except. specialize (Hm w).
  destruct (m w) as [[a|e] w']; cbn [snd] in *; [exact Hm|].
  eapply same_but_stdout_trans; [exact Hm | apply Hh].
Qed.

Variable env : Env.

Lemma only_prints_chat_message (i : nat) (msg : json) :
  only_prints (chat_message env i msg).
Proof.
  unfold chat_message.
  apply only_prints_bind; [apply only_prints_lift|]. intros role.
  apply only_prints_bind; [apply only_prints_lift|]. intros content_text.
  apply only_prints_bind; [apply only_prints_lift|]. intros image_base64.
  apply only_prints_bind; [apply only_prints_print|]. intros _.
  apply only_prints_bind.
  - unfold chat_image_parts. destruct (truthy image_base64); [|apply only_prints_ret].
    apply only_prints_try_except.
    + apply only_prints_bind; [apply only_prints_lift|]. intros image_bytes.
      apply only_prints_bind; [apply only_prints_print|]. intros _.
      apply only_prints_ret.
    + intros e. apply only_prints_bind; [apply only_prints_print|]. intros _.
      apply only_prints_ret.
  - intros image_parts. destruct (image_parts ++ _); [apply only_prints_ret|].
    apply only_prints_bind; [apply only_prints_print|]. intros _.
    apply only_prints_ret.
Qed.

Lemma only_prints_chat_messages (messages : list json) :
  forall i contents, only_prints (chat_messages env i messages contents).
Proof.
  induction messages as [|msg messages IH]; intros i contents.
  - apply only_prints_ret.
  - cbn [chat_messages]. apply only_prints_bind.
    + apply only_prints_chat_message.
    + intros added. apply IH.
Qed.

Lemma get_client_available (w : World) :
  client_available env w ->
  exists c,
    _get_client env w
    = (Ok c, Build_World (_analysis_cache w) (Some c) (clock w) (trace w) (stdout w)).
Proof.
  intros [[c Hc] | (k & Hk & Hne)]; unfold _get_client.
  - rewrite Hc. exists c. destruct w. cbn in *. subst. reflexivity.
  - destruct (_client w) as [c|] eqn:Hc.
    + exists c. destruct w. cbn in *. subst. reflexivity.
    + rewrite Hk, Hne. exists k. reflexivity.
Qed.
End OnlyPrints.

Section Attempts.
Variable env : Env.
Hypothesis Hremote : always_textless env.

(** The shared tail of both operations: the remote call and the
    parse of its answer. *)
Lemma generate_then_parse_fails (model : string) (contents : list Content)
      (w : World) :
  exists w',
    bind (generate env model contents)
         (fun response => lift (_extract_json env (_extract_text response))) w
    = (Err V_no_json, w') /\
    _analysis_cache w' = _analysis_cache w /\ _client w' = _client w.
Proof.
  unfold bind, generate, lift.
  destruct (Hremote (trace w) model contents) as (r & lat & Hg & Ht).
  rewrite Hg, (extract_text_textless Ht).
  eexists. split; [reflexivity|]. split; reflexivity.
Qed.

Lemma analyze_remote_fails (payload : dict) (image_bytes : bytes)
      (image_hash : string) (w : World) :
  client_available env w ->
  exists w',
    _analyze_remote env payload image_bytes image_hash w = (Err V_no_json, w') /\
    _analysis_cache w' = _analysis_cache w /\ (exists c, _client w' = Some c).
Proof.
  intros Hc. unfold _analyze_remote.
  destruct (get_client_available Hc) as (c & Hget).
  unfold bind at 1. rewrite Hget.
  match goal with
  | |- context [bind (generate env ?m ?cs) ?k ?w0] =>
      destruct (generate_then_parse_fails m cs w0) as (w' & Hrun & Hcache & Hclient);
      assert (Hk : bind (generate env m cs) k w0 = (Err V_no_json, w'))
  end.
  { unfold bind in *. 
    destruct (generate env (GEMINI_MODEL env) _ _) as [[r|e] w1];
      cbn [lift] in *; [|exact Hrun].
    unfold lift in Hrun. inversion Hrun as [[Hj Hw]]. rewrite Hj. reflexivity. }
  rewrite Hk. exists w'. split; [reflexivity|].
  split; [exact Hcache|]. exists c. exact Hclient.
Qed.

Lemma analyze_attempt_fails (payload : dict) (image_bytes : bytes) (w : World) :
  truthy (dict_get payload "image_base64") = true ->
  b64decode env (dict_get payload "image_base64") = Ok image_bytes ->
  (forall w0, check_max_bytes env image_bytes w0 = (Ok tt, w0)) ->
  OrderedDict.lookup (sha256_hexdigest env image_bytes)
                     (LRUCache._cache (_analysis_cache w)) = None ->
  client_available env w ->
  exists w',
    _analyze env payload w = (Err V_no_json, w') /\
    _analysis_cache w' = _analysis_cache w /\ (exists c, _client w' = Some c).
Proof.
  intros Himg Hdec Hsize Hlook Hc.
  unfold _analyze. rewrite Himg, Hdec. cbn [negb].
  unfold bind at 1. unfold lift at 1.
  unfold bind at 1. rewrite Hsize.
  unfold bind at 1. unfold cache_get, LRUCache.get. rewrite Hlook.
  match goal with
  | |- context [_analyze_remote env payload image_bytes ?h ?w0] =>
      destruct (@analyze_remote_fails payload image_bytes h w0)
        as (w' & Hrun & Hcache & Hclient)
  end.
  - destruct Hc as [Hc | Hc]; [left; exact Hc | right; exact Hc].
  - exists w'. split; [exact Hrun|]. split; [exact Hcache | exact Hclient].
Qed.

Lemma chat_attempt_fails (payload : dict) (messages : list json)
      (system_prompt : string) (w : World) :
  dict_get payload "messages" = JList messages ->
  build_chat_prompt env []
    (if truthy (dict_get payload "plant_context")
     then dict_get payload "plant_context" else JObj [])
  = Ok system_prompt ->
  (forall contents w0,
      exists assembled, fst (chat_messages env 0 messages contents w0) = Ok assembled) ->
  client_available env w ->
  exists w',
    _chat env payload w = (Err V_no_json, w') /\ (exists c, _client w' = Some c).
Proof.
  intros Hmsgs Hprompt Hassemble Hc. unfold _chat. rewrite Hmsgs.
  destruct (get_client_available Hc) as (c & Hget).
  unfold bind at 1. rewrite Hget.
  unfold bind at 1. unfold print at 1.
  unfold bind at 1. unfold print at 1.
  unfold bind at 1. unfold lift at 1. rewrite Hprompt.
  unfold bind at 1.
  match goal with
  | |- context [chat_messages env 0 messages ?c0 ?w0] =>
      destruct (Hassemble c0 w0) as (assembled & Hok);
      pose proof (only_prints_chat_messages env messages 0 c0 w0) as Hsame;
      destruct (chat_messages env 0 messages c0 w0) as [r w1]
  end.
  cbn [fst snd] in Hok, Hsame. subst r.
  unfold bind at 1. unfold print at 1.
  match goal with
  | |- context [bind (generate env ?m ?cs) ?k ?w0] =>
      destruct (generate_then_parse_fails m cs w0) as (w' & Hrun & Hcache & Hclient)
  end.
  exists w'. split; [exact Hrun|].
  exists c. rewrite Hclient. cbn [print_line _client].
  destruct Hsame as (_ & Hk & _). rewrite <- Hk. reflexivity.
Qed.
End Attempts.

End TextlessProps.

(** ** Sanity checks of the model on concrete inputs *)

Module Checks.

Example find_first_brace : str_find "{"%char "ab{c}{" = 2.
Proof. reflexivity. Qed.

Example rfind_last_brace : str_rfind "}"%char "a}b}c" = 3.
Proof. reflexivity. Qed.

Example find_absent : str_find "{"%char "abc" = -1.
Proof. reflexivity. Qed.

Example slice_span : str_slice 2 5 "ab{c}d" = "{c}".
Proof. reflexivity. Qed.

Example extract_json_in_prose :
  _extract_json (Demo.env None Demo.down)
                (Some ("Here you go: " ++ Demo.healthy_text ++ " bye")%string)
  = Ok (JObj [("status", JStr "healthy")]).
Proof. reflexivity. Qed.

Example extract_json_reversed_braces :
  _extract_json (Demo.env None Demo.down) (Some "} {") = Err V_no_json.
Proof. reflexivity. Qed.

Example mime_png :
  _detect_mime_type [x89; x50; x4e; x47; x0d; x0a; x1a; x0a; x00] = "image/png".
Proof. reflexivity. Qed.

Example mime_webp :
  _detect_mime_type [x52; x49; x46; x46; x00; x00; x00; x00; x57; x45; x42; x50]
  = "image/webp".
Proof. reflexivity. Qed.

Example mime_unknown : _detect_mime_type [x41] = "image/jpeg".
Proof. reflexivity. Qed.

Example extract_text_prefers_text :
  _extract_text {| response_text := Some "a";
                   response_candidates :=
                     Some [{| rcandidate_content :=
                                Some {| rcontent_parts :=
                                          Some [{| rpart_text := Some "b" |}] |} |}] |}
  = Some "a".
Proof. reflexivity. Qed.

Example extract_text_falls_back :
  _extract_text {| response_text := None;
                   response_candidates :=
                     Some [{| rcandidate_content :=
                                Some {| rcontent_parts :=
                                          Some [{| rpart_text := Some "b" |}] |} |}] |}
  = Some "b".
Proof. reflexivity. Qed.

(** With a non-empty result the second identical analyze request is
    answered from the cache: one remote call in all. *)
Example analyze_twice_one_remote_call :
  let env := Demo.env None (Demo.answers Demo.healthy_text) in
  let request := Demo.post "/analyze" [("image_base64", JStr "QQ==")] in
  let first := handle env request Demo.start in
  let second := handle env request (snd first) in
  fst first = _json_response (JObj [("status", JStr "healthy")]) 200 /\
  fst second = fst first /\
  List.length (filter is_generate (trace (snd second))) = 1%nat /\
  filter is_sleep (trace (snd second)) = [].
Proof. vm_compute. repeat split; reflexivity. Qed.

(** A collaborator that is down is called three times, with the two
    sleeps between the calls, and the request ends as 502. *)
Example analyze_remote_down :
  let env := Demo.env None Demo.down in
  let request := Demo.post "/analyze" [("image_base64", JStr "QQ==")] in
  let out := handle env request Demo.start in
  status (fst out) = 502 /\
  map is_generate (trace (snd out)) = [true; false; true; false; true].
Proof. vm_compute. split; reflexivity. Qed.

(** An image over the size limit is refused with 400. *)
Example analyze_oversized :
  let env := Demo.env (Some "2") Demo.down in
  let request := Demo.post "/analyze" [("image_base64", JStr "QUJD")] in
  fst (handle env request Demo.start)
  = _error_response "bad_request" "image exceeds max size" 400.
Proof. reflexivity. Qed.

(** A chat turn: the system prompt pair, then the user's text. *)
Example chat_contents :
  let env := Demo.env None (Demo.answers Demo.healthy_text) in
  let payload :=
    [("messages", JList [JObj [("role", JStr "Assistant"); ("content", JStr "hi")]])] in
  trace (snd (_chat env payload Demo.start))
  = [EvGenerate "gemini-3-flash-preview"
       [Build_Content "user" [Part_from_text "You are a plant care assistant."];
        Build_Content "model" [Part_from_text understood];
        Build_Content "model" [Part_from_text "hi"]]].
Proof. reflexivity. Qed.
End Checks.

(** ** Concrete runs *)

Module Runs.

Lemma cache_capacity_bound_run :
  0 < 2 /\
  (exists states,
      LRUCache.run (LRUCache.__init__ 2 3600)
        [LRUCache.Set_ "a" (JObj []) 1; LRUCache.Set_ "b" (JObj []) 2;
         LRUCache.Get "a" 3; LRUCache.Set_ "c" (JObj []) 4] = Ok states /\
      List.length states = 4%nat /\
      Forall (fun c => LRUCache.size c <= 2) states) /\
  (exists c,
      LRUCache.set_all (LRUCache.__init__ 2 3600)
        [("a", JObj [], 1%Q); ("b", JObj [], 2%Q); ("c", JObj [], 3%Q)] = Ok c /\
      LRUCache.size c = 2 /\
      LRUCache._cache c = [("b", (JObj [], 2%Q)); ("c", (JObj [], 3%Q))] /\
      LRUCache.keys c = ["b"; "c"]).
Proof.
  assert (Hpos : 0 < 2) by lia.
  destruct (@CacheProps.cache_capacity_bound 2 3600 Hpos) as [Hrun Hall].
  split; [exact Hpos|]. split.
  - apply Hrun.
  - apply (Hall [("a", JObj [], 1%Q); ("b", JObj [], 2%Q); ("c", JObj [], 3%Q)]
                1%nat).
    + repeat constructor; simpl; intuition discriminate.
    + reflexivity.
Defined.

Lemma cache_promotion_scenario_run :
  NoDup ["A"; "B"; "C"; "D"] /\
  exists c1 c2 c3 c4 c5,
    LRUCache.set (LRUCache.__init__ 2 3600) "A" (JObj []) 1 = (Ok tt, c1) /\
    LRUCache.set c1 "B" (JObj []) 2 = (Ok tt, c2) /\
    LRUCache.set c2 "C" (JObj []) 3 = (Ok tt, c3) /\
    LRUCache.get c3 "A" 4 = (None, c4) /\
    LRUCache.set c4 "D" (JObj []) 5 = (Ok tt, c5) /\
    OrderedDict.contains "B" (LRUCache._cache c5) = false /\
    LRUCache.evicted_keys c4 c5 = ["B"] /\
    ~ In "A" (LRUCache.evicted_keys c4 c5) /\
    LRUCache.keys c5 = ["C"; "D"].
Proof.
  assert (Hnd : NoDup ["A"; "B"; "C"; "D"])
    by (repeat constructor; simpl; intuition discriminate).
  split; [exact Hnd|].
  apply (@CacheScenarios.cache_promotion_scenario
           "A" "B" "C" "D" (JObj []) (JObj []) (JObj []) (JObj [])
           1%Q 2%Q 3%Q 4%Q 5%Q 3600 Hnd).
Defined.

Lemma call_with_retry_bound_run :
  0 <= 2 /\
  (forall w', exists e, fst (Demo.failing_call w') = Err e) /\
  _call_with_retry Demo.failing_call 2 Demo.start
  = Demo.failing_call
      (failed_rounds Demo.failing_call 2 initial_delay Demo.start) /\
  trace (snd (_call_with_retry Demo.failing_call 2 Demo.start))
  = [] ++ retry_trace (EvGenerate "gemini-3-flash-preview" [])
                      (backoff_delays 2 initial_delay).
Proof.
  assert (Hmax : 0 <= 2) by lia.
  assert (Hfail : forall w', exists e, fst (Demo.failing_call w') = Err e)
    by (intros w'; eexists; reflexivity).
  destruct (@RetryProps.call_with_retry_bound json Demo.failing_call 2
              Demo.start Hmax) as [Hall _].
  destruct (Hall Hfail) as (Heq & _ & Htrace).
  split; [exact Hmax|]. split; [exact Hfail|]. split; [exact Heq|].
  apply Htrace. intros w'. reflexivity.
Defined.

(** An analyze request without an image is answered 400 only after
    two backoff sleeps: the validation failure was retried. *)
Lemma validation_failure_is_retried :
  let out := handle (Demo.env None Demo.down) (Demo.post "/analyze" [])
                    Demo.start in
  fst out = _error_response "bad_request" "image_base64 is required" 400 /\
  trace (snd out) = [EvSleep (8 # 10); EvSleep (16 # 10)] /\
  ~ (forall ev, In ev (trace (snd out)) -> is_sleep ev = false).
Proof.
  cbv zeta. split; [reflexivity|]. split; [reflexivity|].
  intros H. specialize (H (EvSleep (8 # 10))).
  assert (Hin : In (EvSleep (8 # 10))
                   (trace (snd (handle (Demo.env None Demo.down)
                                       (Demo.post "/analyze" [])
                                       Demo.start))))
    by (left; reflexivity).
  specialize (H Hin). discriminate H.
Qed.

Lemma validation_failure_surfaces_after_retries_run :
  validation_failure (Demo.env None Demo.down) "/analyze" [] V_image_required /\
  handle (Demo.env None Demo.down) (Build_Request "/analyze" "POST" (JObj []))
         Demo.start
  = (_error_response "bad_request" "image_base64 is required" 400,
     Build_World (LRUCache.__init__ 100 3600) None
                 (0 + initial_delay + initial_delay * 2)%Q
                 ([] ++ [EvSleep initial_delay; EvSleep (initial_delay * 2)%Q]) []).
Proof.
  assert (Hv : validation_failure (Demo.env None Demo.down) "/analyze" []
                                  V_image_required)
    by (apply VF_missing_image; reflexivity).
  split; [exact Hv|].
  apply (@DispatchProps.validation_failure_surfaces_after_retries
           (Demo.env None Demo.down) "/analyze" [] V_image_required
           Demo.start Hv).
Defined.

End Runs.

(** * Further properties *)

(** ** The cache, operation by operation *)

Module CacheMore.
Import CacheFacts.

Section Dict.
Variable V : Type.
Implicit Types (d : OrderedDict.t V) (k : string) (v : V).

Lemma remove_absent k d :
  OrderedDict.lookup k d = None -> OrderedDict.remove k d = d.
Proof.
  induction d as [|[k' v'] d IH]; simpl; [reflexivity|].
  destruct (String.eqb k' k); [discriminate|].
  intros H. rewrite IH by assumption. reflexivity.
Qed.

Lemma lookup_remove_other k k' d :
  k <> k' ->
  OrderedDict.lookup k' (OrderedDict.remove k d) = OrderedDict.lookup k' d.
Proof.
  intros Hne. induction d as [|[k0 v0] d IH]; simpl; [reflexivity|].
  destruct (String.eqb_spec k0 k) as [->|H0].
  - destruct (String.eqb_spec k k'); [contradiction | reflexivity].
  - simpl. destruct (String.eqb k0 k'); [reflexivity | exact IH].
Qed.

Lemma lookup_app_other k k' v d :
  k <> k' ->
  OrderedDict.lookup k' (d ++ [(k, v)]) = OrderedDict.lookup k' d.
Proof.
  intros Hne. induction d as [|[k0 v0] d IH]; simpl.
  - destruct (String.eqb_spec k k'); [contradiction | reflexivity].
  - destruct (String.eqb k0 k'); [reflexivity | exact IH].
Qed.

(** Dropping the oldest items of a dict cannot change what a key that
    is still there maps to. *)
Lemma lookup_skipn k v (n : nat) d :
  NoDup (OrderedDict.keys d) ->
  OrderedDict.lookup k (skipn n d) = Some v ->
  OrderedDict.lookup k d = Some v.
Proof.
  revert d. induction n as [|n IH]; intros d Hnd H; [exact H|].
  destruct d as [|[k0 v0] d]; [discriminate|].
  simpl in H. inversion Hnd as [|? ? Hnot Hnd']; subst.
  simpl. destruct (String.eqb_spec k0 k) as [->|Hne].
  - exfalso. apply Hnot.
    apply IH in H; [|exact Hnd'].
    destruct (in_dec string_dec k (OrderedDict.keys d)) as [Hin|Hout];
      [exact Hin|].
    apply lookup_None_keys in Hout. congruence.
  - apply IH; assumption.
Qed.
End Dict.

(** What [set] leaves in the dict, in closed form: the newest
    [max_size - 1] of the other items, then the new entry. *)
Lemma set_closed_form (self : LRUCache.t) key value now :
  0 < LRUCache._max_size self ->
  NoDup (LRUCache.keys self) ->
  LRUCache.set self key value now
  = (Ok tt,
     LRUCache.with_cache self
       (lastn (Z.to_nat (LRUCache._max_size self) - 1)
              (OrderedDict.remove key (LRUCache._cache self))
          ++ [(key, (value, now))])).
Proof.
  intros Hmax Hnd. unfold LRUCache.set.
  rewrite evict_lastn by lia.
  match goal with
  | |- context [lastn _ ?stored] =>
      assert (Hshape : stored
                       = OrderedDict.remove key (LRUCache._cache self)
                           ++ [(key, (value, now))])
  end.
  { unfold OrderedDict.contains, OrderedDict.move_to_end.
    destruct (OrderedDict.lookup key (LRUCache._cache self)) as [old|] eqn:E.
    - apply CacheProps.setitem_app_last.
      apply lookup_remove_same. exact Hnd.
    - rewrite (remove_absent _ _ E). apply setitem_absent. exact E. }
  rewrite Hshape, CacheProps.lastn_snoc_last by lia.
  reflexivity.
Qed.

Lemma keys_lastn_remove_fresh (n : nat) key (d : OrderedDict.t LRUCache.entry) :
  NoDup (OrderedDict.keys d) ->
  OrderedDict.lookup key (lastn n (OrderedDict.remove key d)) = None.
Proof.
  intros Hnd. apply lookup_None_keys. intros Hin.
  unfold OrderedDict.keys, lastn in Hin. rewrite <- skipn_map in Hin.
  apply CacheProps.In_skipn in Hin.
  apply (proj1 (lookup_None_keys key (OrderedDict.remove key d)));
    [apply lookup_remove_same; exact Hnd | exact Hin].
Qed.

(** X1.  Round trip: with a positive capacity, a [get] of a key right
    after its [set], at a clock reading within the TTL of the [set],
    returns the value that was set and changes nothing. *)
Theorem set_then_get (self : LRUCache.t) key value (now now' : Q) :
  0 < LRUCache._max_size self ->
  NoDup (LRUCache.keys self) ->
  (now' - now <= inject_Z (LRUCache._ttl_seconds self))%Q ->
  exists self',
    LRUCache.set self key value now = (Ok tt, self') /\
    LRUCache.get self' key now' = (Some value, self').
Proof.
  intros Hmax Hnd Hfresh.
  rewrite (set_closed_form self key value now Hmax Hnd).
  eexists. split; [reflexivity|].
  pose proof (keys_lastn_remove_fresh
                (Z.to_nat (LRUCache._max_size self) - 1) key
                (LRUCache._cache self) Hnd) as Hgone.
  unfold LRUCache.get. cbn [LRUCache._cache LRUCache.with_cache LRUCache._ttl_seconds].
  rewrite (lookup_app_last _ _ _ Hgone).
  apply Qgt_bool_false_iff in Hfresh. rewrite Hfresh.
  unfold OrderedDict.move_to_end. rewrite (lookup_app_last _ _ _ Hgone).
  assert (Hrem : forall (d : OrderedDict.t LRUCache.entry) e,
             OrderedDict.lookup key d = None ->
             OrderedDict.remove key (d ++ [(key, e)]) = d).
  { induction d as [|[k0 v0] d IH]; simpl; intros e H.
    - rewrite String.eqb_refl. reflexivity.
    - destruct (String.eqb k0 key); [discriminate|]. rewrite IH by assumption.
      reflexivity. }
  rewrite (Hrem _ _ Hgone). reflexivity.
Qed.

(** The eviction loop only ever drops items from the old end. *)
Lemma evict_suffix (max_size : Z) (d : OrderedDict.t LRUCache.entry) :
  exists j, snd (LRUCache.evict max_size d) = skipn j d.
Proof.
  induction d as [|x d IH].
  - exists 0%nat. simpl. destruct (0 >? max_size); reflexivity.
  - cbn [LRUCache.evict].
    destruct (Z.of_nat (List.length (x :: d)) >? max_size).
    + destruct IH as [j Hj]. exists (S j). exact Hj.
    + exists 0%nat. reflexivity.
Qed.

Lemma set_stored (d : OrderedDict.t LRUCache.entry) key (e : LRUCache.entry) :
  NoDup (OrderedDict.keys d) ->
  OrderedDict.setitem key e
    (if OrderedDict.contains key d then OrderedDict.move_to_end key d else d)
  = OrderedDict.remove key d ++ [(key, e)].
Proof.
  intros Hnd. unfold OrderedDict.contains, OrderedDict.move_to_end.
  destruct (OrderedDict.lookup key d) as [old|] eqn:E.
  - apply CacheProps.setitem_app_last. apply lookup_remove_same. exact Hnd.
  - rewrite (remove_absent _ _ E). apply setitem_absent. exact E.
Qed.

Lemma stored_keys_unique (d : OrderedDict.t LRUCache.entry) key (e : LRUCache.entry) :
  NoDup (OrderedDict.keys d) ->
  NoDup (OrderedDict.keys (OrderedDict.remove key d ++ [(key, e)])).
Proof.
  intros Hnd. unfold OrderedDict.keys. rewrite map_app. cbn [map fst].
  apply NoDup_app; [apply remove_NoDup; exact Hnd | repeat constructor; simpl; tauto |].
  intros x Hx [Heq|[]]. subst x.
  apply (proj1 (lookup_None_keys key (OrderedDict.remove key d)));
    [apply lookup_remove_same; exact Hnd | exact Hx].
Qed.

(** Whatever the capacity, and whether or not it raises, [set] leaves
    a dict with pairwise distinct keys. *)
Lemma set_keeps_keys_unique (self : LRUCache.t) key value now :
  NoDup (LRUCache.keys self) ->
  NoDup (LRUCache.keys (snd (LRUCache.set self key value now))).
Proof.
  intros Hnd. unfold LRUCache.set.
  match goal with
  | |- context [LRUCache.evict _ ?stored] =>
      replace stored
        with (OrderedDict.remove key (LRUCache._cache self) ++ [(key, (value, now))])
        by (symmetry; apply set_stored; exact Hnd)
  end.
  destruct (evict_suffix (LRUCache._max_size self)
              (OrderedDict.remove key (LRUCache._cache self) ++ [(key, (value, now))]))
    as [j Hj].
  destruct (LRUCache.evict _ _) as [r d']. cbn [snd] in *. subst d'.
  unfold LRUCache.keys, OrderedDict.keys. cbn [LRUCache._cache LRUCache.with_cache].
  rewrite <- skipn_map. apply CacheProps.NoDup_skipn.
  apply (stored_keys_unique (LRUCache._cache self) key (value, now) Hnd).
Qed.

(** X2.  Invariant: starting from a cache whose keys are pairwise
    distinct (the empty one, for instance), every state reached by
    any sequence of gets and sets has pairwise distinct keys. *)
Theorem reachable_keys_unique (self : LRUCache.t) (ops : list LRUCache.op)
        (states : list LRUCache.t) :
  NoDup (LRUCache.keys self) ->
  LRUCache.run self ops = Ok states ->
  Forall (fun c => NoDup (LRUCache.keys c)) states.
Proof.
  revert self states. induction ops as [|o ops IH]; intros self states Hnd Hrun.
  - inversion Hrun. constructor.
  - cbn [LRUCache.run] in Hrun.
    assert (Hstep : NoDup (LRUCache.keys (snd (LRUCache.step self o)))).
    { destruct o as [key now | key value now]; cbn [LRUCache.step snd].
      - apply CacheProps.get_keeps_keys_unique. exact Hnd.
      - apply set_keeps_keys_unique. exact Hnd. }
    destruct (LRUCache.step self o) as [[[]|e] self']; [|discriminate].
    cbn [snd] in Hstep.
    destruct (LRUCache.run self' ops) as [rest|e] eqn:Hrest; [|discriminate].
    inversion Hrun; subst. constructor; [exact Hstep|].
    eapply IH; eassumption.
Qed.

(** X3.  Overwrite: a [set] of a key that is already stored, in a
    cache within its capacity, replaces the value and the insertion
    time, moves the entry to the most-recently-used end, keeps the
    other entries in their order and the size as it was. *)
Theorem set_overwrites (self : LRUCache.t) key value now (old : LRUCache.entry) :
  0 < LRUCache._max_size self ->
  NoDup (LRUCache.keys self) ->
  LRUCache.size self <= LRUCache._max_size self ->
  OrderedDict.lookup key (LRUCache._cache self) = Some old ->
  exists self',
    LRUCache.set self key value now = (Ok tt, self') /\
    LRUCache._cache self'
    = OrderedDict.remove key (LRUCache._cache self) ++ [(key, (value, now))] /\
    LRUCache.size self' = LRUCache.size self.
Proof.
  intros Hmax Hnd Hsize Hold.
  rewrite (set_closed_form self key value now Hmax Hnd).
  eexists. split; [reflexivity|].
  pose proof (remove_length_Some _ _ Hold) as Hlen.
  unfold LRUCache.size in *. cbn [LRUCache._cache LRUCache.with_cache].
  rewrite lastn_all by lia.
  split; [reflexivity|].
  rewrite length_app. simpl List.length. lia.
Qed.

(** X4.  Insertion of a key that is not stored: below capacity the
    entry is appended and nothing is evicted; at capacity exactly the
    oldest entry is dropped, whatever the insertion times are (an
    expired entry further up is not preferred). *)
Theorem set_new_key (self : LRUCache.t) key value now :
  0 < LRUCache._max_size self ->
  NoDup (LRUCache.keys self) ->
  OrderedDict.lookup key (LRUCache._cache self) = None ->
  (LRUCache.size self < LRUCache._max_size self ->
     LRUCache.set self key value now
     = (Ok tt, LRUCache.with_cache self
                 (LRUCache._cache self ++ [(key, (value, now))]))) /\
  (forall oldest rest,
      LRUCache._cache self = oldest :: rest ->
      LRUCache.size self = LRUCache._max_size self ->
      LRUCache.set self key value now
      = (Ok tt, LRUCache.with_cache self (rest ++ [(key, (value, now))]))).
Proof.
  intros Hmax Hnd Hnew.
  rewrite (set_closed_form self key value now Hmax Hnd).
  rewrite (remove_absent _ _ Hnew).
  unfold LRUCache.size. split.
  - intros Hroom. rewrite lastn_all by lia. reflexivity.
  - intros oldest rest Hd Hfull. rewrite Hd in *.
    rewrite lastn_cons by (simpl List.length in Hfull; lia).
    rewrite lastn_all by (simpl List.length in Hfull; lia).
    reflexivity.
Qed.

(** X5.  Frame: a [get] leaves what every other key maps to exactly
    as it was; after a [set], every other key that is still stored
    maps to the value and insertion time it had before. *)
Theorem other_keys_untouched (self : LRUCache.t) key (k' : string) :
  key <> k' ->
  (forall now,
      OrderedDict.lookup k' (LRUCache._cache (snd (LRUCache.get self key now)))
      = OrderedDict.lookup k' (LRUCache._cache self)) /\
  (forall value now e,
      NoDup (LRUCache.keys self) ->
      OrderedDict.lookup k'
        (LRUCache._cache (snd (LRUCache.set self key value now))) = Some e ->
      OrderedDict.lookup k' (LRUCache._cache self) = Some e).
Proof.
  intros Hne. split.
  - intros now. unfold LRUCache.get.
    destruct (OrderedDict.lookup key (LRUCache._cache self)) as [[v ts]|] eqn:E;
      [|reflexivity].
    destruct (LRUCache.Qgt_bool _ _); cbn [snd LRUCache._cache LRUCache.with_cache].
    + apply lookup_remove_other. exact Hne.
    + unfold OrderedDict.move_to_end. rewrite E.
      rewrite lookup_app_other by exact Hne.
      apply lookup_remove_other. exact Hne.
  - intros value now e Hnd Hafter. unfold LRUCache.set in Hafter.
    match type of Hafter with
    | context [LRUCache.evict _ ?stored] =>
        replace stored
          with (OrderedDict.remove key (LRUCache._cache self)
                  ++ [(key, (value, now))]) in Hafter
          by (symmetry; apply set_stored; exact Hnd)
    end.
    destruct (evict_suffix (LRUCache._max_size self)
                (OrderedDict.remove key (LRUCache._cache self)
                   ++ [(key, (value, now))])) as [j Hj].
    destruct (LRUCache.evict _ _) as [r d']. cbn [snd] in *. subst d'.
    cbn [LRUCache._cache LRUCache.with_cache] in Hafter.
    apply lookup_skipn in Hafter;
      [|apply (stored_keys_unique (LRUCache._cache self) key (value, now) Hnd)].
    rewrite lookup_app_other in Hafter by exact Hne.
    rewrite lookup_remove_other in Hafter by exact Hne.
    exact Hafter.
Qed.

Lemma evict_negative (max_size : Z) (d : OrderedDict.t LRUCache.entry) :
  max_size < 0 ->
  LRUCache.evict max_size d = (Err (Exn KeyError "dictionary is empty"), []).
Proof.
  intros Hneg. induction d as [|x d IH].
  - simpl. destruct (Z.gtb_spec 0 max_size); [reflexivity | lia].
  - cbn [LRUCache.evict].
    destruct (Z.gtb_spec (Z.of_nat (List.length (x :: d))) max_size); [exact IH | lia].
Qed.

(** X7.  A cache whose capacity is not positive never holds
    anything: with capacity 0 every [set] succeeds and leaves the
    cache empty; with a negative capacity every [set] raises
    [KeyError] and leaves the cache empty. *)
Theorem set_without_capacity (self : LRUCache.t) key value now :
  LRUCache._max_size self <= 0 ->
  LRUCache._cache (snd (LRUCache.set self key value now)) = [] /\
  (LRUCache._max_size self = 0 ->
     fst (LRUCache.set self key value now) = Ok tt) /\
  (LRUCache._max_size self < 0 ->
     fst (LRUCache.set self key value now)
     = Err (Exn KeyError "dictionary is empty")).
Proof.
  intros Hcap. unfold LRUCache.set.
  destruct (Z.eq_dec (LRUCache._max_size self) 0) as [H0|Hn0].
  - rewrite H0, evict_lastn by lia.
    cbn [fst snd LRUCache._cache LRUCache.with_cache].
    unfold lastn. change (Z.to_nat 0) with 0%nat. rewrite Nat.sub_0_r, skipn_all.
    split; [reflexivity|]. split; [intros _; reflexivity | intros H; lia].
  - rewrite evict_negative by lia.
    cbn [fst snd LRUCache._cache LRUCache.with_cache].
    split; [reflexivity|]. split; [intros H; contradiction | intros _; reflexivity].
Qed.
End CacheMore.

(** ** The retry executor at its edges *)

Module RetryMore.

(** X8.  With a negative [max_retries] the operation is never
    invoked: the executor raises [RuntimeError("unreachable")] at
    once, without sleeping. *)
Theorem call_with_retry_negative {A} (func : M A) (max_retries : Z) (w : World) :
  max_retries < 0 ->
  _call_with_retry func max_retries w = (Err (Exn RuntimeError "unreachable"), w).
Proof.
  intros Hneg. unfold _call_with_retry, range.
  replace (Z.to_nat (max_retries + 1)) with 0%nat by lia.
  reflexivity.
Qed.

Lemma sum_backoff_delays (n : nat) :
  forall delay,
    (sum_delays (backoff_delays n delay)
     == delay * (inject_Z (2 ^ Z.of_nat n) - 1))%Q.
Proof.
  induction n as [|n IH]; intros delay.
  - simpl. ring.
  - cbn [backoff_delays sum_delays fold_right].
    fold (sum_delays (backoff_delays n (delay * 2)%Q)). rewrite IH.
    rewrite Nat2Z.inj_succ, Z.pow_succ_r by lia.
    rewrite inject_Z_mult. ring.
Qed.

Lemma failed_rounds_clock {A} (func : M A) :
  (forall w, clock (snd (func w)) = clock w) ->
  forall n delay w,
    (clock (failed_rounds func n delay w)
     == clock w + sum_delays (backoff_delays n delay))%Q.
Proof.
  intros Hclock. induction n as [|n IH]; intros delay w.
  - simpl. ring.
  - cbn [failed_rounds backoff_delays sum_delays fold_right].
    fold (sum_delays (backoff_delays n (delay * 2)%Q)).
    rewrite IH. unfold sleep. cbn [snd clock]. rewrite Hclock. ring.
Qed.

(** X9.  The time spent backing off: an operation that always raises
    and does not itself take time is given up on after exactly
    [0.8 * (2 ^ max_retries - 1)] seconds of sleep; 2.4 seconds with
    the two retries the dispatcher asks for. *)
Theorem total_backoff {A} (func : M A) (n : nat) (w : World) :
  (forall w', exists e, fst (func w') = Err e) ->
  (forall w', clock (snd (func w')) = clock w') ->
  (clock (snd (_call_with_retry func (Z.of_nat n) w))
   == clock w + initial_delay * (inject_Z (2 ^ Z.of_nat n) - 1))%Q /\
  (n = 2%nat ->
   (clock (snd (_call_with_retry func (Z.of_nat n) w)) == clock w + (24 # 10))%Q).
Proof.
  intros Hfail Hclock.
  assert (Hmain : (clock (snd (_call_with_retry func (Z.of_nat n) w))
                   == clock w + initial_delay * (inject_Z (2 ^ Z.of_nat n) - 1))%Q).
  { rewrite (RetryProps.call_with_retry_exhausts func n w Hfail).
    rewrite Hclock, (failed_rounds_clock func Hclock), sum_backoff_delays.
    reflexivity. }
  split; [exact Hmain|].
  intros ->. rewrite Hmain. reflexivity.
Qed.
End RetryMore.

(** ** Finding the JSON object in the answer *)

Module ExtractMore.

Local Open Scope string_scope.

Lemma str_find_lower (c : ascii) (text : string) : -1 <= str_find c text.
Proof.
  induction text as [|a text IH]; simpl; [lia|].
  destruct (Ascii.eqb a c); [lia|].
  destruct (Z.eqb_spec (str_find c text) (-1)); lia.
Qed.

Lemma str_rfind_lower (c : ascii) (text : string) : -1 <= str_rfind c text.
Proof.
  induction text as [|a text IH]; simpl; [lia|].
  destruct (Z.eqb_spec (str_rfind c text) (-1)); [|lia].
  destruct (Ascii.eqb a c); lia.
Qed.

Lemma str_find_absent (c : ascii) (text : string) :
  occurs c text = false -> str_find c text = -1.
Proof.
  induction text as [|a text IH]; simpl; [reflexivity|].
  destruct (Ascii.eqb a c); [discriminate|]. simpl.
  intros H. rewrite IH by assumption. reflexivity.
Qed.

Lemma str_rfind_absent (c : ascii) (text : string) :
  occurs c text = false -> str_rfind c text = -1.
Proof.
  induction text as [|a text IH]; simpl; [reflexivity|].
  destruct (Ascii.eqb a c); [discriminate|]. simpl.
  intros H. rewrite IH by assumption. reflexivity.
Qed.

(** The first occurrence, past a prefix without the character. *)
Lemma str_find_after (c : ascii) (pre rest : string) :
  occurs c pre = false ->
  str_find c (pre ++ String c rest) = Z.of_nat (String.length pre).
Proof.
  induction pre as [|a pre IH]; intros H.
  - simpl. rewrite Ascii.eqb_refl. reflexivity.
  - simpl in H. destruct (Ascii.eqb a c) eqn:E; [discriminate|].
    cbn [append str_find String.length]. rewrite E, IH by exact H.
    destruct (Z.eqb_spec (Z.of_nat (String.length pre)) (-1)); lia.
Qed.

(** The last occurrence, before a suffix without the character. *)
Lemma str_rfind_before (c : ascii) (text post : string) :
  occurs c post = false ->
  str_rfind c (text ++ String c post) = Z.of_nat (String.length text).
Proof.
  intros H. induction text as [|a text IH].
  - simpl. rewrite (str_rfind_absent c post H), Ascii.eqb_refl. reflexivity.
  - cbn [append str_rfind String.length]. rewrite IH.
    destruct (Z.eqb_spec (Z.of_nat (String.length text)) (-1)); lia.
Qed.

Lemma substring_prefix (mid post : string) :
  substring 0 (String.length mid) (mid ++ post) = mid.
Proof.
  induction mid as [|a mid IH]; simpl.
  - destruct post; reflexivity.
  - rewrite IH. reflexivity.
Qed.

Lemma substring_skip (pre text : string) (n : nat) :
  substring (String.length pre) n (pre ++ text) = substring 0 n text.
Proof.
  induction pre as [|a pre IH]; simpl; [reflexivity | exact IH].
Qed.

Lemma length_append (s1 s2 : string) :
  String.length (s1 ++ s2) = (String.length s1 + String.length s2)%nat.
Proof. induction s1 as [|a s1 IH]; simpl; [reflexivity | rewrite IH; reflexivity]. Qed.

Lemma append_assoc (s1 s2 s3 : string) : (s1 ++ s2) ++ s3 = s1 ++ (s2 ++ s3).
Proof. induction s1 as [|a s1 IH]; simpl; [reflexivity | rewrite IH; reflexivity]. Qed.

Lemma extract_json_span (env : Env) (pre mid post : string) :
  occurs "{"%char pre = false ->
  occurs "}"%char post = false ->
  _extract_json env (Some (pre ++ "{" ++ mid ++ "}" ++ post))
  = json_loads env ("{" ++ mid ++ "}").
Proof.
  intros Hpre Hpost. unfold _extract_json.
  change (pre ++ "{" ++ mid ++ "}" ++ post)
    with (pre ++ String "{"%char (mid ++ String "}"%char post)).
  rewrite (str_find_after "{"%char pre _ Hpre).
  replace (pre ++ String "{"%char (mid ++ String "}"%char post))
    with ((pre ++ String "{"%char mid) ++ String "}"%char post)
    by (rewrite append_assoc; reflexivity).
  rewrite (str_rfind_before "}"%char (pre ++ String "{"%char mid) post Hpost).
  rewrite length_append. cbn [String.length].
  destruct (Z.eqb_spec (Z.of_nat (String.length pre)) (-1)); [lia|].
  destruct (Z.eqb_spec (Z.of_nat (String.length pre + S (String.length mid))) (-1));
    [lia|].
  destruct (Z.leb_spec (Z.of_nat (String.length pre + S (String.length mid)))
                       (Z.of_nat (String.length pre))); [lia|].
  cbn [orb]. f_equal. unfold str_slice.
  rewrite Nat2Z.id.
  replace (Z.to_nat (Z.of_nat (String.length pre + S (String.length mid)) + 1
                     - Z.of_nat (String.length pre)))
    with (String.length (String "{"%char (mid ++ "}"))) 
    by (cbn [String.length]; rewrite length_append; simpl; lia).
  rewrite append_assoc. rewrite substring_skip.
  replace (String "{"%char mid ++ String "}"%char post)
    with ((String "{"%char (mid ++ "}")) ++ post)
    by (simpl; rewrite append_assoc; reflexivity).
  apply substring_prefix.
Qed.

(** X10.  Text around the object is ignored: when no opening brace
    comes before the object and no closing brace after it, exactly
    the span from the first opening brace to the last closing brace
    is handed to [json.loads], whose outcome is the result. *)
Theorem extract_json_strips_surroundings (env : Env) (pre mid post : string) :
  occurs "{"%char pre = false ->
  occurs "}"%char post = false ->
  _extract_json env (Some (pre ++ "{" ++ mid ++ "}" ++ post))
  = json_loads env ("{" ++ mid ++ "}").
Proof. apply extract_json_span. Qed.

Lemma str_find_app_fresh (c : ascii) (s1 s2 : string) :
  occurs c s1 = false ->
  str_find c (s1 ++ s2) = -1 \/ Z.of_nat (String.length s1) <= str_find c (s1 ++ s2).
Proof.
  induction s1 as [|a s1 IH]; intros H.
  - simpl. pose proof (str_find_lower c s2). lia.
  - simpl in H. destruct (Ascii.eqb a c) eqn:E; [discriminate|].
    cbn [append str_find String.length]. rewrite E.
    destruct (IH H) as [Hr|Hr];
      destruct (Z.eqb_spec (str_find c (s1 ++ s2)) (-1)); lia.
Qed.

Lemma str_rfind_app_fresh (c : ascii) (s1 s2 : string) :
  occurs c s2 = false ->
  str_rfind c (s1 ++ s2) < Z.of_nat (String.length s1).
Proof.
  intros H. induction s1 as [|a s1 IH].
  - simpl. rewrite (str_rfind_absent c s2 H). lia.
  - cbn [append str_rfind String.length].
    destruct (Z.eqb_spec (str_rfind c (s1 ++ s2)) (-1));
      [destruct (Ascii.eqb a c)|]; lia.
Qed.

(** X11.  No object, no parse: when every closing brace of the text
    comes before every opening brace (in particular when the text has
    no opening brace, or no closing brace, or is empty), the result
    is the [ValueError] "No JSON object found in response", and
    [json.loads] is not consulted. *)
Theorem extract_json_without_object (env : Env) (s1 s2 : string) :
  occurs "{"%char s1 = false ->
  occurs "}"%char s2 = false ->
  _extract_json env (Some (s1 ++ s2)) = Err V_no_json.
Proof.
  intros H1 H2. unfold _extract_json.
  pose proof (str_find_app_fresh "{"%char s1 s2 H1) as Hfind.
  pose proof (str_rfind_app_fresh "}"%char s1 s2 H2) as Hrfind.
  destruct (Z.eqb_spec (str_find "{"%char (s1 ++ s2)) (-1)); [reflexivity|].
  destruct (Z.eqb_spec (str_rfind "}"%char (s1 ++ s2)) (-1)); [reflexivity|].
  destruct (Z.leb_spec (str_rfind "}"%char (s1 ++ s2))
                       (str_find "{"%char (s1 ++ s2))); [reflexivity | lia].
Qed.
End ExtractMore.

(** ** Sniffing the image format *)

Module MimeMore.

Lemma bytes_eqb_eq (a b : bytes) : bytes_eqb a b = true <-> a = b.
Proof.
  revert b. induction a as [|x a IH]; intros [|y b]; simpl;
    try (split; [discriminate | discriminate]); [tauto|].
  rewrite andb_true_iff, IH. split.
  - intros [Hxy ->]. apply Byte.byte_dec_bl in Hxy. subst. reflexivity.
  - intros H. inversion H; subst. split; [apply Byte.byte_dec_lb|]; reflexivity.
Qed.

(** A slice from the start equals a signature exactly when the bytes
    begin with it. *)
Lemma starts_with (sig b : bytes) :
  bytes_eqb (bytes_slice 0 (List.length sig) b) sig = true <->
  exists rest, b = sig ++ rest.
Proof.
  unfold bytes_slice. rewrite Nat.sub_0_r. cbn [skipn]. rewrite bytes_eqb_eq.
  split.
  - intros H. exists (skipn (List.length sig) b).
    rewrite <- H at 1. symmetry. apply firstn_skipn.
  - intros [rest ->]. rewrite firstn_app, Nat.sub_diag, firstn_all.
    cbn [firstn]. apply app_nil_r.
Qed.

Lemma detect_png (b : bytes) :
  _detect_mime_type b = "image/png" <-> exists rest, b = PNG_SIGNATURE ++ rest.
Proof.
  rewrite <- (starts_with PNG_SIGNATURE b). unfold _detect_mime_type.
  change (List.length PNG_SIGNATURE) with 8%nat.
  change [x89; x50; x4e; x47; x0d; x0a; x1a; x0a] with PNG_SIGNATURE.
  destruct (bytes_eqb (bytes_slice 0 8 b) PNG_SIGNATURE); [tauto|].
  repeat match goal with
         | |- context [if ?c then _ else _] => destruct c
         end; split; discriminate.
Qed.

Ltac mime_cases :=
  repeat match goal with
         | |- context [if ?c then _ else _] => destruct c eqn:?
         end.

Lemma detect_gif (b : bytes) :
  _detect_mime_type b = "image/gif" <->
  exists rest, b = GIF87a ++ rest \/ b = GIF89a ++ rest.
Proof.
  split.
  - unfold _detect_mime_type.
    destruct (bytes_eqb (bytes_slice 0 8 b) _); [discriminate|].
    destruct (bytes_eqb (bytes_slice 0 2 b) _); [discriminate|].
    destruct (bytes_eqb (bytes_slice 0 6 b) [x47; x49; x46; x38; x37; x61]) eqn:E87.
    + intros _. apply (starts_with GIF87a b) in E87.
      destruct E87 as [rest ->]. exists rest. left. reflexivity.
    + destruct (bytes_eqb (bytes_slice 0 6 b) [x47; x49; x46; x38; x39; x61]) eqn:E89.
      * intros _. apply (starts_with GIF89a b) in E89.
        destruct E89 as [rest ->]. exists rest. right. reflexivity.
      * cbn [orb]. destruct (_ && _); discriminate.
  - intros [rest [-> | ->]]; reflexivity.
Qed.

Lemma detect_webp (b : bytes) :
  _detect_mime_type b = "image/webp" <->
  exists size rest, List.length size = 4%nat /\ b = RIFF ++ size ++ WEBP ++ rest.
Proof.
  split.
  - unfold _detect_mime_type.
    destruct (bytes_eqb (bytes_slice 0 8 b) _); [discriminate|].
    destruct (bytes_eqb (bytes_slice 0 2 b) _); [discriminate|].
    destruct (_ || _); [discriminate|].
    destruct (bytes_eqb (bytes_slice 0 4 b) [x52; x49; x46; x46]) eqn:Eriff;
      [|discriminate].
    destruct (bytes_eqb (bytes_slice 8 12 b) [x57; x45; x42; x50]) eqn:Ewebp;
      [|discriminate].
    intros _. apply bytes_eqb_eq in Eriff, Ewebp.
    unfold bytes_slice in *. cbn [Nat.sub skipn] in Eriff.
    change (12 - 8)%nat with 4%nat in Ewebp.
    assert (Hlen : (4 <= List.length (skipn 8 b))%nat).
    { assert (H4 : List.length (firstn 4 (skipn 8 b)) = 4%nat)
        by (rewrite Ewebp; reflexivity).
      rewrite length_firstn in H4. lia. }
    rewrite length_skipn in Hlen.
    exists (firstn 4 (skipn 4 b)), (skipn 12 b). split.
    + rewrite length_firstn, length_skipn. lia.
    + change RIFF with [x52; x49; x46; x46]. change WEBP with [x57; x45; x42; x50].
      rewrite <- Eriff, <- Ewebp.
      replace (skipn 12 b) with (skipn 4 (skipn 8 b))
        by (rewrite skipn_skipn; reflexivity).
      rewrite firstn_skipn.
      replace (skipn 8 b) with (skipn 4 (skipn 4 b))
        by (rewrite skipn_skipn; reflexivity).
      rewrite firstn_skipn. symmetry. apply firstn_skipn.
  - intros (size & rest & Hlen & ->).
    destruct size as [|s0 [|s1 [|s2 [|s3 [|s4 size]]]]]; try discriminate.
    reflexivity.
Qed.

Lemma detect_range (b : bytes) :
  _detect_mime_type b = "image/png" \/ _detect_mime_type b = "image/jpeg" \/
  _detect_mime_type b = "image/gif" \/ _detect_mime_type b = "image/webp".
Proof. unfold _detect_mime_type. mime_cases; tauto. Qed.

(** X12.  The classification is exact.  The result is [image/png]
    just when the bytes begin with the PNG signature, [image/gif]
    just when they begin with [GIF87a] or [GIF89a], [image/webp] just
    when they begin with [RIFF], four more bytes and [WEBP]; in every
    other case, the empty input and inputs shorter than any signature
    included, it is [image/jpeg]. *)
Theorem detect_mime_type_exact (b : bytes) :
  (_detect_mime_type b = "image/png" <-> exists rest, b = PNG_SIGNATURE ++ rest) /\
  (_detect_mime_type b = "image/gif" <->
     exists rest, b = GIF87a ++ rest \/ b = GIF89a ++ rest) /\
  (_detect_mime_type b = "image/webp" <->
     exists size rest,
       List.length size = 4%nat /\ b = RIFF ++ size ++ WEBP ++ rest) /\
  (_detect_mime_type b = "image/jpeg" <->
     ~ (exists rest, b = PNG_SIGNATURE ++ rest) /\
     ~ (exists rest, b = GIF87a ++ rest \/ b = GIF89a ++ rest) /\
     ~ (exists size rest,
           List.length size = 4%nat /\ b = RIFF ++ size ++ WEBP ++ rest)).
Proof.
  pose proof (detect_png b) as Hpng.
  pose proof (detect_gif b) as Hgif.
  pose proof (detect_webp b) as Hwebp.
  split; [exact Hpng|]. split; [exact Hgif|]. split; [exact Hwebp|].
  rewrite <- Hpng, <- Hgif, <- Hwebp.
  destruct (detect_range b) as [H|[H|[H|H]]]; rewrite H;
    split; try (intros; discriminate); try tauto;
    try (intros (N1 & N2 & N3); exfalso; (apply N1 || apply N2 || apply N3);
         reflexivity).
  repeat split; discriminate.
Qed.
End MimeMore.

(** ** The client and the cost of a request *)

Unset Implicit Arguments.

Module DispatchMore.

(** X13.  The client is created once: after a call that returned a
    client, every later call returns that same client and changes
    nothing, whatever the API key in the environment has become; the
    first call changed nothing but the client slot. *)
Theorem get_client_reuses (env : Env) (w w' : World) (c : string) :
  _get_client env w = (Ok c, w') ->
  w' = Build_World (_analysis_cache w) (Some c) (clock w) (trace w) (stdout w) /\
  forall env', _get_client env' w' = (Ok c, w').
Proof.
  unfold _get_client. intros H.
  destruct w as [cache client clk tr out]. cbn in *.
  destruct client as [c0|].
  - inversion H; subst. split; [reflexivity|]. intros env'. reflexivity.
  - destruct (GEMINI_API_KEY env) as [k|]; [|discriminate].
    destruct (str_nonempty k); [|discriminate].
    inversion H; subst. split; [reflexivity|]. intros env'. reflexivity.
Qed.

Lemma get_client_without_key (env : Env) (w : World) :
  _client w = None -> no_api_key env ->
  _get_client env w = (Err (Exn RuntimeError "GEMINI_API_KEY is not set"), w).
Proof.
  intros Hc [Hk|Hk]; unfold _get_client; rewrite Hc, Hk; reflexivity.
Qed.

Lemma check_max_bytes_pure (env : Env) (image_bytes : bytes) :
  exists r, forall w, check_max_bytes env image_bytes w = (r, w).
Proof.
  unfold check_max_bytes.
  destruct (MAX_IMAGE_BYTES env) as [s|]; [|eexists; reflexivity].
  destruct (str_nonempty s); [|eexists; reflexivity].
  unfold bind, lift.
  destruct (int_of_str env s) as [max_bytes|e]; [|eexists; reflexivity].
  destruct (_ >? _); eexists; reflexivity.
Qed.

(** X14.  Without an API key, and with no client created earlier, an
    analyze request that misses the cache and every chat request
    with a message list end as 502 [gemini_failed], after the two
    backoff sleeps and without any remote call. *)
Theorem missing_api_key_is_502 (env : Env) (payload : dict) (w : World) :
  _client w = None ->
  no_api_key env ->
  let failed :=
    (_error_response "gemini_failed" "Gemini request failed. Please retry." 502,
     print_line (Traceback (Exn RuntimeError "GEMINI_API_KEY is not set"))
       (print_line (ErrorLine (Exn RuntimeError "GEMINI_API_KEY is not set"))
          (Build_World (_analysis_cache w) (_client w)
             (clock w + initial_delay + initial_delay * 2)%Q
             (trace w ++ [EvSleep initial_delay; EvSleep (initial_delay * 2)%Q])
             (stdout w)))) in
  (forall image_bytes,
      truthy (dict_get payload "image_base64") = true ->
      b64decode env (dict_get payload "image_base64") = Ok image_bytes ->
      check_max_bytes env image_bytes w = (Ok tt, w) ->
      OrderedDict.lookup (sha256_hexdigest env image_bytes)
                         (LRUCache._cache (_analysis_cache w)) = None ->
      handle env (Build_Request "/analyze" "POST" (JObj payload)) w = failed) /\
  (forall messages,
      dict_get payload "messages" = JList messages ->
      handle env (Build_Request "/chat" "POST" (JObj payload)) w = failed).
Proof.
  intros Hc Hk. cbv zeta. split.
  - intros image_bytes Himg Hdec Hsize Hmiss.
    assert (Hfail : forall w0,
               _client w0 = None ->
               OrderedDict.lookup (sha256_hexdigest env image_bytes)
                 (LRUCache._cache (_analysis_cache w0)) = None ->
               _analyze env payload w0
               = (Err (Exn RuntimeError "GEMINI_API_KEY is not set"), w0)).
    { intros w0 Hc0 Hmiss0. unfold _analyze. rewrite Himg, Hdec. cbn [negb].
      destruct (check_max_bytes_pure env image_bytes) as [r Hr].
      assert (r = Ok tt) by (rewrite Hr in Hsize; congruence). subst r.
      unfold bind at 1. unfold lift at 1.
      unfold bind at 1. rewrite Hr.
      unfold bind at 1. unfold cache_get, LRUCache.get. rewrite Hmiss0.
      unfold _analyze_remote. unfold bind at 1.
      rewrite get_client_without_key by (cbn; assumption).
      destruct w0; reflexivity. }
    unfold handle, route. cbn -[_call_with_retry _analyze _error_response].
    unfold bind. unfold _call_with_retry.
    change (range (2 + 1)) with [0; 1; 2].
    cbn [retry_loop]. unfold try_except, bind, sleep, raise.
    rewrite Hfail by assumption. cbn [Z.eqb Pos.eqb].
    rewrite Hfail by (cbn; assumption). cbn [Z.eqb Pos.eqb].
    rewrite Hfail by (cbn; assumption). cbn.
    rewrite <- app_assoc. reflexivity.
  - intros messages Hmsgs.
    assert (Hfail : forall w0,
               _client w0 = None ->
               _chat env payload w0
               = (Err (Exn RuntimeError "GEMINI_API_KEY is not set"), w0)).
    { intros w0 Hc0. unfold _chat. rewrite Hmsgs. unfold bind at 1.
      rewrite get_client_without_key by assumption. reflexivity. }
    unfold handle, route. cbn -[_call_with_retry _chat _error_response].
    unfold bind. unfold _call_with_retry.
    change (range (2 + 1)) with [0; 1; 2].
    cbn [retry_loop]. unfold try_except, bind, sleep, raise.
    rewrite Hfail by assumption. cbn [Z.eqb Pos.eqb].
    rewrite Hfail by (cbn; assumption). cbn [Z.eqb Pos.eqb].
    rewrite Hfail by (cbn; assumption). cbn.
    rewrite <- app_assoc. reflexivity.
Qed.

Section Bounded.
Lemma bounded_quiet {A} (m : M A) :
  (forall w, trace (snd (m w)) = trace w) -> bounded 0 0 m.
Proof.
  intros H w. exists []. rewrite H, app_nil_r. repeat split; constructor.
Qed.

Lemma bounded_weaken {A} (g s g' s' : nat) (m : M A) :
  (g <= g')%nat -> (s <= s')%nat -> bounded g s m -> bounded g' s' m.
Proof.
  intros Hg Hs H w. destruct (H w) as (evs & He & Hg1 & Hs1).
  exists evs. repeat split; [exact He | lia | lia].
Qed.

Lemma count_app (evs1 evs2 : list event) :
  generate_count (evs1 ++ evs2) = (generate_count evs1 + generate_count evs2)%nat /\
  sleep_count (evs1 ++ evs2) = (sleep_count evs1 + sleep_count evs2)%nat.
Proof.
  unfold generate_count, sleep_count. rewrite !filter_app, !length_app.
  split; reflexivity.
Qed.

Lemma bounded_bind {A B} (g1 s1 g2 s2 : nat) (m : M A) (k : A -> M B) :
  bounded g1 s1 m -> (forall a, bounded g2 s2 (k a)) ->
  bounded (g1 + g2) (s1 + s2) (bind m k).
Proof.
  intros Hm Hk w. unfold bind.
  destruct (Hm w) as (evs1 & He1 & Hg1 & Hs1).
  destruct (m w) as [[a|e] w1]; cbn [snd] in *.
  - destruct (Hk a w1) as (evs2 & He2 & Hg2 & Hs2).
    exists (evs1 ++ evs2). rewrite He2, He1, <- app_assoc.
    destruct (count_app evs1 evs2) as [-> ->].
    repeat split; [lia | lia].
  - exists evs1. repeat split; [exact He1 | lia | lia].
Qed.

Lemma bounded_try_except {A} (g1 s1 g2 s2 : nat) (m : M A) (h : exn -> M A) :
  bounded g1 s1 m -> (forall e, bounded g2 s2 (h e)) ->
  bounded (g1 + g2) (s1 + s2) (try_except m h).
Proof.
  intros Hm Hh w. unfold try_except.
  destruct (Hm w) as (evs1 & He1 & Hg1 & Hs1).
  destruct (m w) as [[a|e] w1]; cbn [snd] in *.
  - exists evs1. repeat split; [exact He1 | lia | lia].
  - destruct (Hh e w1) as (evs2 & He2 & Hg2 & Hs2).
    exists (evs1 ++ evs2). rewrite He2, He1, <- app_assoc.
    destruct (count_app evs1 evs2) as [-> ->].
    repeat split; [lia | lia].
Qed.

Lemma bounded_ret {A} (a : A) : bounded 0 0 (ret a).
Proof. apply bounded_quiet. reflexivity. Qed.

Lemma bounded_raise {A} (e : exn) : bounded 0 0 (@raise A e).
Proof. apply bounded_quiet. reflexivity. Qed.

Lemma bounded_lift {A} (r : result A) : bounded 0 0 (lift r).
Proof. apply bounded_quiet. reflexivity. Qed.

Lemma bounded_print (l : line) : bounded 0 0 (print l).
Proof. apply bounded_quiet. reflexivity. Qed.

Lemma bounded_sleep (d : Q) : bounded 0 1 (sleep d).
Proof.
  intros w. exists [EvSleep d]. repeat split; constructor.
Qed.

Lemma bounded_cache_get (key : string) : bounded 0 0 (cache_get key).
Proof.
  apply bounded_quiet. intros w. unfold cache_get.
  destruct (LRUCache.get _ _ _). reflexivity.
Qed.

Lemma bounded_cache_set (key : string) (value : json) :
  bounded 0 0 (cache_set key value).
Proof.
  apply bounded_quiet. intros w. unfold cache_set.
  destruct (LRUCache.set _ _ _ _). reflexivity.
Qed.

Variable env : Env.

Lemma bounded_get_client : bounded 0 0 (_get_client env).
Proof.
  apply bounded_quiet. intros w. unfold _get_client.
  destruct (_client w); [reflexivity|].
  destruct (GEMINI_API_KEY env) as [k|]; [|reflexivity].
  destruct (str_nonempty k); reflexivity.
Qed.

Lemma bounded_generate model contents : bounded 1 0 (generate env model contents).
Proof.
  intros w. exists [EvGenerate model contents]. unfold generate.
  destruct (generate_content env (trace w) model contents).
  repeat split; constructor.
Qed.

Lemma bounded_analyze (payload : dict) : bounded 1 0 (_analyze env payload).
Proof.
  assert (Hremote : forall image_bytes image_hash,
             bounded 1 0 (_analyze_remote env payload image_bytes image_hash)).
  { intros image_bytes image_hash. unfold _analyze_remote.
    apply (bounded_bind 0 0 1 0); [apply bounded_get_client|]. intros _.
    apply (bounded_bind 1 0 0 0); [apply bounded_generate|]. intros response.
    apply (bounded_bind 0 0 0 0); [apply bounded_lift|]. intros data.
    apply (bounded_bind 0 0 0 0); [apply bounded_cache_set|]. intros _.
    apply bounded_ret. }
  unfold _analyze. destruct (negb _).
  { apply (bounded_weaken 0 0); [lia | lia | apply bounded_raise]. }
  apply (bounded_bind 0 0 1 0); [apply bounded_lift|]. intros image_bytes.
  apply (bounded_bind 0 0 1 0).
  { unfold check_max_bytes.
    destruct (MAX_IMAGE_BYTES env) as [s|]; [|apply bounded_ret].
    destruct (str_nonempty s); [|apply bounded_ret].
    apply (bounded_bind 0 0 0 0); [apply bounded_lift|]. intros max_bytes.
    destruct (_ >? _); [apply bounded_raise | apply bounded_ret]. }
  intros _.
  apply (bounded_bind 0 0 1 0); [apply bounded_cache_get|]. intros [v|].
  - destruct (truthy v); [|apply Hremote].
    apply (bounded_weaken 0 0); [lia | lia | apply bounded_ret].
  - apply Hremote.
Qed.

Lemma bounded_chat_messages (messages : list json) :
  forall i contents, bounded 0 0 (chat_messages env i messages contents).
Proof.
  induction messages as [|msg messages IH]; intros i contents.
  - apply bounded_ret.
  - cbn [chat_messages]. apply (bounded_bind 0 0 0 0); [|intros added; apply IH].
    apply bounded_quiet. intros w.
    destruct (TextlessProps.only_prints_chat_message env i msg w) as (_ & _ & _ & Ht).
    symmetry. exact Ht.
Qed.

Lemma bounded_chat (payload : dict) : bounded 1 0 (_chat env payload).
Proof.
  unfold _chat.
  destruct (dict_get payload "messages");
    try (apply (bounded_weaken 0 0); [lia | lia | apply bounded_raise]).
  apply (bounded_bind 0 0 1 0); [apply bounded_get_client|]. intros _.
  apply (bounded_bind 0 0 1 0); [apply bounded_print|]. intros _.
  apply (bounded_bind 0 0 1 0); [apply bounded_print|]. intros _.
  apply (bounded_bind 0 0 1 0); [apply bounded_lift|]. intros system_prompt.
  apply (bounded_bind 0 0 1 0); [apply bounded_chat_messages|]. intros contents.
  apply (bounded_bind 0 0 1 0); [apply bounded_print|]. intros _.
  apply (bounded_bind 1 0 0 0); [apply bounded_generate|]. intros response.
  apply bounded_lift.
Qed.

(** [len] attempts of an operation that makes at most [g] remote
    calls and no sleep. *)
Lemma bounded_retry_loop {A} (func : M A) (g m : nat) :
  bounded g 0 func ->
  forall (len a : nat) (delay : Q),
    (a + S len = S m)%nat ->
    bounded (S len * g) len
            (retry_loop func (Z.of_nat m) (map Z.of_nat (seq a (S len))) delay).
Proof.
  intros Hf. induction len as [|len IH]; intros a delay Ha.
  - cbn [seq map retry_loop].
    replace (Z.of_nat a =? Z.of_nat m) with true
      by (symmetry; apply Z.eqb_eq; lia).
    replace (1 * g)%nat with (g + 0)%nat by lia.
    apply (bounded_try_except g 0 0 0); [exact Hf|]. intros e. apply bounded_raise.
  - cbn [seq map retry_loop].
    replace (Z.of_nat a =? Z.of_nat m) with false
      by (symmetry; apply Z.eqb_neq; lia).
    replace (S (S len) * g)%nat with (g + (0 + S len * g))%nat by lia.
    apply (bounded_try_except g 0 _ (1 + len)); [exact Hf|]. intros e.
    apply bounded_bind; [apply bounded_sleep|]. intros _.
    apply IH. lia.
Qed.

Lemma bounded_call_with_retry {A} (func : M A) :
  bounded 1 0 func -> bounded 3 2 (_call_with_retry func 2).
Proof.
  intros Hf. unfold _call_with_retry.
  change (range (2 + 1)) with (map Z.of_nat (seq 0 3)).
  change 2 with (Z.of_nat 2).
  apply (bounded_retry_loop func 1 2 Hf 2 0 initial_delay). reflexivity.
Qed.
End Bounded.

(** X15.  The cost of a request is bounded: serving any request makes
    at most three remote calls and at most two backoff sleeps, and
    only appends to the history of calls and sleeps. *)
Theorem request_cost_bounded (env : Env) (request : Request) (w : World) :
  exists evs,
    trace (snd (handle env request w)) = trace w ++ evs /\
    (generate_count evs <= 3)%nat /\ (sleep_count evs <= 2)%nat.
Proof.
  assert (Hnone : exists evs : list event,
             trace w = trace w ++ evs /\
             (generate_count evs <= 3)%nat /\ (sleep_count evs <= 2)%nat).
  { exists []. rewrite app_nil_r. repeat split; unfold generate_count, sleep_count;
      simpl; lia. }
  unfold handle.
  destruct (negb _); [exact Hnone|].
  destruct (get_json request) as [ | | | | |payload]; try exact Hnone.
  assert (Hroute : bounded 3 2
            (route env (if str_nonempty (path request) then path request else "/")
                   payload)).
  { unfold route.
    destruct (String.eqb _ "/analyze").
    - apply (bounded_bind 3 2 0 0);
        [apply bounded_call_with_retry, bounded_analyze | intros; apply bounded_ret].
    - destruct (String.eqb _ "/chat").
      + apply (bounded_bind 3 2 0 0);
          [apply bounded_call_with_retry, bounded_chat | intros; apply bounded_ret].
      + apply (bounded_weaken 0 0); [lia | lia | apply bounded_ret]. }
  destruct (Hroute w) as (evs & He & Hg & Hs).
  destruct (route env _ payload w) as [[response|exc] w']; cbn [snd] in *.
  - exists evs. auto.
  - destruct (is_ValueError exc); cbn [snd print_line trace]; exists evs; auto.
Qed.

(** X16.  Every answer is JSON with one of five statuses: whatever
    the request, the status is 200, 400, 404, 405 or 502 (never the
    500 that [_error_response] defaults to) and the only header is
    the JSON content type. *)
Theorem response_status_and_headers (env : Env) (request : Request) (w : World) :
  In (status (fst (handle env request w))) statuses /\
  headers (fst (handle env request w)) = [("Content-Type", "application/json")].
Proof.
  unfold handle, statuses.
  destruct (negb _); [cbn; tauto|].
  destruct (get_json request) as [ | | | | |payload]; try (cbn; tauto).
  unfold route.
  destruct (String.eqb _ "/analyze").
  { unfold bind, ret.
    destruct (_call_with_retry _ 2 w) as [[data|exc] w']; [cbn; tauto|].
    destruct (is_ValueError exc); cbn; tauto. }
  destruct (String.eqb _ "/chat").
  { unfold bind, ret.
    destruct (_call_with_retry _ 2 w) as [[data|exc] w']; [cbn; tauto|].
    destruct (is_ValueError exc); cbn; tauto. }
  cbn. tauto.
Qed.
End DispatchMore.

(** ** Analyze requests that reach the remote collaborator *)

Module AnalyzeMore.

(** An operation that fails the same way at every attempt, recording
    one event, ends with that failure after all attempts, the events
    interleaved with the sleeps.  [P] holds before each attempt and
    [Q] after it. *)
Lemma call_with_retry_fails_tracing {A} (P Q : World -> Prop) (func : M A)
      (e : exn) (ev : event) :
  (forall w, P w ->
     exists w', func w = (Err e, w') /\ Q w' /\ trace w' = trace w ++ [ev]) ->
  (forall d w, Q w -> P (snd (sleep d w))) ->
  forall (n : nat) (w : World),
    P w ->
    exists w',
      _call_with_retry func (Z.of_nat n) w = (Err e, w') /\ Q w' /\
      trace w' = trace w ++ retry_trace ev (backoff_delays n initial_delay).
Proof.
  intros Hfunc Hsleep n w HP.
  assert (Hrounds : forall j delay w0,
             P w0 ->
             fails_for func j delay w0 /\
             exists w',
               func (failed_rounds func j delay w0) = (Err e, w') /\ Q w' /\
               trace w' = trace w0 ++ retry_trace ev (backoff_delays j delay)).
  { induction j as [|j IH]; intros delay w0 HP0.
    - split; [exact I|]. cbn [failed_rounds backoff_delays retry_trace].
      apply Hfunc. exact HP0.
    - destruct (Hfunc w0 HP0) as (w1 & Hf & HQ1 & Ht1).
      cbn [fails_for failed_rounds]. rewrite Hf. cbn [fst snd].
      destruct (IH (delay * 2)%Q (snd (sleep delay w1)) (Hsleep delay w1 HQ1))
        as (Hfail & w' & Hf' & HQ' & Ht').
      split; [split; [eexists; reflexivity | exact Hfail]|].
      exists w'. split; [exact Hf'|]. split; [exact HQ'|].
      rewrite Ht'. unfold sleep. cbn [snd trace]. rewrite Ht1.
      cbn [backoff_delays retry_trace]. rewrite <- !app_assoc. reflexivity. }
  destruct (Hrounds n initial_delay w HP) as (Hfail & w' & Hf & HQ' & Ht).
  rewrite (@RetryProps.call_with_retry_after_rounds _ func n n w)
    by (lia || assumption).
  replace (n - n)%nat with 0%nat by lia.
  rewrite RetryProps.retry_loop_last.
  exists w'. auto.
Qed.

Section Attempts.
Variable env : Env.
Variable payload : dict.
Variable image_bytes : bytes.
Hypothesis Himg : truthy (dict_get payload "image_base64") = true.
Hypothesis Hdec : b64decode env (dict_get payload "image_base64") = Ok image_bytes.
Hypothesis Hsize : forall w, check_max_bytes env image_bytes w = (Ok tt, w).

Lemma analyze_attempt_fails_with (e : exn) (w : World) :
  attempts_fail_with env e ->
  analyze_ready env image_bytes w ->
  exists w',
    _analyze env payload w = (Err e, w') /\ analyze_ready env image_bytes w' /\
    trace w' = trace w ++ [analyze_call env payload image_bytes].
Proof.
  intros Hbad [Hmiss Hclient]. unfold _analyze. rewrite Himg, Hdec. cbn [negb].
  unfold bind at 1. unfold lift at 1.
  unfold bind at 1. rewrite Hsize.
  unfold bind at 1. unfold cache_get, LRUCache.get. rewrite Hmiss.
  unfold _analyze_remote.
  assert (Hclient' : client_available env
            (Build_World (_analysis_cache w) (_client w) (clock w) (trace w)
                         (stdout w)))
    by (destruct Hclient as [H|H]; [left | right]; exact H).
  destruct (@TextlessProps.get_client_available env _ Hclient') as (c & Hget).
  unfold bind at 1. rewrite Hget.
  unfold bind at 1. unfold generate.
  cbn [trace _analysis_cache _client clock stdout].
  specialize (Hbad (trace w) (GEMINI_MODEL env)
                   [Build_Content "user"
                      [Part_from_bytes image_bytes (_detect_mime_type image_bytes);
                       Part_from_text (build_analyze_prompt env payload)]]).
  destruct (generate_content env (trace w) (GEMINI_MODEL env) _) as [[r|e'] lat];
    cbn [fst] in Hbad.
  - unfold bind at 1. unfold lift. rewrite Hbad.
    eexists. split; [reflexivity|]. split; [|reflexivity].
    split; [exact Hmiss | left; eexists; reflexivity].
  - subst e'. eexists. split; [reflexivity|]. split; [|reflexivity].
    split; [exact Hmiss | left; eexists; reflexivity].
Qed.

(** The request as a whole, when every attempt fails with [e]. *)
Lemma analyze_request_fails_with (e : exn) (w : World) :
  attempts_fail_with env e ->
  analyze_ready env image_bytes w ->
  fst (handle env (Build_Request "/analyze" "POST" (JObj payload)) w)
  = failure_response e /\
  trace (snd (handle env (Build_Request "/analyze" "POST" (JObj payload)) w))
  = trace w ++ retry_trace (analyze_call env payload image_bytes)
                           (backoff_delays 2 initial_delay).
Proof.
  intros Hbad Hready.
  destruct (call_with_retry_fails_tracing (analyze_ready env image_bytes)
              (analyze_ready env image_bytes) (_analyze env payload) e
              (analyze_call env payload image_bytes)) with (n := 2%nat) (w := w)
    as (w' & Hrun & _ & Ht).
  - intros w0 H0. apply analyze_attempt_fails_with; assumption.
  - intros d w0 H0. exact H0.
  - exact Hready.
  - unfold handle, route. cbn -[_call_with_retry _analyze _error_response].
    unfold bind. change (Z.of_nat 2) with 2 in Hrun. rewrite Hrun.
    unfold failure_response.
    destruct (is_ValueError e); cbn [fst snd print_line trace];
      (split; [reflexivity | exact Ht]).
Qed.
End Attempts.

(** X17.  A collaborator that raises at every call is called three
    times for an analyze request that misses the cache, with the 0.8
    and 1.6 second sleeps in between, and the request is answered by
    the class of the exception alone: 502 [gemini_failed], unless the
    exception is a [ValueError], which is answered 400 [bad_request]
    with the exception's text. *)
Theorem remote_error_classified (env : Env) (payload : dict)
        (image_bytes : bytes) (e : exn) (w : World) :
  truthy (dict_get payload "image_base64") = true ->
  b64decode env (dict_get payload "image_base64") = Ok image_bytes ->
  (forall w0, check_max_bytes env image_bytes w0 = (Ok tt, w0)) ->
  analyze_ready env image_bytes w ->
  (forall history model contents,
      fst (generate_content env history model contents) = Err e) ->
  let out := handle env (Build_Request "/analyze" "POST" (JObj payload)) w in
  trace (snd out)
  = trace w ++ [analyze_call env payload image_bytes; EvSleep initial_delay;
                analyze_call env payload image_bytes;
                EvSleep (initial_delay * 2)%Q;
                analyze_call env payload image_bytes] /\
  (is_ValueError e = false ->
     fst out
     = _error_response "gemini_failed" "Gemini request failed. Please retry." 502) /\
  (is_ValueError e = true ->
     fst out = _error_response "bad_request" (exn_str e) 400).
Proof.
  intros Himg Hdec Hsize Hready Hdown. cbv zeta.
  destruct (analyze_request_fails_with env payload image_bytes Himg Hdec Hsize e w)
    as [Hresp Htrace]; [|exact Hready|].
  { intros history model contents. rewrite Hdown. reflexivity. }
  split; [exact Htrace|].
  rewrite Hresp. unfold failure_response.
  split; intros ->; reflexivity.
Qed.

(** X18.  An answer whose [text] is missing or empty and whose
    candidates path leads to a part with no text makes
    [_extract_text] return [None]; the parse then fails on the
    missing [find], which is not a [ValueError]: when every attempt
    is answered so, the request is answered 502 [gemini_failed],
    after three remote calls. *)
Theorem none_text_is_502 (env : Env) (payload : dict)
        (image_bytes : bytes) (w : World) :
  truthy (dict_get payload "image_base64") = true ->
  b64decode env (dict_get payload "image_base64") = Ok image_bytes ->
  (forall w0, check_max_bytes env image_bytes w0 = (Ok tt, w0)) ->
  analyze_ready env image_bytes w ->
  (forall history model contents,
      exists response latency,
        generate_content env history model contents = (Ok response, latency) /\
        text_is_none response) ->
  let out := handle env (Build_Request "/analyze" "POST" (JObj payload)) w in
  (forall response, text_is_none response -> _extract_text response = None) /\
  fst out
  = _error_response "gemini_failed" "Gemini request failed. Please retry." 502 /\
  generate_count (trace (snd out)) = (generate_count (trace w) + 3)%nat.
Proof.
  intros Himg Hdec Hsize Hready Hnone. cbv zeta.
  assert (Htext : forall response,
             text_is_none response -> _extract_text response = None).
  { intros response [[Ht|Ht] Hc]; unfold _extract_text; rewrite Ht, Hc; reflexivity. }
  split; [exact Htext|].
  destruct (analyze_request_fails_with env payload image_bytes Himg Hdec Hsize
              (Exn AttributeError "'NoneType' object has no attribute 'find'") w)
    as [Hresp Htrace]; [|exact Hready|].
  { intros history model contents.
    destruct (Hnone history model contents) as (r & lat & Hg & Hr).
    rewrite Hg. cbn [fst]. rewrite (Htext r Hr). reflexivity. }
  split; [exact Hresp|].
  rewrite Htrace.
  destruct (DispatchMore.count_app (trace w)
              (retry_trace (analyze_call env payload image_bytes)
                           (backoff_delays 2 initial_delay))) as [-> _].
  reflexivity.
Qed.

(** X19.  An answer whose braces enclose something [json.loads]
    rejects is a client fault to the dispatcher: the decoder's error
    is a [ValueError], so after three remote calls the request is
    answered 400 [bad_request] with the decoder's message. *)
Theorem unparsable_answer_is_400 (env : Env) (payload : dict)
        (image_bytes : bytes) (pre mid post : string) (e : exn) (w : World) :
  truthy (dict_get payload "image_base64") = true ->
  b64decode env (dict_get payload "image_base64") = Ok image_bytes ->
  (forall w0, check_max_bytes env image_bytes w0 = (Ok tt, w0)) ->
  analyze_ready env image_bytes w ->
  occurs "{"%char pre = false ->
  occurs "}"%char post = false ->
  json_loads env ("{" ++ mid ++ "}")%string = Err e ->
  is_ValueError e = true ->
  (forall history model contents,
      exists response latency,
        generate_content env history model contents = (Ok response, latency) /\
        response_text response = Some (pre ++ "{" ++ mid ++ "}" ++ post)%string) ->
  let out := handle env (Build_Request "/analyze" "POST" (JObj payload)) w in
  fst out = _error_response "bad_request" (exn_str e) 400 /\
  generate_count (trace (snd out)) = (generate_count (trace w) + 3)%nat.
Proof.
  intros Himg Hdec Hsize Hready Hpre Hpost Hloads Hclass Hanswer. cbv zeta.
  destruct (analyze_request_fails_with env payload image_bytes Himg Hdec Hsize e w)
    as [Hresp Htrace]; [|exact Hready|].
  { intros history model contents.
    destruct (Hanswer history model contents) as (r & lat & Hg & Hr).
    rewrite Hg. cbn [fst]. unfold _extract_text. rewrite Hr.
    replace (str_nonempty (pre ++ "{" ++ mid ++ "}" ++ post)%string) with true
      by (destruct pre; reflexivity).
    rewrite (ExtractMore.extract_json_span env pre mid post Hpre Hpost).
    exact Hloads. }
  rewrite Hresp. unfold failure_response. rewrite Hclass.
  split; [reflexivity|].
  rewrite Htrace.
  destruct (DispatchMore.count_app (trace w)
              (retry_trace (analyze_call env payload image_bytes)
                           (backoff_delays 2 initial_delay))) as [-> _].
  reflexivity.
Qed.

(** What a successful analyze that missed the cache went through. *)
Lemma analyze_miss_success (env : Env) (payload : dict) (image_bytes : bytes)
      (data : json) (w w1 : World) :
  b64decode env (dict_get payload "image_base64") = Ok image_bytes ->
  OrderedDict.lookup (sha256_hexdigest env image_bytes)
                     (LRUCache._cache (_analysis_cache w)) = None ->
  _analyze env payload w = (Ok data, w1) ->
  truthy (dict_get payload "image_base64") = true /\
  (forall w0, check_max_bytes env image_bytes w0 = (Ok tt, w0)) /\
  exists c latency contents,
    w1 = Build_World (LRUCache.with_cache (_analysis_cache w) c) (_client w1)
                     (clock w + latency)%Q
                     (trace w ++ [EvGenerate (GEMINI_MODEL env) contents])
                     (stdout w) /\
    LRUCache.set (_analysis_cache w) (sha256_hexdigest env image_bytes) data
                 (clock w + latency)%Q
    = (Ok tt, LRUCache.with_cache (_analysis_cache w) c).
Proof.
  intros Hdec Hmiss Hrun. unfold _analyze in Hrun.
  destruct (truthy (dict_get payload "image_base64")) eqn:Himg;
    cbn [negb] in Hrun; [|discriminate].
  rewrite Hdec in Hrun.
  destruct (DispatchMore.check_max_bytes_pure env image_bytes) as [r Hr].
  unfold bind at 1 in Hrun. unfold lift at 1 in Hrun.
  unfold bind at 1 in Hrun. rewrite Hr in Hrun.
  destruct r as [[]|e]; [|discriminate].
  split; [reflexivity|]. split; [exact Hr|].
  unfold bind at 1 in Hrun. unfold cache_get, LRUCache.get in Hrun.
  rewrite Hmiss in Hrun. unfold _analyze_remote in Hrun.
  unfold bind at 1 in Hrun.
  destruct (_get_client env _) as [[c|e] w2] eqn:Hget; [|discriminate].
  destruct (DispatchMore.get_client_reuses env _ _ _ Hget) as [Hw2 _].
  cbn [_analysis_cache clock trace stdout] in Hw2. subst w2.
  unfold bind at 1 in Hrun. unfold generate in Hrun.
  cbn [_analysis_cache _client clock trace stdout] in Hrun.
  destruct (generate_content env (trace w) (GEMINI_MODEL env) _)
    as [[response|e] latency]; [|discriminate].
  unfold bind at 1 in Hrun. unfold lift in Hrun.
  destruct (_extract_json env (_extract_text response)) as [data'|e];
    [|discriminate].
  unfold bind in Hrun. unfold cache_set, ret in Hrun.
  cbn [_analysis_cache _client clock trace stdout] in Hrun.
  destruct (LRUCache.set (_analysis_cache w) _ data' (clock w + latency)%Q)
    as [[[]|e] cache'] eqn:Hset; [|discriminate].
  inversion Hrun; subst data' w1. clear Hrun.
  assert (Hshape : exists c, cache' = LRUCache.with_cache (_analysis_cache w) c).
  { unfold LRUCache.set in Hset.
    destruct (LRUCache.evict _ _) as [r d']. inversion Hset. eexists. reflexivity. }
  destruct Hshape as [c0 ->].
  exists c0, latency. eexists. split; [reflexivity | exact Hset].
Qed.

(** X20.  Round trip through the cache: after an analyze request that
    missed the cache and succeeded with a non-empty result, the result
    is stored under the image's fingerprint with the time of storing,
    and any request carrying the same image bytes that arrives within
    the TTL of that time and finds the cache as that attempt left it
    is answered 200 with the same result without any remote call or
    sleep, whatever its other fields (plant name, custom question,
    ...) are.  (Capacity positive, keys of the cache distinct.) *)
Theorem analyze_miss_then_hit (env : Env) (payload payload' : dict)
        (image_bytes : bytes) (data : json) (w w1 : World) :
  0 < LRUCache._max_size (_analysis_cache w) ->
  NoDup (LRUCache.keys (_analysis_cache w)) ->
  b64decode env (dict_get payload "image_base64") = Ok image_bytes ->
  OrderedDict.lookup (sha256_hexdigest env image_bytes)
                     (LRUCache._cache (_analysis_cache w)) = None ->
  _analyze env payload w = (Ok data, w1) ->
  truthy data = true ->
  truthy (dict_get payload' "image_base64") = true ->
  b64decode env (dict_get payload' "image_base64") = Ok image_bytes ->
  OrderedDict.lookup (sha256_hexdigest env image_bytes)
                     (LRUCache._cache (_analysis_cache w1)) = Some (data, clock w1) /\
  forall w2,
    _analysis_cache w2 = _analysis_cache w1 ->
    (clock w2 - clock w1
     <= inject_Z (LRUCache._ttl_seconds (_analysis_cache w)))%Q ->
    fst (handle env (Build_Request "/analyze" "POST" (JObj payload')) w2)
    = _json_response data 200 /\
    trace (snd (handle env (Build_Request "/analyze" "POST" (JObj payload')) w2))
    = trace w2.
Proof.
  intros Hmax Hnd Hdec Hmiss Hrun Hdata Himg' Hdec'.
  destruct (analyze_miss_success env payload image_bytes data w w1 Hdec Hmiss Hrun)
    as (_ & Hsize & c & latency & contents & Hw1 & Hset).
  destruct (@CacheProps.set_stores (_analysis_cache w)
              (sha256_hexdigest env image_bytes) data (clock w + latency)%Q
              Hmax Hnd) as (d & Hset' & _ & Hstored).
  rewrite Hset in Hset'. inversion Hset' as [Hc]. 
  assert (Hcache : LRUCache._cache (_analysis_cache w1) = d).
  { rewrite Hw1. cbn [_analysis_cache LRUCache.with_cache LRUCache._cache].
    unfold LRUCache.with_cache in Hc. inversion Hc. reflexivity. }
  assert (Hclock : clock w1 = (clock w + latency)%Q) by (rewrite Hw1; reflexivity).
  assert (Httl : LRUCache._ttl_seconds (_analysis_cache w1)
                 = LRUCache._ttl_seconds (_analysis_cache w))
    by (rewrite Hw1; reflexivity).
  split; [rewrite Hcache, Hclock; exact Hstored|].
  intros w2 Hsame Hfresh.
  destruct (@AnalyzeCacheProps.analyze_cache_hit env payload' image_bytes data
              (clock w1) w2 Himg' Hdec' (Hsize w2)) as (_ & Hhandle & Htrace).
  - rewrite Hsame, Hcache, Hclock. exact Hstored.
  - rewrite Hsame, Httl. exact Hfresh.
  - exact Hdata.
  - rewrite Hhandle. cbn [fst snd]. split; [reflexivity | exact Htrace].
Qed.

Lemma evict_error_empties (max_size : Z) (d : OrderedDict.t LRUCache.entry) (e : exn) :
  fst (LRUCache.evict max_size d) = Err e -> snd (LRUCache.evict max_size d) = [].
Proof.
  induction d as [|x d IH]; cbn [LRUCache.evict].
  - destruct (_ >? _); [reflexivity | discriminate].
  - destruct (_ >? _); [exact IH | discriminate].
Qed.

Lemma set_error_empties (self : LRUCache.t) key value now (e : exn) :
  fst (LRUCache.set self key value now) = Err e ->
  LRUCache._cache (snd (LRUCache.set self key value now)) = [].
Proof.
  unfold LRUCache.set. intros H.
  match goal with
  | |- context [LRUCache.evict ?m ?d] =>
      pose proof (evict_error_empties m d e) as Hev;
      destruct (LRUCache.evict m d) as [r d']
  end.
  cbn [fst snd LRUCache._cache LRUCache.with_cache] in *. auto.
Qed.

Lemma get_keys_incl (self : LRUCache.t) key now :
  incl (LRUCache.keys (snd (LRUCache.get self key now))) (LRUCache.keys self).
Proof.
  unfold LRUCache.get.
  destruct (OrderedDict.lookup key (LRUCache._cache self)) as [[v ts]|] eqn:E;
    [|apply incl_refl].
  destruct (LRUCache.Qgt_bool _ _); unfold LRUCache.keys;
    cbn [snd LRUCache._cache LRUCache.with_cache]; intros x Hx.
  - eapply CacheFacts.keys_remove_incl. exact Hx.
  - unfold OrderedDict.move_to_end in Hx. rewrite E in Hx.
    unfold OrderedDict.keys in Hx. rewrite map_app in Hx.
    apply in_app_or in Hx. destruct Hx as [Hx|[<-|[]]].
    + eapply CacheFacts.keys_remove_incl. exact Hx.
    + cbn [fst].
      destruct (in_dec string_dec key (OrderedDict.keys (LRUCache._cache self)))
        as [Hin|Hout]; [exact Hin|].
      apply CacheFacts.lookup_None_keys in Hout. congruence.
Qed.

Lemma get_client_error_keeps (env : Env) (w w' : World) (e : exn) :
  _get_client env w = (Err e, w') -> w' = w.
Proof.
  unfold _get_client. destruct (_client w); [discriminate|].
  destruct (GEMINI_API_KEY env) as [k|]; [|intros H; inversion H; reflexivity].
  destruct (str_nonempty k); [discriminate | intros H; inversion H; reflexivity].
Qed.

(** X21.  A failed attempt never adds to the cache: whatever makes
    [_analyze] raise, every key stored afterwards was stored before. *)
Theorem failed_analyze_adds_no_entry (env : Env) (payload : dict)
        (e : exn) (w w' : World) :
  _analyze env payload w = (Err e, w') ->
  incl (LRUCache.keys (_analysis_cache w')) (LRUCache.keys (_analysis_cache w)).
Proof.
  intros Hrun. unfold _analyze in Hrun.
  destruct (negb _); [inversion Hrun; apply incl_refl|].
  unfold bind at 1 in Hrun. unfold lift at 1 in Hrun.
  destruct (b64decode env _) as [image_bytes|e0]; [|inversion Hrun; apply incl_refl].
  destruct (DispatchMore.check_max_bytes_pure env image_bytes) as [r Hr].
  unfold bind at 1 in Hrun. rewrite Hr in Hrun.
  destruct r as [[]|e0]; [|inversion Hrun; apply incl_refl].
  unfold bind at 1 in Hrun. unfold cache_get in Hrun.
  pose proof (get_keys_incl (_analysis_cache w)
                (sha256_hexdigest env image_bytes) (clock w)) as Hget.
  destruct (LRUCache.get (_analysis_cache w) _ (clock w)) as [cached c1].
  cbn [snd] in Hget.
  assert (Hremote : forall w0 e0 w0',
             _analyze_remote env payload image_bytes
               (sha256_hexdigest env image_bytes) w0 = (Err e0, w0') ->
             incl (LRUCache.keys (_analysis_cache w0'))
                  (LRUCache.keys (_analysis_cache w0))).
  { clear. intros w0 e0 w0' H. unfold _analyze_remote in H.
    unfold bind at 1 in H.
    destruct (_get_client env w0) as [[c|e1] w2] eqn:Hgc;
      [|inversion H; subst; rewrite (get_client_error_keeps env _ _ _ Hgc);
        apply incl_refl].
    destruct (DispatchMore.get_client_reuses env _ _ _ Hgc) as [Hw2 _]. subst w2.
    unfold bind at 1 in H. unfold generate in H.
    cbn [_analysis_cache _client clock trace stdout] in H.
    destruct (generate_content env (trace w0) (GEMINI_MODEL env) _)
      as [[response|e1] latency]; [|inversion H; apply incl_refl].
    unfold bind at 1 in H. unfold lift in H.
    destruct (_extract_json env (_extract_text response)) as [data|e1];
      [|inversion H; apply incl_refl].
    unfold bind, cache_set, ret in H.
    cbn [_analysis_cache _client clock trace stdout] in H.
    pose proof (set_error_empties (_analysis_cache w0)
                  (sha256_hexdigest env image_bytes) data
                  (clock w0 + latency)%Q) as Hempty.
    destruct (LRUCache.set (_analysis_cache w0) _ data (clock w0 + latency)%Q)
      as [[[]|e1] c2]; [discriminate|].
    inversion H; subst. cbn [_analysis_cache].
    unfold LRUCache.keys. cbn [fst snd] in Hempty.
    rewrite (Hempty e0 eq_refl). intros x []. }
  destruct cached as [v|].
  - destruct (truthy v); [discriminate|].
    apply Hremote in Hrun. cbn [_analysis_cache] in Hrun.
    eapply incl_tran; eassumption.
  - apply Hremote in Hrun. cbn [_analysis_cache] in Hrun.
    eapply incl_tran; eassumption.
Qed.

(** An attempt up to the store, when the answer parses. *)
Lemma analyze_attempt_reaches_store (env : Env) (payload : dict)
      (image_bytes : bytes) (w : World) :
  truthy (dict_get payload "image_base64") = true ->
  b64decode env (dict_get payload "image_base64") = Ok image_bytes ->
  (forall w0, check_max_bytes env image_bytes w0 = (Ok tt, w0)) ->
  always_answers_json env ->
  analyze_ready env image_bytes w ->
  exists c latency data,
    _analyze env payload w
    = bind (cache_set (sha256_hexdigest env image_bytes) data)
           (fun _ => ret data)
           (Build_World (_analysis_cache w) (Some c) (clock w + latency)%Q
                        (trace w ++ [analyze_call env payload image_bytes])
                        (stdout w)).
Proof.
  intros Himg Hdec Hsize Hjson [Hmiss Hclient].
  unfold _analyze. rewrite Himg, Hdec. cbn [negb].
  unfold bind at 1. unfold lift at 1.
  unfold bind at 1. rewrite Hsize.
  unfold bind at 1. unfold cache_get, LRUCache.get. rewrite Hmiss.
  unfold _analyze_remote.
  assert (Hclient' : client_available env
            (Build_World (_analysis_cache w) (_client w) (clock w) (trace w)
                         (stdout w)))
    by (destruct Hclient as [H|H]; [left | right]; exact H).
  destruct (@TextlessProps.get_client_available env _ Hclient') as (c & Hget).
  unfold bind at 1. rewrite Hget.
  unfold bind at 1. unfold generate.
  cbn [trace _analysis_cache _client clock stdout].
  destruct (Hjson (trace w) (GEMINI_MODEL env)
              [Build_Content "user"
                 [Part_from_bytes image_bytes (_detect_mime_type image_bytes);
                  Part_from_text (build_analyze_prompt env payload)]])
    as (response & latency & data & Hg & Hparse).
  rewrite Hg. unfold bind at 1. unfold lift. rewrite Hparse.
  exists c, latency, data. reflexivity.
Qed.

(** X22.  The cache can be configured away.  With capacity 0 an
    analysis succeeds and nothing is stored, so no request is ever
    answered from the cache.  With a negative capacity the store
    itself raises [KeyError] after the answer was parsed: the request
    is answered 502 [gemini_failed], having called the remote
    collaborator three times. *)
Theorem analyze_without_capacity (env : Env) (payload : dict)
        (image_bytes : bytes) (w : World) :
  truthy (dict_get payload "image_base64") = true ->
  b64decode env (dict_get payload "image_base64") = Ok image_bytes ->
  (forall w0, check_max_bytes env image_bytes w0 = (Ok tt, w0)) ->
  always_answers_json env ->
  analyze_ready env image_bytes w ->
  let out := handle env (Build_Request "/analyze" "POST" (JObj payload)) w in
  (LRUCache._max_size (_analysis_cache w) = 0 ->
     status (fst out) = 200 /\
     LRUCache._cache (_analysis_cache (snd out)) = [] /\
     generate_count (trace (snd out)) = (generate_count (trace w) + 1)%nat) /\
  (LRUCache._max_size (_analysis_cache w) < 0 ->
     fst out
     = _error_response "gemini_failed" "Gemini request failed. Please retry." 502 /\
     LRUCache._cache (_analysis_cache (snd out)) = [] /\
     generate_count (trace (snd out)) = (generate_count (trace w) + 3)%nat).
Proof.
  intros Himg Hdec Hsize Hjson Hready. cbv zeta. split.
  - intros H0.
    destruct (analyze_attempt_reaches_store env payload image_bytes w
                Himg Hdec Hsize Hjson Hready) as (c & latency & data & Hrun).
    unfold bind, cache_set, ret in Hrun.
    cbn [_analysis_cache _client clock trace stdout] in Hrun.
    unfold LRUCache.set in Hrun.
    rewrite H0, CacheFacts.evict_lastn in Hrun by lia.
    unfold handle, route. cbn -[_call_with_retry _analyze _json_response].
    unfold bind, ret. unfold _call_with_retry.
    change (range (2 + 1)) with [0; 1; 2].
    cbn [retry_loop]. unfold try_except. rewrite Hrun.
    cbn [fst snd status _json_response _analysis_cache trace
         LRUCache._cache LRUCache.with_cache].
    split; [reflexivity|]. split.
    + unfold lastn. change (Z.to_nat 0) with 0%nat.
      rewrite Nat.sub_0_r. apply skipn_all.
    + destruct (DispatchMore.count_app (trace w)
                  [analyze_call env payload image_bytes]) as [-> _].
      reflexivity.
  - intros Hneg.
    destruct (call_with_retry_fails_tracing
                (fun w0 => LRUCache._max_size (_analysis_cache w0) < 0 /\
                           analyze_ready env image_bytes w0)
                (fun w0 => LRUCache._max_size (_analysis_cache w0) < 0 /\
                           analyze_ready env image_bytes w0 /\
                           LRUCache._cache (_analysis_cache w0) = [])
                (_analyze env payload)
                (Exn KeyError "dictionary is empty")
                (analyze_call env payload image_bytes)) with (n := 2%nat) (w := w)
      as (w' & Hrun & (_ & _ & Hcache) & Ht).
    + intros w0 (Hneg0 & Hready0).
      destruct (analyze_attempt_reaches_store env payload image_bytes w0
                  Himg Hdec Hsize Hjson Hready0) as (c & latency & data & Hrun).
      unfold bind, cache_set, ret in Hrun.
      cbn [_analysis_cache _client clock trace stdout] in Hrun.
      unfold LRUCache.set in Hrun.
      rewrite CacheMore.evict_negative in Hrun by exact Hneg0.
      eexists. split; [exact Hrun|].
      cbn [_analysis_cache trace LRUCache._cache LRUCache.with_cache
           LRUCache._max_size].
      split; [|reflexivity].
      split; [exact Hneg0|]. split; [|reflexivity].
      split; [reflexivity | left; eexists; reflexivity].
    + intros d w0 (H0 & H1 & _). split; [exact H0 | exact H1].
    + split; [exact Hneg | exact Hready].
    + unfold handle, route. cbn -[_call_with_retry _analyze _error_response].
      unfold bind. change (Z.of_nat 2) with 2 in Hrun. rewrite Hrun.
      cbn [is_ValueError exn_class_of fst snd print_line _analysis_cache trace].
      split; [reflexivity|]. split; [exact Hcache|].
      rewrite Ht.
      destruct (DispatchMore.count_app (trace w)
                  (retry_trace (analyze_call env payload image_bytes)
                               (backoff_delays 2 initial_delay))) as [-> _].
      reflexivity.
Qed.
End AnalyzeMore.

(** ** Chat conversations *)

Module ChatMore.

Lemma chat_message_error_class (env : Env) (i : nat) (msg : json) (w w' : World)
      (e : exn) :
  chat_message env i msg w = (Err e, w') ->
  exn_class_of e = AttributeError /\ w' = w.
Proof.
  unfold chat_message. unfold bind at 1. unfold lift at 1.
  destruct (py_get msg "role" (JStr "user")) as [r|e0] eqn:Hr.
  2:{ destruct msg; inversion Hr; subst; intros H; inversion H; subst;
      split; reflexivity. }
  destruct (py_lower env r) as [role|e0] eqn:Hl.
  2:{ destruct r; inversion Hl; subst; intros H; inversion H; subst;
      split; reflexivity. }
  unfold bind at 1. unfold lift at 1.
  destruct (py_get msg "content" (JStr "")) as [c|e0] eqn:Hc.
  2:{ destruct msg; inversion Hc; subst; intros H; inversion H; subst;
      split; reflexivity. }
  destruct (py_strip env c) as [content|e0] eqn:Hs.
  2:{ destruct c; inversion Hs; subst; intros H; inversion H; subst;
      split; reflexivity. }
  unfold bind at 1. unfold lift at 1.
  destruct (py_get msg "image_base64" JNull) as [img|e0] eqn:Hi.
  2:{ destruct msg; inversion Hi; subst; intros H; inversion H; subst;
      split; reflexivity. }
  unfold bind at 1. unfold print at 1.
  unfold bind at 1.
  assert (Himg : exists ps w1,
             chat_image_parts env i img
               (print_line (DebugMessage i
                  (if String.eqb role "assistant" then "model" else role)
                  (str_nonempty content) (truthy img)) w) = (Ok ps, w1)).
  { unfold chat_image_parts. destruct (truthy img); [|eexists; eexists; reflexivity].
    unfold try_except, bind, lift, print, ret.
    destruct (b64decode env img); eexists; eexists; reflexivity. }
  destruct Himg as (ps & w1 & ->).
  destruct (ps ++ _); [discriminate|].
  unfold bind, print, ret. discriminate.
Qed.

Lemma malformed_message_fails (env : Env) (i : nat) (msg : json) (w : World) :
  malformed_message msg ->
  exists e, chat_message env i msg w = (Err e, w).
Proof.
  intros [Hobj | [(d & -> & Hrole) | (d & -> & Hcontent)]]; unfold chat_message.
  - destruct msg; try (eexists; reflexivity). exfalso. eapply Hobj. reflexivity.
  - cbn [py_get]. unfold bind at 1. unfold lift at 1.
    destruct (dict_get_default d "role" (JStr "user")) eqn:E;
      try (eexists; reflexivity).
    exfalso. eapply Hrole. reflexivity.
  - cbn [py_get]. unfold bind at 1. unfold lift at 1.
    destruct (py_lower env _) as [role|e0]; [|eexists; reflexivity].
    unfold bind at 1. unfold lift at 1.
    destruct (dict_get_default d "content" (JStr "")) eqn:E;
      try (eexists; reflexivity).
    exfalso. eapply Hcontent. reflexivity.
Qed.

(** The loop over a list with a malformed message raises an
    [AttributeError], having done nothing but print. *)
Lemma chat_messages_malformed (env : Env) (messages : list json) :
  Exists malformed_message messages ->
  forall i contents w,
  exists e w',
    chat_messages env i messages contents w = (Err e, w') /\
    exn_class_of e = AttributeError /\ same_but_stdout w w'.
Proof.
  induction 1 as [msg messages Hbad | msg messages _ IH]; intros i contents w.
  - destruct (malformed_message_fails env i msg w Hbad) as [e He].
    destruct (chat_message_error_class env i msg w w e He) as [Hclass _].
    exists e, w. cbn [chat_messages]. unfold bind. rewrite He.
    repeat split; assumption.
  - cbn [chat_messages]. unfold bind.
    pose proof (TextlessProps.only_prints_chat_message env i msg w) as Hquiet.
    destruct (chat_message env i msg w) as [[added|e] w1] eqn:Hmsg; cbn [snd] in Hquiet.
    + destruct (IH (S i) (contents ++ added) w1) as (e & w' & Hrun & Hclass & Hsame).
      exists e, w'. split; [exact Hrun|]. split; [exact Hclass|].
      eapply TextlessProps.same_but_stdout_trans; eassumption.
    + destruct (chat_message_error_class env i msg w w1 e Hmsg) as [Hclass ->].
      exists e, w. repeat split; assumption.
Qed.

(** A chat operation whose every attempt fails, with an exception
    that is not a [ValueError], before the remote call. *)
Lemma chat_quiet_failure_is_502 (env : Env) (payload : dict) (w : World) :
  (forall w0,
      client_available env w0 ->
      exists e w',
        _chat env payload w0 = (Err e, w') /\ is_ValueError e = false /\
        client_available env w' /\ trace w' = trace w0) ->
  client_available env w ->
  let out := handle env (Build_Request "/chat" "POST" (JObj payload)) w in
  fst out
  = _error_response "gemini_failed" "Gemini request failed. Please retry." 502 /\
  trace (snd out) = trace w ++ [EvSleep initial_delay; EvSleep (initial_delay * 2)%Q].
Proof.
  intros Hattempt Hclient. cbv zeta.
  unfold handle, route. cbn -[_call_with_retry _chat _error_response].
  unfold bind. unfold _call_with_retry.
  change (range (2 + 1)) with [0; 1; 2].
  cbn [retry_loop]. unfold try_except, bind, sleep, raise.
  destruct (Hattempt w Hclient) as (e1 & w1 & -> & Hc1 & Ha1 & Ht1).
  cbn [Z.eqb].
  match goal with
  | |- context [_chat env payload ?w0] =>
      destruct (Hattempt w0) as (e2 & w2 & -> & Hc2 & Ha2 & Ht2);
        [destruct Ha1 as [H|H]; [left | right]; exact H|]
  end.
  cbn [Z.eqb Pos.eqb].
  match goal with
  | |- context [_chat env payload ?w0] =>
      destruct (Hattempt w0) as (e3 & w3 & -> & Hc3 & Ha3 & Ht3);
        [destruct Ha2 as [H|H]; [left | right]; exact H|]
  end.
  cbn [Z.eqb Pos.eqb]. rewrite Hc3.
  cbn [fst snd print_line trace] in *.
  split; [reflexivity|].
  rewrite Ht3, Ht2, Ht1, <- app_assoc. reflexivity.
Qed.

(** What a chat attempt does before the message loop, when a client
    can be had and the prompt builds. *)
Lemma chat_attempt_prefix (env : Env) (payload : dict) (messages : list json)
      (w : World) :
  dict_get payload "messages" = JList messages ->
  client_available env w ->
  exists c,
    _chat env payload w
    = bind (lift (build_chat_prompt env []
                    (if truthy (dict_get payload "plant_context")
                     then dict_get payload "plant_context" else JObj [])))
           (fun system_prompt =>
              bind (chat_messages env 0 messages
                      match messages with
                      | [] => []
                      | _ :: _ =>
                          [Build_Content "user" [Part_from_text system_prompt];
                           Build_Content "model" [Part_from_text understood]]
                      end)
                   (fun contents =>
                      bind (print (DebugTotal (List.length contents)))
                           (fun _ =>
                              bind (generate env (GEMINI_MODEL env) contents)
                                   (fun response =>
                                      lift (_extract_json env
                                              (_extract_text response))))))
           (print_line
              (DebugPlantContext
                 (if truthy (dict_get payload "plant_context")
                  then dict_get payload "plant_context" else JObj []))
              (print_line (DebugReceived (List.length messages))
                 (Build_World (_analysis_cache w) (Some c) (clock w) (trace w)
                              (stdout w)))).
Proof.
  intros Hmsgs Hclient. unfold _chat. rewrite Hmsgs.
  destruct (@TextlessProps.get_client_available env w Hclient) as (c & Hget).
  exists c. unfold bind at 1. rewrite Hget. reflexivity.
Qed.

(** X23.  One unreadable message fails the whole chat request: when a
    message is not an object, or its [role] or [content] is not a
    string, the request (with a client and the chat prompt at hand)
    is answered 502 [gemini_failed] after the two backoff sleeps, and
    the remote collaborator is never called. *)
Theorem malformed_message_is_502 (env : Env) (payload : dict)
        (messages : list json) (system_prompt : string) (w : World) :
  dict_get payload "messages" = JList messages ->
  Exists malformed_message messages ->
  build_chat_prompt env []
    (if truthy (dict_get payload "plant_context")
     then dict_get payload "plant_context" else JObj [])
  = Ok system_prompt ->
  client_available env w ->
  let out := handle env (Build_Request "/chat" "POST" (JObj payload)) w in
  fst out
  = _error_response "gemini_failed" "Gemini request failed. Please retry." 502 /\
  trace (snd out) = trace w ++ [EvSleep initial_delay; EvSleep (initial_delay * 2)%Q].
Proof.
  intros Hmsgs Hbad Hprompt Hclient.
  apply chat_quiet_failure_is_502; [|exact Hclient].
  intros w0 Hc0.
  destruct (chat_attempt_prefix env payload messages w0 Hmsgs Hc0) as (c & ->).
  rewrite Hprompt. unfold bind at 1. unfold lift at 1. unfold bind at 1.
  match goal with
  | |- context [chat_messages env 0 messages ?c0 ?w1] =>
      destruct (chat_messages_malformed env messages Hbad 0%nat c0 w1)
        as (e & w' & Hrun & Hclass & Hsame)
  end.
  rewrite Hrun. exists e, w'. split; [reflexivity|].
  split; [unfold is_ValueError; rewrite Hclass; reflexivity|].
  destruct Hsame as (_ & Hk & _ & Ht). cbn [print_line _client trace] in Hk, Ht.
  split; [left; exists c; symmetry; exact Hk | symmetry; exact Ht].
Qed.

Lemma chat_message_turns (env : Env) (i : nat) (msg : json) (w w' : World)
      (added : list Content) :
  chat_message env i msg w = (Ok added, w') ->
  Forall proper_turn added /\ (List.length added <= 1)%nat.
Proof.
  unfold chat_message. unfold bind at 1. unfold lift at 1.
  destruct (match py_get msg "role" (JStr "user") with
            | Ok v => py_lower env v
            | Err e => Err e
            end) as [rl|e0]; [|discriminate].
  unfold bind at 1. unfold lift at 1.
  destruct (match py_get msg "content" (JStr "") with
            | Ok v => py_strip env v
            | Err e => Err e
            end) as [content|e0]; [|discriminate].
  unfold bind at 1. unfold lift at 1.
  destruct (py_get msg "image_base64" JNull) as [img|e0]; [|discriminate].
  unfold bind at 1. unfold print at 1.
  unfold bind at 1.
  destruct (chat_image_parts env i img _) as [[ps|e0] w1]; [|discriminate].
  destruct (ps ++ _) as [|p ps'] eqn:Hparts.
  - unfold ret. intros H. inversion H; subst. split; [constructor | simpl; lia].
  - unfold bind, print, ret. intros H. inversion H; subst.
    split; [|simpl; lia].
    constructor; [|constructor]. split; cbn [role parts]; [|discriminate].
    destruct (String.eqb_spec rl "assistant"); [discriminate | assumption].
Qed.

Lemma chat_messages_turns (env : Env) (messages : list json) :
  forall i contents w w' assembled,
    chat_messages env i messages contents w = (Ok assembled, w') ->
    Forall proper_turn contents ->
    Forall proper_turn assembled /\
    (List.length assembled <= List.length contents + List.length messages)%nat.
Proof.
  induction messages as [|msg messages IH]; intros i contents w w' assembled Hrun Hc.
  - inversion Hrun; subst. split; [exact Hc | simpl; lia].
  - cbn [chat_messages] in Hrun. unfold bind in Hrun.
    destruct (chat_message env i msg w) as [[added|e] w1] eqn:Hmsg; [|discriminate].
    destruct (chat_message_turns env i msg w w1 added Hmsg) as [Hadded Hlen].
    destruct (IH (S i) (contents ++ added) w1 w' assembled Hrun) as [Hall Hn].
    + apply Forall_app. split; assumption.
    + split; [exact Hall|]. rewrite length_app in Hn. simpl List.length. lia.
Qed.

(** X24.  What a chat attempt sends: it makes no remote call, or
    exactly one, whose conversation has only turns with parts and
    with a role other than [assistant], at most one per message after
    the two system turns; for an empty message list the conversation
    sent is empty, system turns included. *)
Theorem chat_sends_proper_turns (env : Env) (payload : dict) (w : World) :
  trace (snd (_chat env payload w)) = trace w \/
  exists messages contents,
    dict_get payload "messages" = JList messages /\
    trace (snd (_chat env payload w))
    = trace w ++ [EvGenerate (GEMINI_MODEL env) contents] /\
    Forall proper_turn contents /\
    (List.length contents <= 2 + List.length messages)%nat /\
    (messages = [] -> contents = []).
Proof.
  destruct (_chat env payload w) as [res w'] eqn:Hchat. cbn [snd].
  unfold _chat in Hchat.
  destruct (dict_get payload "messages") as [ | | | |messages| ] eqn:Hmsgs;
    try (left; inversion Hchat; reflexivity).
  unfold bind at 1 in Hchat.
  destruct (_get_client env w) as [[c|e] w1] eqn:Hget.
  2:{ left. rewrite (AnalyzeMore.get_client_error_keeps env w w1 e Hget) in Hchat.
      inversion Hchat. reflexivity. }
  destruct (DispatchMore.get_client_reuses env w w1 c Hget) as [-> _].
  unfold bind at 1 in Hchat. unfold print at 1 in Hchat.
  unfold bind at 1 in Hchat. unfold print at 1 in Hchat.
  unfold bind at 1 in Hchat. unfold lift at 1 in Hchat.
  destruct (build_chat_prompt env [] _) as [system_prompt|e];
    [|left; inversion Hchat; reflexivity].
  unfold bind at 1 in Hchat.
  match type of Hchat with
  | context [chat_messages env 0 messages ?c0 ?w0] =>
      pose proof (TextlessProps.only_prints_chat_messages env messages 0%nat c0 w0)
        as Hquiet;
      pose proof (fun w' a => chat_messages_turns env messages 0%nat c0 w0 w' a)
        as Hturns;
      assert (Hc0 : Forall proper_turn c0 /\ (List.length c0 <= 2)%nat /\
                    (messages = [] -> c0 = []));
      [|destruct (chat_messages env 0 messages c0 w0) as [[assembled|e] w2] eqn:Hrun]
  end.
  { destruct messages.
    - repeat split; [constructor | simpl; lia].
    - split; [|split; [simpl; lia | discriminate]].
      repeat constructor; cbn [role parts]; discriminate. }
  2:{ left. destruct Hquiet as (_ & _ & _ & Ht). cbn [snd print_line trace] in Ht.
      inversion Hchat; subst. symmetry. exact Ht. }
  right. exists messages, assembled.
  unfold bind at 1 in Hchat. unfold print at 1 in Hchat.
  unfold bind, generate, lift in Hchat.
  destruct Hquiet as (_ & _ & _ & Ht). cbn [snd print_line trace] in Ht.
  cbn [print_line trace] in Hchat. rewrite <- Ht in Hchat.
  destruct (generate_content env (trace w) (GEMINI_MODEL env) assembled)
    as [r latency].
  destruct Hc0 as (Hall0 & Hlen0 & Hempty0).
  destruct (Hturns w2 assembled eq_refl Hall0) as [Hall Hlen].
  split; [reflexivity|]. split.
  { destruct r as [response|e]; [destruct (_extract_json _ _)|];
      inversion Hchat; reflexivity. }
  split; [exact Hall|]. split; [lia|].
  intros ->. cbn [chat_messages ret] in Hrun.
  inversion Hrun. reflexivity.
Qed.
End ChatMore.

Module PromptsMore.

(** X25.  The analyze prompt is a function of six context keys only:
    setting any other key of the payload, the image itself included,
    to any value leaves the prompt unchanged. *)
Theorem analyze_prompt_reads_six_keys (str_of : json -> string) (payload : dict)
        (key : string) (v : json) :
  ~ In key analyze_prompt_keys ->
  Prompts.build_analyze_prompt str_of (dict_set payload key v)
  = Prompts.build_analyze_prompt str_of payload.
Proof.
  intros Hkey. unfold Prompts.build_analyze_prompt.
  assert (Hget : forall k, In k analyze_prompt_keys ->
                           dict_get (dict_set payload key v) k = dict_get payload k).
  { intros k Hk. apply ChatImageProps.dict_get_set_other.
    intros ->. exact (Hkey Hk). }
  rewrite !Hget by (unfold analyze_prompt_keys; simpl; tauto).
  reflexivity.
Qed.

(** X26.  A context field that is missing or falsy (null, empty string,
    zero, ...) cannot be told from the literal string Unknown: writing
    [Unknown] for it gives the same analyze prompt, the naming note for
    an unnamed plant included. *)
Theorem analyze_missing_field_is_unknown (str_of : json -> string) (payload : dict)
        (key : string) :
  In key analyze_defaulted_keys ->
  truthy (dict_get payload key) = false ->
  Prompts.build_analyze_prompt str_of (dict_set payload key (JStr "Unknown"))
  = Prompts.build_analyze_prompt str_of payload.
Proof.
  intros Hkey Hfalsy.
  assert (Hsame : Prompts.or_unknown (dict_get (dict_set payload key (JStr "Unknown")) key)
                  = Prompts.or_unknown (dict_get payload key)).
  { rewrite ChatImageProps.dict_get_set_same. unfold Prompts.or_unknown.
    rewrite Hfalsy. reflexivity. }
  unfold analyze_defaulted_keys in Hkey. simpl in Hkey.
  unfold Prompts.build_analyze_prompt.
  destruct Hkey as [<-|[<-|[<-|[<-|[<-|[]]]]]];
    rewrite Hsame;
    rewrite !(@ChatImageProps.dict_get_set_other payload _ _ (JStr "Unknown"))
      by discriminate;
    reflexivity.
Qed.

(** X27.  With the chat prompt builder of the repository in place, a
    [plant_context] that is truthy but not an object (a string, a
    number, a non-empty list) fails every attempt of a chat request
    before the remote call: the request is answered 502
    [gemini_failed] after the two backoff sleeps, and the remote
    collaborator is never called. *)
Theorem chat_context_not_object_is_502 (str_of : json -> string) (env : Env)
        (payload : dict) (messages : list json) (w : World) :
  dict_get payload "messages" = JList messages ->
  truthy (dict_get payload "plant_context") = true ->
  (forall d, dict_get payload "plant_context" <> JObj d) ->
  client_available env w ->
  let out := handle (Prompts.install str_of env)
                    (Build_Request "/chat" "POST" (JObj payload)) w in
  fst out
  = _error_response "gemini_failed" "Gemini request failed. Please retry." 502 /\
  trace (snd out) = trace w ++ [EvSleep initial_delay; EvSleep (initial_delay * 2)%Q].
Proof.
  intros Hmsgs Htruthy Hshape Hclient.
  apply ChatMore.chat_quiet_failure_is_502; [|exact Hclient].
  intros w0 Hc0.
  destruct (ChatMore.chat_attempt_prefix (Prompts.install str_of env) payload
              messages w0 Hmsgs Hc0) as (c & ->).
  rewrite Htruthy.
  change (build_chat_prompt (Prompts.install str_of env))
    with (Prompts.build_chat_prompt str_of env).
  unfold Prompts.build_chat_prompt.
  destruct (dict_get payload "plant_context") as [| | | | |d] eqn:Hctx;
    try (eexists; eexists; split;
         [reflexivity
         |split; [reflexivity
                 |split; [left; exists c; reflexivity | reflexivity]]]).
  exfalso. exact (Hshape d eq_refl).
Qed.

Lemma history_lines_skip_blank (env : Env) (msg : json) :
  blank_message env msg ->
  forall before after lines,
    Prompts.history_lines env (before ++ msg :: after) lines
    = Prompts.history_lines env (before ++ after) lines.
Proof.
  intros (d & r & c & -> & Hrole & Hcontent & Hblank).
  assert (Hline : Prompts.history_line env (JObj d) = Ok None).
  { unfold Prompts.history_line, py_get. rewrite Hrole, Hcontent.
    cbn [py_strip]. rewrite Hblank. reflexivity. }
  induction before as [|m before IH]; intros after lines.
  - cbn [app Prompts.history_lines]. rewrite Hline. reflexivity.
  - cbn [app Prompts.history_lines].
    destruct (Prompts.history_line env m) as [[l|]|e];
      [apply IH | apply IH | reflexivity].
Qed.

(** X28.  In its history mode the chat prompt builder drops blank
    messages: a well-formed message whose content is empty once
    stripped contributes nothing, wherever it stands in a history
    that has another message; and a history of blank messages only
    is rendered as the placeholder line [user: (no messages)]. *)
Theorem chat_prompt_skips_blank_messages (str_of : json -> string) (env : Env)
        (msg : json) (before after : list json) (context : dict) :
  blank_message env msg ->
  (before ++ after <> [] ->
   Prompts.build_chat_prompt str_of env (before ++ msg :: after) (JObj context)
   = Prompts.build_chat_prompt str_of env (before ++ after) (JObj context)) /\
  (Forall (blank_message env) (before ++ after) ->
   Prompts.build_chat_prompt str_of env (before ++ msg :: after) (JObj context)
   = Ok (Prompts.system_prompt str_of context ++ Prompts.nl ++ Prompts.nl
         ++ "Conversation:" ++ Prompts.nl ++ "user: (no messages)"
         ++ Prompts.nl)%string).
Proof.
  intros Hblank.
  assert (Hshape : exists m ms, before ++ msg :: after = m :: ms).
  { destruct before as [|m ms]; simpl; eauto. }
  destruct Hshape as (m0 & ms0 & Hshape).
  split.
  - intros Hne. unfold Prompts.build_chat_prompt.
    rewrite Hshape, <- Hshape.
    rewrite (history_lines_skip_blank env msg Hblank).
    destruct (before ++ after) as [|m ms] eqn:Hrest; [contradiction | reflexivity].
  - intros Hall. unfold Prompts.build_chat_prompt.
    rewrite Hshape, <- Hshape.
    rewrite (history_lines_skip_blank env msg Hblank).
    assert (Hnone : forall ms, Forall (blank_message env) ms ->
                               Prompts.history_lines env ms [] = Ok []).
    { intros ms Hms. induction Hms as [|m ms Hm _ IH]; [reflexivity|].
      exact (eq_trans (history_lines_skip_blank env m Hm [] ms []) IH). }
    rewrite (Hnone _ Hall). reflexivity.
Qed.

End PromptsMore.

(** * Clock readings as machine floats *)

(** ** Rounding to binary64 *)

Module Binary64Facts.
Import Binary64.
Local Open Scope Q_scope.

Lemma two_nonzero : ~ 2 == 0.
Proof. discriminate. Qed.

Lemma pow2_pos (e : Z) : 0 < pow2 e.
Proof. apply Qpower_0_lt. reflexivity. Qed.

Lemma pow2_add (a b : Z) : pow2 (a + b) == pow2 a * pow2 b.
Proof. apply Qpower_plus. exact two_nonzero. Qed.

Lemma pow2_le (a b : Z) : (a <= b)%Z -> pow2 a <= pow2 b.
Proof. intros H. apply Qpower_le_compat_l; [exact H | discriminate]. Qed.

Lemma pow2_lt (a b : Z) : (a < b)%Z -> pow2 a < pow2 b.
Proof. intros H. apply Qpower_lt_compat_l; [exact H | reflexivity]. Qed.

Lemma pow2_nonneg (n : Z) : (0 <= n)%Z -> pow2 n == inject_Z (2 ^ n).
Proof. intros H. unfold pow2. rewrite (Zpower_Qpower 2 n H). reflexivity. Qed.

(** Division by a power of two is multiplication by the opposite
    power. *)
Lemma div_pow2 (q : Q) (p : Z) : q / pow2 p == q * pow2 (- p).
Proof.
  unfold Qdiv. apply Qmult_comp; [reflexivity|].
  unfold pow2. rewrite Qpower_opp. reflexivity.
Qed.

Lemma pow2_cancel (p : Z) : pow2 (- p) * pow2 p == 1.
Proof. rewrite <- pow2_add. replace (- p + p)%Z with 0%Z by lia. reflexivity. Qed.

Lemma ilog2_spec (q : Q) :
  0 < q -> pow2 (ilog2 q) <= q /\ q < pow2 (ilog2 q + 1).
Proof.
  intros Hq. destruct q as [n d]. unfold ilog2. cbn [Qnum Qden].
  assert (Hn : (0 < n)%Z).
  { unfold Qlt in Hq. cbn in Hq. lia. }
  set (a := Z.log2 n). set (b := Z.log2 (Zpos d)).
  destruct (Z.log2_spec n Hn) as [Ha1 Ha2]. fold a in Ha1, Ha2.
  destruct (Z.log2_spec (Zpos d) (eq_refl : (0 < Zpos d)%Z)) as [Hb1 Hb2].
  fold b in Hb1, Hb2.
  assert (Ha0 : (0 <= a)%Z) by apply Z.log2_nonneg.
  assert (Hb0 : (0 <= b)%Z) by apply Z.log2_nonneg.
  assert (Hq' : (n # d) * inject_Z (Zpos d) == inject_Z n).
  { unfold Qeq, Qmult, inject_Z. cbn. lia. }
  assert (HA1 : inject_Z (2 ^ a) <= inject_Z n) by (rewrite <- Zle_Qle; exact Ha1).
  assert (HA2 : inject_Z n < inject_Z (2 ^ (a + 1))).
  { rewrite <- Zlt_Qlt. replace (a + 1)%Z with (Z.succ a) by lia. exact Ha2. }
  assert (HB1 : inject_Z (2 ^ b) <= inject_Z (Zpos d)) by (rewrite <- Zle_Qle; exact Hb1).
  assert (HB2 : inject_Z (Zpos d) < inject_Z (2 ^ (b + 1))).
  { rewrite <- Zlt_Qlt. replace (b + 1)%Z with (Z.succ b) by lia. exact Hb2. }
  rewrite <- (pow2_nonneg a) in HA1 by lia.
  rewrite <- (pow2_nonneg (a + 1)) in HA2 by lia.
  rewrite <- (pow2_nonneg b) in HB1 by lia.
  rewrite <- (pow2_nonneg (b + 1)) in HB2 by lia.
  assert (Hd : 0 < inject_Z (Zpos d)) by reflexivity.
  (* the two outer bounds *)
  assert (Hlow : pow2 (a - b - 1) < n # d).
  { assert (E : pow2 (a - b - 1) * pow2 (b + 1) == pow2 a).
    { rewrite <- pow2_add. replace (a - b - 1 + (b + 1))%Z with a by lia. reflexivity. }
    pose proof (pow2_pos (a - b - 1)) as Hp.
    apply Qnot_le_lt. intros Hc.
    assert (H1 : (n # d) * inject_Z (Zpos d) <= pow2 (a - b - 1) * inject_Z (Zpos d)).
    { apply Qmult_le_compat_r; [exact Hc | apply Qlt_le_weak; exact Hd]. }
    assert (H2 : pow2 (a - b - 1) * inject_Z (Zpos d) < pow2 (a - b - 1) * pow2 (b + 1)).
    { apply Qmult_lt_l; assumption. }
    rewrite Hq' in H1. rewrite E in H2. lra. }
  assert (Hhigh : n # d < pow2 (a - b + 1)).
  { assert (E : pow2 (a - b + 1) * pow2 b == pow2 (a + 1)).
    { rewrite <- pow2_add. replace (a - b + 1 + b)%Z with (a + 1)%Z by lia. reflexivity. }
    pose proof (pow2_pos (a - b + 1)) as Hp.
    apply Qnot_le_lt. intros Hc.
    assert (H1 : pow2 (a - b + 1) * inject_Z (Zpos d) <= (n # d) * inject_Z (Zpos d)).
    { apply Qmult_le_compat_r; [exact Hc | apply Qlt_le_weak; exact Hd]. }
    assert (H2 : pow2 (a - b + 1) * pow2 b <= pow2 (a - b + 1) * inject_Z (Zpos d)).
    { apply Qmult_le_l; assumption. }
    rewrite Hq' in H1. rewrite E in H2. lra. }
  destruct (Qle_bool (pow2 (a - b)) (n # d)) eqn:Hle.
  - apply Qle_bool_iff in Hle. split; assumption.
  - assert (Hlt : n # d < pow2 (a - b)).
    { apply Qnot_le_lt. intros Hc. apply Qle_bool_iff in Hc. congruence. }
    replace (a - b - 1 + 1)%Z with (a - b)%Z by lia.
    split; [apply Qlt_le_weak; exact Hlow | exact Hlt].
Qed.

Lemma ilog2_unique (q : Q) (e : Z) :
  pow2 e <= q -> q < pow2 (e + 1) -> ilog2 q = e.
Proof.
  intros H1 H2.
  assert (Hq : 0 < q) by (pose proof (pow2_pos e); lra).
  destruct (ilog2_spec q Hq) as [S1 S2].
  destruct (Z.lt_trichotomy (ilog2 q) e) as [Hlt | [Heq | Hgt]]; [|exact Heq|].
  - pose proof (pow2_le (ilog2 q + 1) e ltac:(lia)). lra.
  - pose proof (pow2_le (e + 1) (ilog2 q) ltac:(lia)). lra.
Qed.

Lemma rint_floor (q : Q) : (Qfloor q <= rint q <= Qfloor q + 1)%Z.
Proof.
  unfold rint. destruct (Qcompare _ _); [destruct (Z.even _)| |]; lia.
Qed.

Lemma rint_ge (q : Q) (k : Z) : inject_Z k <= q -> (k <= rint q)%Z.
Proof.
  intros H. pose proof (Qfloor_resp_le _ _ H) as Hf. rewrite Qfloor_Z in Hf.
  pose proof (rint_floor q). lia.
Qed.

Lemma rint_le (q : Q) (k : Z) : q <= inject_Z k -> (rint q <= k)%Z.
Proof.
  intros H. pose proof (Qfloor_resp_le _ _ H) as Hf. rewrite Qfloor_Z in Hf.
  destruct (Z.eq_dec (Qfloor q) k) as [E|N].
  - unfold rint.
    assert (Hlt : q - inject_Z (Qfloor q) < 1 # 2) by (rewrite E; lra).
    rewrite Qlt_alt in Hlt. rewrite Hlt. lia.
  - pose proof (rint_floor q). lia.
Qed.

Lemma rint_nonneg (q : Q) : 0 <= q -> (0 <= rint q)%Z.
Proof. intros H. apply rint_ge. exact H. Qed.


(** [round_pos] at a given binade. *)
Lemma round_pos_eq (x : Q) :
  round_pos x
  = inject_Z (rint (x / pow2 (Z.max (ilog2 x - 52) (-1074))))
    * pow2 (Z.max (ilog2 x - 52) (-1074)).
Proof. reflexivity. Qed.

Lemma scaled_le (x y : Q) (p : Z) : x <= y -> x / pow2 p <= y / pow2 p.
Proof.
  intros H. rewrite !div_pow2. apply Qmult_le_compat_r; [exact H|].
  apply Qlt_le_weak. apply pow2_pos.
Qed.

Lemma scaled_int (r : Q) (m p : Z) :
  inject_Z m * pow2 p == r -> r / pow2 p == inject_Z m.
Proof.
  intros H. rewrite <- H. rewrite div_pow2, <- Qmult_assoc.
  rewrite (Qmult_comm (pow2 p)), pow2_cancel. ring.
Qed.

Lemma scaled_pow2 (e p : Z) :
  (p <= e)%Z -> pow2 e / pow2 p == inject_Z (2 ^ (e - p)).
Proof.
  intros H. rewrite div_pow2, <- pow2_add.
  replace (e + - p)%Z with (e - p)%Z by lia. apply pow2_nonneg. lia.
Qed.

Lemma times_pow2_le (m k : Z) (p : Z) :
  (m <= k)%Z -> inject_Z m * pow2 p <= inject_Z k * pow2 p.
Proof.
  intros H. apply Qmult_le_compat_r; [rewrite <- Zle_Qle; exact H|].
  apply Qlt_le_weak. apply pow2_pos.
Qed.

Lemma int_times_pow2 (e p : Z) :
  (p <= e)%Z -> inject_Z (2 ^ (e - p)) * pow2 p == pow2 e.
Proof.
  intros H. rewrite <- pow2_nonneg by lia. rewrite <- pow2_add.
  replace (e - p + p)%Z with e by lia. reflexivity.
Qed.

Lemma round_pos_nonneg (x : Q) : 0 < x -> 0 <= round_pos x.
Proof.
  intros Hx. rewrite round_pos_eq.
  set (p := Z.max (ilog2 x - 52) (-1074)).
  apply Qmult_le_0_compat; [|apply Qlt_le_weak; apply pow2_pos].
  change 0 with (inject_Z 0). rewrite <- Zle_Qle. apply rint_nonneg.
  rewrite div_pow2. apply Qmult_le_0_compat; apply Qlt_le_weak;
    [exact Hx | apply pow2_pos].
Qed.

(** No positive binary64 number is below [2 ^ -1074]. *)
Lemma pos_double_min (r : Q) : 0 < r -> round_pos r == r -> pow2 (-1074) <= r.
Proof.
  intros Hr Hd. rewrite round_pos_eq in Hd.
  set (p := Z.max (ilog2 r - 52) (-1074)) in *.
  set (m := rint (r / pow2 p)) in *.
  assert (Hm : (1 <= m)%Z).
  { destruct (Z_lt_le_dec m 1) as [Hlt|Hge]; [|exact Hge]. exfalso.
    assert (H0 : inject_Z m * pow2 p <= inject_Z 0 * pow2 p)
      by (apply times_pow2_le; lia).
    change (inject_Z 0) with 0 in H0. lra. }
  assert (H1 : inject_Z 1 * pow2 p <= inject_Z m * pow2 p)
    by (apply times_pow2_le; exact Hm).
  assert (H2 : pow2 (-1074) <= pow2 p) by (apply pow2_le; lia).
  change (inject_Z 1) with 1 in H1. lra.
Qed.

Lemma round_pos_ge (x r : Q) :
  0 < r -> r <= x -> round_pos r == r -> r <= round_pos x.
Proof.
  intros Hr Hrx Hd.
  assert (Hx : 0 < x) by lra.
  destruct (ilog2_spec x Hx) as [S1 S2].
  rewrite round_pos_eq.
  set (e := ilog2 x) in *. set (p := Z.max (e - 52) (-1074)).
  destruct (Qlt_le_dec r (pow2 e)) as [Hlow | Hsame].
  - destruct (Z_le_gt_dec p e) as [Hpe | Hpe].
    + assert (Hm : (2 ^ (e - p) <= rint (x / pow2 p))%Z).
      { apply rint_ge. rewrite <- (scaled_pow2 e p Hpe). apply scaled_le. exact S1. }
      pose proof (times_pow2_le _ _ p Hm) as H.
      rewrite (int_times_pow2 e p Hpe) in H. lra.
    + exfalso. pose proof (pos_double_min r Hr Hd) as Hmin.
      assert (Hp : p = (-1074)%Z) by lia.
      pose proof (pow2_le e (-1074) ltac:(lia)). lra.
  - assert (He : ilog2 r = e) by (apply ilog2_unique; lra).
    rewrite round_pos_eq, He in Hd. fold p in Hd.
    pose proof (scaled_int r _ p Hd) as Hint.
    assert (Hm : (rint (r / pow2 p) <= rint (x / pow2 p))%Z).
    { apply rint_ge. rewrite <- Hint. apply scaled_le. exact Hrx. }
    pose proof (times_pow2_le _ _ p Hm) as H. lra.
Qed.

Lemma round_pos_le (x r : Q) :
  0 < x -> x <= r -> round_pos r == r -> round_pos x <= r.
Proof.
  intros Hx Hxr Hd.
  assert (Hr : 0 < r) by lra.
  destruct (ilog2_spec x Hx) as [S1 S2].
  rewrite round_pos_eq.
  set (e := ilog2 x) in *. set (p := Z.max (e - 52) (-1074)).
  destruct (Qlt_le_dec r (pow2 (e + 1))) as [Hsame | Hhigh].
  - assert (He : ilog2 r = e) by (apply ilog2_unique; lra).
    rewrite round_pos_eq, He in Hd. fold p in Hd.
    pose proof (scaled_int r _ p Hd) as Hint.
    assert (Hm : (rint (x / pow2 p) <= rint (r / pow2 p))%Z).
    { apply rint_le. rewrite <- Hint. apply scaled_le. exact Hxr. }
    pose proof (times_pow2_le _ _ p Hm) as H. lra.
  - destruct (Z_le_gt_dec p (e + 1)) as [Hpe | Hpe].
    + assert (Hm : (rint (x / pow2 p) <= 2 ^ (e + 1 - p))%Z).
      { apply rint_le. rewrite <- (scaled_pow2 (e + 1) p Hpe). apply scaled_le.
        apply Qlt_le_weak. exact S2. }
      pose proof (times_pow2_le _ _ p Hm) as H.
      rewrite (int_times_pow2 (e + 1) p Hpe) in H. lra.
    + pose proof (pos_double_min r Hr Hd) as Hmin.
      assert (Hp : p = (-1074)%Z) by lia.
      assert (Hm : (rint (x / pow2 p) <= 1)%Z).
      { apply rint_le.
        assert (Hxp : x <= pow2 p).
        { pose proof (pow2_le (e + 1) p ltac:(lia)). lra. }
        pose proof (scaled_le _ _ p Hxp) as H.
        pose proof (scaled_pow2 p p (Z.le_refl p)) as E.
        replace (p - p)%Z with 0%Z in E by lia.
        change (inject_Z (2 ^ 0)) with (inject_Z 1) in E.
        rewrite E in H. exact H. }
      pose proof (times_pow2_le _ _ p Hm) as H.
      change (inject_Z 1) with 1 in H. rewrite Hp in *. lra.
Qed.

(** What [is_double] says, by the sign. *)
Lemma is_double_pos (r : Q) :
  is_double r = true -> 0 < r -> round_pos r == r /\ r < pow2 1024.
Proof.
  unfold is_double, round. intros H Hr.
  assert (C : Qcompare r 0 = Gt) by (apply Qgt_alt; exact Hr).
  rewrite C in H. unfold overflow in H.
  destruct (Qle_bool (pow2 1024) (round_pos r)) eqn:Ho; [discriminate|].
  apply Qeq_bool_iff in H. split; [exact H|].
  apply Qnot_le_lt. intros Hc. rewrite <- H in Hc.
  apply Qle_bool_iff in Hc. congruence.
Qed.

Lemma is_double_neg (r : Q) :
  is_double r = true -> r < 0 -> round_pos (- r) == - r /\ - r < pow2 1024.
Proof.
  unfold is_double, round. intros H Hr.
  assert (C : Qcompare r 0 = Lt) by (apply Qlt_alt; exact Hr).
  rewrite C in H. unfold overflow in H.
  destruct (Qle_bool (pow2 1024) (round_pos (- r))) eqn:Ho; [discriminate|].
  apply Qeq_bool_iff in H.
  assert (E : round_pos (- r) == - r) by lra.
  split; [exact E|].
  apply Qnot_le_lt. intros Hc. rewrite <- E in Hc.
  apply Qle_bool_iff in Hc. congruence.
Qed.

(** Rounding never crosses a binary64 number: a difference that is at
    least a binary64 number above [n] rounds to more than [n], and one
    that is at most a binary64 number not above [n] rounds to at most
    [n]. *)
Lemma round_above (x r : Q) (n : Z) :
  is_double r = true -> inject_Z n < r -> r <= x -> gt_int (round x) n = true.
Proof.
  intros Hd Hn Hrx. unfold round.
  destruct (Qcompare x 0) eqn:C.
  - apply Qeq_alt in C. cbn [gt_int].
    destruct (Qle_bool 0 (inject_Z n)) eqn:E; [|reflexivity].
    apply Qle_bool_iff in E. lra.
  - apply Qlt_alt in C.
    assert (Hr : r < 0) by lra.
    destruct (is_double_neg r Hd Hr) as [Hd' Hmax].
    assert (Hv : round_pos (- x) <= - r) by (apply round_pos_le; lra).
    unfold overflow.
    destruct (Qle_bool (pow2 1024) (round_pos (- x))) eqn:Ho.
    { apply Qle_bool_iff in Ho. lra. }
    cbn [gt_int].
    destruct (Qle_bool (- round_pos (- x)) (inject_Z n)) eqn:E; [|reflexivity].
    apply Qle_bool_iff in E. lra.
  - apply Qgt_alt in C. unfold overflow.
    destruct (Qle_bool (pow2 1024) (round_pos x)) eqn:Ho; [reflexivity|].
    cbn [gt_int].
    destruct (Qle_bool (round_pos x) (inject_Z n)) eqn:E; [|reflexivity].
    apply Qle_bool_iff in E. exfalso.
    pose proof (round_pos_nonneg x C) as Hv.
    destruct (Qlt_le_dec 0 r) as [Hr|Hr].
    + destruct (is_double_pos r Hd Hr) as [Hd' _].
      pose proof (round_pos_ge x r Hr Hrx Hd'). lra.
    + lra.
Qed.

Lemma round_not_above (x r : Q) (n : Z) :
  is_double r = true -> r <= inject_Z n -> x <= r -> gt_int (round x) n = false.
Proof.
  intros Hd Hn Hxr. unfold round.
  destruct (Qcompare x 0) eqn:C.
  - apply Qeq_alt in C. cbn [gt_int].
    destruct (Qle_bool 0 (inject_Z n)) eqn:E; [reflexivity|].
    exfalso. assert (H : 0 <= inject_Z n) by lra.
    apply Qle_bool_iff in H. congruence.
  - apply Qlt_alt in C. unfold overflow.
    destruct (Qle_bool (pow2 1024) (round_pos (- x))) eqn:Ho; [reflexivity|].
    cbn [gt_int].
    destruct (Qle_bool (- round_pos (- x)) (inject_Z n)) eqn:E; [reflexivity|].
    exfalso.
    assert (H : - round_pos (- x) <= inject_Z n).
    { assert (Hx : 0 < - x) by lra.
      pose proof (round_pos_nonneg (- x) Hx) as Hv.
      destruct (Qlt_le_dec r 0) as [Hr|Hr].
      - destruct (is_double_neg r Hd Hr) as [Hd' _].
        assert (H1 : - r <= round_pos (- x)) by (apply round_pos_ge; lra).
        lra.
      - lra. }
    apply Qle_bool_iff in H. congruence.
  - apply Qgt_alt in C.
    assert (Hr : 0 < r) by lra.
    destruct (is_double_pos r Hd Hr) as [Hd' Hmax].
    pose proof (round_pos_le x r C Hxr Hd') as Hv.
    unfold overflow.
    destruct (Qle_bool (pow2 1024) (round_pos x)) eqn:Ho.
    { apply Qle_bool_iff in Ho. lra. }
    cbn [gt_int].
    destruct (Qle_bool (round_pos x) (inject_Z n)) eqn:E; [reflexivity|].
    exfalso. assert (H : round_pos x <= inject_Z n) by lra.
    apply Qle_bool_iff in H. congruence.
Qed.


(** A number that is a whole multiple of its own last bit is rounded
    to itself. *)
Lemma round_pos_exact (x : Q) (k : Z) :
  inject_Z k * pow2 (Z.max (ilog2 x - 52) (-1074)) == x -> round_pos x == x.
Proof.
  intros H. rewrite round_pos_eq.
  set (p := Z.max (ilog2 x - 52) (-1074)) in *.
  pose proof (scaled_int x k p H) as Hint.
  assert (Hk : rint (x / pow2 p) = k).
  { apply Z.le_antisymm; [apply rint_le | apply rint_ge]; rewrite Hint; apply Qle_refl. }
  rewrite Hk. exact H.
Qed.

Lemma round_pos_int (n : Z) :
  (0 < n <= 2 ^ 53)%Z -> round_pos (inject_Z n) == inject_Z n.
Proof.
  intros [Hpos Hmax].
  assert (Hx : 0 < inject_Z n) by (change 0 with (inject_Z 0); rewrite <- Zlt_Qlt; lia).
  destruct (ilog2_spec (inject_Z n) Hx) as [S1 S2].
  set (e := ilog2 (inject_Z n)) in *.
  assert (H1 : 1 <= inject_Z n) by (change 1 with (inject_Z 1); rewrite <- Zle_Qle; lia).
  assert (Hn53 : inject_Z n <= pow2 53).
  { rewrite (pow2_nonneg 53) by lia. rewrite <- Zle_Qle. exact Hmax. }
  assert (He0 : (0 <= e)%Z).
  { destruct (Z_lt_le_dec e 0) as [Hlt|Hge]; [|exact Hge]. exfalso.
    pose proof (pow2_le (e + 1) 0 ltac:(lia)) as H. change (pow2 0) with 1 in H. lra. }
  assert (He53 : (e <= 53)%Z).
  { destruct (Z_le_gt_dec e 53) as [Hle|Hgt]; [exact Hle|]. exfalso.
    pose proof (pow2_lt 53 e ltac:(lia)). lra. }
  destruct (Z.eq_dec e 53) as [E|N].
  - apply (round_pos_exact (inject_Z n) (2 ^ 52)). fold e. rewrite E.
    assert (Hn : n = (2 ^ 53)%Z).
    { apply Z.le_antisymm; [exact Hmax|].
      rewrite E in S1. rewrite (pow2_nonneg 53) in S1 by lia.
      rewrite <- Zle_Qle in S1. exact S1. }
    rewrite Hn. reflexivity.
  - apply (round_pos_exact (inject_Z n) (n * 2 ^ (52 - e))). fold e.
    replace (Z.max (e - 52) (-1074)) with (e - 52)%Z by lia.
    rewrite inject_Z_mult, <- Qmult_assoc.
    rewrite <- (pow2_nonneg (52 - e)) by lia.
    rewrite <- pow2_add. replace (52 - e + (e - 52))%Z with 0%Z by lia.
    change (pow2 0) with 1. ring.
Qed.

(** Every integer up to [2 ^ 53] in magnitude is a binary64 number. *)
Lemma is_double_int (n : Z) :
  (Z.abs n <= 2 ^ 53)%Z -> is_double (inject_Z n) = true.
Proof.
  intros Hn.
  assert (Hbig : forall k, (0 < k <= 2 ^ 53)%Z ->
                   Qle_bool (pow2 1024) (round_pos (inject_Z k)) = false).
  { intros k Hk. destruct (Qle_bool _ _) eqn:E; [|reflexivity]. exfalso.
    apply Qle_bool_iff in E. rewrite (round_pos_int k Hk) in E.
    assert (H53 : inject_Z k <= pow2 53).
    { rewrite (pow2_nonneg 53) by lia. rewrite <- Zle_Qle. lia. }
    pose proof (pow2_lt 53 1024 ltac:(lia)). lra. }
  unfold is_double, round.
  destruct n as [|p|p].
  - reflexivity.
  - change (Qcompare (inject_Z (Z.pos p)) 0) with Gt.
    unfold overflow. rewrite (Hbig (Z.pos p)) by lia.
    apply Qeq_bool_iff. apply round_pos_int. lia.
  - change (Qcompare (inject_Z (Z.neg p)) 0) with Lt.
    change (- inject_Z (Z.neg p)) with (inject_Z (Z.pos p)).
    unfold overflow. rewrite (Hbig (Z.pos p)) by lia.
    apply Qeq_bool_iff. rewrite (round_pos_int (Z.pos p)) by lia. reflexivity.
Qed.

End Binary64Facts.

(** ** The rounding on known differences *)

Module FloatChecks.
Import Binary64.

(** [3600.3 - 0.3] is [3600.0]: the excess over 3600 is rounded
    away. *)
Example difference_rounds_down :
  eqb (sub Samples.float_3600_3 Samples.float_0_3) (Finite 3600) = true /\
  (3600 < Samples.float_3600_3 - Samples.float_0_3)%Q.
Proof. split; vm_compute; reflexivity. Qed.

(** [0.3 - 0.1] is [0.19999999999999998]. *)
Example difference_of_tenths :
  eqb (sub Samples.float_0_3 Samples.float_0_1)
      (Finite (Qmake 7205759403792793 (2 ^ 55))) = true.
Proof. vm_compute. reflexivity. Qed.

(** Ties go to the even neighbour: [1.0 - 2 ** -54] is [1.0], and
    [(2 ** 53 + 2) - 1.0] is [2 ** 53]. *)
Example ties_to_even :
  eqb (sub 1 (Qmake 1 (2 ^ 54))) (Finite 1) = true /\
  eqb (sub (inject_Z (2 ^ 53 + 2)) 1) (Finite (inject_Z (2 ^ 53))) = true.
Proof. split; vm_compute; reflexivity. Qed.

(** Subnormal numbers: [5e-324 - 1e-323] is [-5e-324]. *)
Example subnormal_difference :
  eqb (sub (pow2 (-1074)) (pow2 (-1073))) (Finite (- pow2 (-1074))) = true.
Proof. vm_compute. reflexivity. Qed.

(** The largest float minus its opposite overflows. *)
Example difference_overflows :
  is_double (inject_Z (2 ^ 1024 - 2 ^ 971)) = true /\
  sub (inject_Z (2 ^ 1024 - 2 ^ 971)) (- inject_Z (2 ^ 1024 - 2 ^ 971))
  = Infinity false.
Proof. split; vm_compute; reflexivity. Qed.

(** One tenth is no binary64 number; the float [0.1] is. *)
Example tenth_is_not_a_float :
  is_double (1 # 10) = false /\ is_double Samples.float_0_1 = true.
Proof. split; vm_compute; reflexivity. Qed.

End FloatChecks.

(** ** Expiry as the interpreter computes it *)

Module ExpiryProps.
Import CacheFacts.

(** A difference that is at least some binary64 number above the TTL
    is found expired, whatever the rounding. *)
Lemma expired_above (self : LRUCache.t) (insertedAt now r : Q) :
  Binary64.is_double r = true ->
  (inject_Z (LRUCache._ttl_seconds self) < r)%Q ->
  (r <= now - insertedAt)%Q ->
  FloatLRUCache.expired self insertedAt now = true.
Proof.
  intros Hd Hr Hx. unfold FloatLRUCache.expired, Binary64.sub.
  exact (Binary64Facts.round_above (now - insertedAt) r _ Hd Hr Hx).
Qed.

(** A difference that is at most some binary64 number not above the
    TTL is found fresh, whatever the rounding. *)
Lemma fresh_not_above (self : LRUCache.t) (insertedAt now r : Q) :
  Binary64.is_double r = true ->
  (r <= inject_Z (LRUCache._ttl_seconds self))%Q ->
  (now - insertedAt <= r)%Q ->
  FloatLRUCache.expired self insertedAt now = false.
Proof.
  intros Hd Hr Hx. unfold FloatLRUCache.expired, Binary64.sub.
  exact (Binary64Facts.round_not_above (now - insertedAt) r _ Hd Hr Hx).
Qed.

Lemma get_expired (self : LRUCache.t) (key : string) (value : json)
      (insertedAt now : Q) :
  OrderedDict.lookup key (LRUCache._cache self) = Some (value, insertedAt) ->
  FloatLRUCache.expired self insertedAt now = true ->
  FloatLRUCache.get self key now
  = (None, LRUCache.with_cache self (OrderedDict.remove key (LRUCache._cache self))).
Proof.
  intros Hlook Hexp. unfold FloatLRUCache.get. rewrite Hlook, Hexp. reflexivity.
Qed.

Lemma get_fresh (self : LRUCache.t) (key : string) (value : json)
      (insertedAt now : Q) :
  OrderedDict.lookup key (LRUCache._cache self) = Some (value, insertedAt) ->
  FloatLRUCache.expired self insertedAt now = false ->
  FloatLRUCache.get self key now
  = (Some value,
     LRUCache.with_cache self
       (OrderedDict.remove key (LRUCache._cache self)
          ++ [(key, (value, insertedAt))])).
Proof.
  intros Hlook Hexp. unfold FloatLRUCache.get. rewrite Hlook, Hexp.
  unfold OrderedDict.move_to_end. rewrite Hlook. reflexivity.
Qed.

(** Where the difference of the two readings is itself a binary64
    number, nothing is rounded and the exact test is the
    interpreter's. *)
Lemma get_exact_difference (self : LRUCache.t) (key : string) (now : Q) :
  (forall value timestamp,
      OrderedDict.lookup key (LRUCache._cache self) = Some (value, timestamp) ->
      Binary64.is_double (now - timestamp) = true) ->
  FloatLRUCache.get self key now = LRUCache.get self key now.
Proof.
  intros Hexact. unfold FloatLRUCache.get, LRUCache.get.
  destruct (OrderedDict.lookup key (LRUCache._cache self)) as [[value timestamp]|];
    [|reflexivity].
  specialize (Hexact value timestamp eq_refl).
  destruct (LRUCache.Qgt_bool (now - timestamp)
              (inject_Z (LRUCache._ttl_seconds self))) eqn:E.
  - apply Qgt_bool_iff in E.
    rewrite (expired_above self timestamp now (now - timestamp) Hexact E
               (Qle_refl _)).
    reflexivity.
  - apply Qgt_bool_false_iff in E.
    rewrite (fresh_not_above self timestamp now (now - timestamp) Hexact E
               (Qle_refl _)).
    reflexivity.
Qed.

(** C4, as the code has it.  For an entry stored under [key] at
    [insertedAt], a [get] at [now] is decided by the test of the
    source, the binary64 difference [now - insertedAt] against the
    TTL.  When the test fires the [get] returns absent and removes
    the entry, and any later [get] of the key returns absent and
    changes nothing; otherwise it returns the stored value and
    moves the entry, unchanged, to the most-recently-used end.  The
    test is certain to fire when the exact difference is at least
    some binary64 number above the TTL (one second more than a TTL
    below [2 ^ 53] will do), and certain not to fire when the exact
    difference is at most some binary64 number not above the TTL
    (the TTL itself, up to [2 ^ 53]); for a smaller excess the
    outcome depends on the rounding. *)
Theorem cache_ttl_expiry (self : LRUCache.t) (key : string) (value : json)
        (insertedAt now : Q) :
  NoDup (LRUCache.keys self) ->
  OrderedDict.lookup key (LRUCache._cache self) = Some (value, insertedAt) ->
  let ttl := LRUCache._ttl_seconds self in
  let removed := LRUCache.with_cache self
                   (OrderedDict.remove key (LRUCache._cache self)) in
  let promoted := LRUCache.with_cache self
                    (OrderedDict.remove key (LRUCache._cache self)
                       ++ [(key, (value, insertedAt))]) in
  FloatLRUCache.get self key now
  = (if FloatLRUCache.expired self insertedAt now
     then (None, removed) else (Some value, promoted)) /\
  (OrderedDict.contains key (LRUCache._cache removed) = false /\
   forall now', FloatLRUCache.get removed key now' = (None, removed)) /\
  (forall r,
      Binary64.is_double r = true ->
      (inject_Z ttl < r)%Q -> (r <= now - insertedAt)%Q ->
      FloatLRUCache.get self key now = (None, removed)) /\
  (forall r,
      Binary64.is_double r = true ->
      (r <= inject_Z ttl)%Q -> (now - insertedAt <= r)%Q ->
      FloatLRUCache.get self key now = (Some value, promoted)) /\
  (Z.abs (ttl + 1) <= 2 ^ 53 ->
   (insertedAt + inject_Z ttl + 1 <= now)%Q ->
   FloatLRUCache.get self key now = (None, removed)) /\
  (Z.abs ttl <= 2 ^ 53 ->
   (now <= insertedAt + inject_Z ttl)%Q ->
   FloatLRUCache.get self key now = (Some value, promoted)).
Proof.
  intros Hnd Hlook. cbv zeta.
  assert (Hgone : OrderedDict.lookup key
            (OrderedDict.remove key (LRUCache._cache self)) = None)
    by (apply lookup_remove_same; exact Hnd).
  split; [|split; [|split; [|split; [|split]]]].
  - destruct (FloatLRUCache.expired self insertedAt now) eqn:E.
    + apply (get_expired self key value insertedAt now Hlook E).
    + apply (get_fresh self key value insertedAt now Hlook E).
  - split; [apply contains_false; exact Hgone|].
    intros now'. unfold FloatLRUCache.get.
    cbn [LRUCache._cache LRUCache.with_cache]. rewrite Hgone. reflexivity.
  - intros r Hd Hr Hx.
    apply (get_expired self key value insertedAt now Hlook).
    exact (expired_above self insertedAt now r Hd Hr Hx).
  - intros r Hd Hr Hx.
    apply (get_fresh self key value insertedAt now Hlook).
    exact (fresh_not_above self insertedAt now r Hd Hr Hx).
  - intros Hbound Hlate.
    apply (get_expired self key value insertedAt now Hlook).
    apply (expired_above self insertedAt now
             (inject_Z (LRUCache._ttl_seconds self + 1))).
    + apply Binary64Facts.is_double_int. exact Hbound.
    + rewrite <- Zlt_Qlt. lia.
    + rewrite inject_Z_plus. change (inject_Z 1) with 1%Q. lra.
  - intros Hbound Hearly.
    apply (get_fresh self key value insertedAt now Hlook).
    apply (fresh_not_above self insertedAt now
             (inject_Z (LRUCache._ttl_seconds self))).
    + apply Binary64Facts.is_double_int. exact Hbound.
    + apply Qle_refl.
    + lra.
Qed.

(** X6.  A hit does not extend an entry's life: the insertion time
    survives the [get], so an entry that was read while the expiry
    test of the source held it fresh is still reported absent, and
    removed, by the first [get] at which the test, taken against the
    original insertion time, fires. *)
Theorem hit_does_not_refresh (self : LRUCache.t) (key : string) (value : json)
        (insertedAt t1 t2 : Q) :
  NoDup (LRUCache.keys self) ->
  OrderedDict.lookup key (LRUCache._cache self) = Some (value, insertedAt) ->
  FloatLRUCache.expired self insertedAt t1 = false ->
  FloatLRUCache.expired self insertedAt t2 = true ->
  exists self1 self2,
    FloatLRUCache.get self key t1 = (Some value, self1) /\
    OrderedDict.lookup key (LRUCache._cache self1) = Some (value, insertedAt) /\
    FloatLRUCache.get self1 key t2 = (None, self2) /\
    OrderedDict.lookup key (LRUCache._cache self2) = None.
Proof.
  intros Hnd Hlook Hfresh Hlate.
  assert (Hgone : OrderedDict.lookup key
                    (OrderedDict.remove key (LRUCache._cache self)) = None)
    by (apply lookup_remove_same; exact Hnd).
  eexists. eexists. split.
  { apply (get_fresh self key value insertedAt t1 Hlook Hfresh). }
  cbn [LRUCache._cache LRUCache.with_cache].
  assert (Hlook1 : OrderedDict.lookup key
                     (OrderedDict.remove key (LRUCache._cache self)
                        ++ [(key, (value, insertedAt))])
                   = Some (value, insertedAt))
    by (apply lookup_app_last; exact Hgone).
  split; [exact Hlook1|].
  split.
  { apply (get_expired _ key value insertedAt t2); [exact Hlook1 | exact Hlate]. }
  cbn [LRUCache._cache LRUCache.with_cache].
  apply lookup_remove_same.
  apply (CacheMore.stored_keys_unique (LRUCache._cache self) key (value, insertedAt) Hnd).
Qed.

End ExpiryProps.

(** * Chat requests, message by message *)

Module ConversationProps.

Lemma print_lines_one (l : line) (w : World) : print_line l w = print_lines [l] w.
Proof. reflexivity. Qed.

Lemma print_lines_app (ls1 ls2 : list line) (w : World) :
  print_lines ls2 (print_lines ls1 w) = print_lines (ls1 ++ ls2) w.
Proof. unfold print_lines. cbn. rewrite app_assoc. reflexivity. Qed.

Lemma print_lines_nil (w : World) : print_lines [] w = w.
Proof. unfold print_lines. rewrite app_nil_r. destruct w. reflexivity. Qed.

(** A readable message never raises: it contributes [message_turn]
    and prints [message_lines]. *)
Lemma chat_message_exact (env : Env) (i : nat) (msg : json) (w : World) :
  readable_message msg ->
  chat_message env i msg w
  = (Ok (message_turn env msg), print_lines (message_lines env i msg) w).
Proof.
  intros (d & r & c & -> & Hrole & Hcontent).
  unfold chat_message, py_get. rewrite Hrole, Hcontent. cbn [py_lower py_strip].
  unfold message_turn, message_lines, turn_parts, turn_role, turn_text,
    image_part, image_lines.
  rewrite Hrole, Hcontent. cbn [as_str].
  unfold bind at 1. unfold lift at 1.
  unfold bind at 1. unfold lift at 1.
  unfold bind at 1. unfold lift at 1.
  unfold bind at 1. unfold print at 1.
  unfold bind at 1. unfold chat_image_parts.
  destruct (truthy (dict_get_default d "image_base64" JNull)).
  - unfold try_except, bind, lift, print, ret.
    destruct (b64decode env (dict_get_default d "image_base64" JNull))
      as [image_bytes|e].
    + cbn [app]. rewrite !print_lines_one, !print_lines_app. reflexivity.
    + cbn [app]. destruct (str_nonempty (str_strip env c)).
      * rewrite !print_lines_one, !print_lines_app. reflexivity.
      * rewrite !print_lines_one, !print_lines_app. reflexivity.
  - unfold ret at 1. cbn [app].
    destruct (str_nonempty (str_strip env c)).
    + unfold bind, print, ret. rewrite !print_lines_one, !print_lines_app.
      reflexivity.
    + unfold ret. rewrite print_lines_one. reflexivity.
Qed.

Lemma chat_messages_exact (env : Env) (messages : list json) :
  Forall readable_message messages ->
  forall i contents w,
    chat_messages env i messages contents w
    = (Ok (contents ++ conversation env messages),
       print_lines (conversation_lines env i messages) w).
Proof.
  induction 1 as [|msg messages Hmsg _ IH]; intros i contents w.
  - cbn [chat_messages conversation flat_map conversation_lines].
    rewrite app_nil_r, print_lines_nil. reflexivity.
  - cbn [chat_messages]. unfold bind.
    rewrite (chat_message_exact env i msg w Hmsg).
    rewrite IH. cbn [conversation flat_map conversation_lines].
    rewrite print_lines_app, <- app_assoc. reflexivity.
Qed.

Lemma conversation_lines_app (env : Env) (before after : list json) :
  forall i,
    conversation_lines env i (before ++ after)
    = conversation_lines env i before
      ++ conversation_lines env (i + List.length before) after.
Proof.
  induction before as [|msg before IH]; intros i.
  - cbn. rewrite Nat.add_0_r. reflexivity.
  - cbn [app conversation_lines List.length]. rewrite IH, <- app_assoc.
    replace (S i + List.length before)%nat with (i + S (List.length before))%nat
      by lia.
    reflexivity.
Qed.

(** A chat attempt on readable messages, when a client can be had and
    the prompt builds: the lines printed, the one remote call and its
    conversation, and the outcome. *)
Lemma chat_exact (env : Env) (payload : dict) (messages : list json)
      (system_prompt : string) (w : World) :
  dict_get payload "messages" = JList messages ->
  Forall readable_message messages ->
  build_chat_prompt env []
    (if truthy (dict_get payload "plant_context")
     then dict_get payload "plant_context" else JObj [])
  = Ok system_prompt ->
  client_available env w ->
  let contents := system_turns messages system_prompt ++ conversation env messages in
  exists c,
    _chat env payload w
    = (answer_of env (trace w) contents,
       Build_World (_analysis_cache w) (Some c)
         (clock w + snd (generate_content env (trace w) (GEMINI_MODEL env) contents))%Q
         (trace w ++ [EvGenerate (GEMINI_MODEL env) contents])
         (stdout w
          ++ DebugReceived (List.length messages)
          :: DebugPlantContext
               (if truthy (dict_get payload "plant_context")
                then dict_get payload "plant_context" else JObj [])
          :: conversation_lines env 0 messages
          ++ [DebugTotal (List.length contents)])).
Proof.
  intros Hmsgs Hread Hprompt Hclient. cbv zeta.
  destruct (ChatMore.chat_attempt_prefix env payload messages w Hmsgs Hclient)
    as (c & ->).
  exists c. rewrite Hprompt. unfold bind at 1. unfold lift at 1.
  unfold bind at 1. rewrite (chat_messages_exact env messages Hread).
  fold (system_turns messages system_prompt).
  unfold bind at 1. unfold print at 1.
  unfold bind, generate, lift, answer_of.
  cbn [print_line print_lines trace clock _analysis_cache _client stdout].
  destruct (generate_content env (trace w) (GEMINI_MODEL env)
              (system_turns messages system_prompt ++ conversation env messages))
    as [[response|e] latency]; cbn [fst snd];
    rewrite <- !app_assoc; reflexivity.
Qed.

(** The same attempt through the retry executor and the dispatcher,
    when the collaborator's first answer parses. *)
Lemma chat_succeeds_at_once (env : Env) (payload : dict) (data : json)
      (w w' : World) :
  _chat env payload w = (Ok data, w') ->
  handle env (Build_Request "/chat" "POST" (JObj payload)) w
  = (_json_response data 200, w').
Proof.
  intros Hrun. unfold handle, route.
  cbn -[_call_with_retry _chat _json_response].
  unfold bind, _call_with_retry. change (range (2 + 1)) with [0; 1; 2].
  cbn [retry_loop]. unfold try_except. rewrite Hrun. reflexivity.
Qed.

End ConversationProps.

(** ** Chat images that do not decode, in the request's own run *)

Module ImageDropProps.

(** With an image that does not decode, a message gives the turn and
    the lines of the message without the image, the warning apart. *)
Lemma undecodable_turn (env : Env) (i : nat) (msg : dict) (e : exn) :
  truthy (dict_get_default msg "image_base64" JNull) = true ->
  b64decode env (dict_get_default msg "image_base64" JNull) = Err e ->
  message_turn env (JObj msg)
  = (if str_nonempty (turn_text env msg)
     then [Build_Content (turn_role env msg) [Part_from_text (turn_text env msg)]]
     else []) /\
  message_lines env i (JObj msg)
  = DebugMessage i (turn_role env msg) (str_nonempty (turn_text env msg)) true
    :: WarningDecode i e
    :: (if str_nonempty (turn_text env msg)
        then [DebugAdding 1 (turn_role env msg)] else []).
Proof.
  intros Ht He.
  unfold message_turn, message_lines, turn_parts, image_part, image_lines.
  rewrite Ht, He. cbn [app].
  destruct (str_nonempty (turn_text env msg)); split; reflexivity.
Qed.

(** C8.  In a chat request, a message whose attached image does not
    decode has the image dropped with a warning printed, and nothing
    is raised for it.  In the request's own run, on readable messages
    with a client and a prompt at hand: the warning is printed for
    that message, right after its debug line; the messages after it
    are processed, their lines printed after the warning; the remote
    collaborator is called once, with the system turns, the turns of
    the messages before, the text-only turn of the message, and the
    turns of the messages after; the attempt returns what the parse
    of the collaborator's answer returns, and when that is a result
    the request is answered 200 with it.  Whatever the messages are,
    the request gives the result it gives for the same conversation
    without that image, with the same remote calls and sleeps. *)
Theorem chat_undecodable_image_is_dropped
        (env : Env) (payload : dict) (before after : list json) (msg : dict)
        (e : exn) (w : World) :
  dict_get payload "messages" = JList (before ++ JObj msg :: after) ->
  truthy (dict_get_default msg "image_base64" JNull) = true ->
  b64decode env (dict_get_default msg "image_base64" JNull) = Err e ->
  let i := List.length before in
  let messages := before ++ JObj msg :: after in
  let without :=
    dict_set payload "messages" (JList (before ++ JObj (drop_image msg) :: after)) in
  let request := Build_Request "/chat" "POST" (JObj payload) in
  (forall system_prompt,
      readable_message (JObj msg) ->
      Forall readable_message before ->
      Forall readable_message after ->
      build_chat_prompt env []
        (if truthy (dict_get payload "plant_context")
         then dict_get payload "plant_context" else JObj [])
      = Ok system_prompt ->
      client_available env w ->
      let text_turn :=
        if str_nonempty (turn_text env msg)
        then [Build_Content (turn_role env msg) [Part_from_text (turn_text env msg)]]
        else [] in
      let contents :=
        system_turns messages system_prompt
        ++ conversation env before ++ text_turn ++ conversation env after in
      fst (_chat env payload w) = answer_of env (trace w) contents /\
      trace (snd (_chat env payload w))
      = trace w ++ [EvGenerate (GEMINI_MODEL env) contents] /\
      stdout (snd (_chat env payload w))
      = stdout w
        ++ DebugReceived (List.length messages)
        :: DebugPlantContext
             (if truthy (dict_get payload "plant_context")
              then dict_get payload "plant_context" else JObj [])
        :: conversation_lines env 0 before
        ++ (DebugMessage i (turn_role env msg) (str_nonempty (turn_text env msg)) true
            :: WarningDecode i e
            :: (if str_nonempty (turn_text env msg)
                then [DebugAdding 1 (turn_role env msg)] else []))
        ++ conversation_lines env (S i) after
        ++ [DebugTotal (List.length contents)] /\
      forall data,
        answer_of env (trace w) contents = Ok data ->
        fst (handle env request w) = _json_response data 200 /\
        snd (handle env request w) = snd (_chat env payload w)) /\
  (forall w0,
      chat_image_parts env i (dict_get_default msg "image_base64" JNull) w0
      = (Ok [], print_line (WarningDecode i e) w0)) /\
  fst (_chat env payload w) = fst (_chat env without w) /\
  same_but_stdout (snd (_chat env payload w)) (snd (_chat env without w)) /\
  fst (handle env request w)
  = fst (handle env (Build_Request "/chat" "POST" (JObj without)) w) /\
  same_but_stdout
    (snd (handle env request w))
    (snd (handle env (Build_Request "/chat" "POST" (JObj without)) w)).
Proof.
  intros Hmsgs Ht He i messages without request.
  assert (Hchat : related same_but_stdout (_chat env payload) (_chat env without)).
  { eapply (@Related.related_chat same_but_stdout ChatImageProps.quiet_print env
              (@ChatImageProps.quiet_get_client env)
              (@ChatImageProps.quiet_generate env)
              payload without);
      [exact Hmsgs | apply ChatImageProps.dict_get_set_same
       | symmetry; apply ChatImageProps.dict_get_set_other; discriminate |].
    apply Forall2_app; [apply Related.alike_refl; exact ChatImageProps.quiet_print|].
    constructor; [|apply Related.alike_refl; exact ChatImageProps.quiet_print].
    intros j. apply (@ChatImageProps.chat_message_undecodable env j msg e); assumption. }
  split; [|split; [|split; [|split; [|split]]]].
  - intros system_prompt Hmsg Hbefore Hafter Hprompt Hclient. cbv zeta.
    assert (Hread : Forall readable_message messages).
    { apply Forall_app. split; [exact Hbefore|]. constructor; assumption. }
    destruct (ConversationProps.chat_exact env payload messages system_prompt w
                Hmsgs Hread Hprompt Hclient) as (c & Hrun).
    cbv zeta in Hrun.
    destruct (undecodable_turn env i msg e Ht He) as [Hturn Hlines].
    assert (Hconv : conversation env messages
                    = conversation env before
                      ++ (if str_nonempty (turn_text env msg)
                          then [Build_Content (turn_role env msg)
                                  [Part_from_text (turn_text env msg)]]
                          else [])
                      ++ conversation env after).
    { unfold messages, conversation. rewrite flat_map_app.
      cbn [flat_map]. rewrite Hturn. reflexivity. }
    assert (Hlns : conversation_lines env 0 messages
                   = conversation_lines env 0 before
                     ++ (DebugMessage i (turn_role env msg)
                           (str_nonempty (turn_text env msg)) true
                         :: WarningDecode i e
                         :: (if str_nonempty (turn_text env msg)
                             then [DebugAdding 1 (turn_role env msg)] else []))
                     ++ conversation_lines env (S i) after).
    { unfold messages. rewrite ConversationProps.conversation_lines_app.
      cbn [conversation_lines Nat.add]. fold i. rewrite Hlines. reflexivity. }
    rewrite Hconv, Hlns in Hrun. rewrite Hrun. cbn [fst snd trace stdout].
    split; [reflexivity|]. split; [reflexivity|].
    split; [rewrite <- !app_assoc; reflexivity|].
    intros data Hdata. rewrite Hdata in Hrun.
    unfold request.
    rewrite (ConversationProps.chat_succeeds_at_once env payload data w _ Hrun).
    split; reflexivity.
  - intros w0. apply ChatImageProps.chat_image_parts_undecodable; assumption.
  - apply (Hchat w w (ChatImageProps.quiet_refl w)).
  - apply (Hchat w w (ChatImageProps.quiet_refl w)).
  - apply (@Related.related_handle_chat same_but_stdout ChatImageProps.quiet_print
             ChatImageProps.quiet_sleep env payload without Hchat w w
             (ChatImageProps.quiet_refl w)).
  - apply (@Related.related_handle_chat same_but_stdout ChatImageProps.quiet_print
             ChatImageProps.quiet_sleep env payload without Hchat w w
             (ChatImageProps.quiet_refl w)).
Qed.

End ImageDropProps.

(** * Response envelopes *)

Module EnvelopeProps.

(** An operation that raises [e] before doing anything is answered by
    the class of [e], after the retries. *)
Lemma pure_failure_response (env : Env) (p : string) (payload : dict) (e : exn)
      (w : World) :
  (p = "/analyze" /\ (forall w0, _analyze env payload w0 = (Err e, w0)) \/
   p = "/chat" /\ (forall w0, _chat env payload w0 = (Err e, w0))) ->
  fst (handle env (Build_Request p "POST" (JObj payload)) w) = failure_response e.
Proof.
  intros [[-> Hf] | [-> Hf]]; unfold handle, route;
    cbn -[_call_with_retry _error_response]; unfold bind;
    rewrite (DispatchProps.call_with_retry_pure_failure _ Hf);
    unfold failure_response; destruct (is_ValueError e); reflexivity.
Qed.

(** A chat request on readable messages whose every remote call
    raises [e] is answered by the class of [e]. *)
Lemma chat_request_fails_with (env : Env) (payload : dict) (messages : list json)
      (system_prompt : string) (e : exn) (w : World) :
  dict_get payload "messages" = JList messages ->
  Forall readable_message messages ->
  build_chat_prompt env []
    (if truthy (dict_get payload "plant_context")
     then dict_get payload "plant_context" else JObj [])
  = Ok system_prompt ->
  client_available env w ->
  remote_raises env e ->
  fst (handle env (Build_Request "/chat" "POST" (JObj payload)) w)
  = failure_response e.
Proof.
  intros Hmsgs Hread Hprompt Hclient Hdown.
  destruct (@RetryProps.call_with_retry_fails_under _ (client_available env)
              (_chat env payload) e) with (n := 2%nat) (w := w)
    as (w' & Hrun & _).
  - intros w0 Hc0.
    destruct (ConversationProps.chat_exact env payload messages system_prompt w0
                Hmsgs Hread Hprompt Hc0) as (c & Hchat).
    cbv zeta in Hchat. unfold answer_of in Hchat. rewrite Hdown in Hchat.
    eexists. split; [exact Hchat|]. left. exists c. reflexivity.
  - intros d w0 Hc0. exact Hc0.
  - exact Hclient.
  - unfold handle, route. cbn -[_call_with_retry _chat _error_response].
    unfold bind. change (Z.of_nat 2) with 2 in Hrun. rewrite Hrun.
    unfold failure_response. destruct (is_ValueError e); reflexivity.
Qed.

(** A chat request with a message the loop cannot read ends in an
    [AttributeError]. *)
Lemma malformed_message_response (env : Env) (payload : dict)
      (messages : list json) (system_prompt : string) (w : World) :
  dict_get payload "messages" = JList messages ->
  Exists malformed_message messages ->
  build_chat_prompt env []
    (if truthy (dict_get payload "plant_context")
     then dict_get payload "plant_context" else JObj [])
  = Ok system_prompt ->
  client_available env w ->
  fst (handle env (Build_Request "/chat" "POST" (JObj payload)) w)
  = _error_response "gemini_failed" "Gemini request failed. Please retry." 502.
Proof.
  intros Hmsgs Hbad Hprompt Hclient.
  apply ChatMore.chat_quiet_failure_is_502; [|exact Hclient].
  intros w0 Hc0.
  destruct (ChatMore.chat_attempt_prefix env payload messages w0 Hmsgs Hc0)
    as (c & ->).
  rewrite Hprompt. unfold bind at 1. unfold lift at 1. unfold bind at 1.
  match goal with
  | |- context [chat_messages env 0 messages ?c0 ?w1] =>
      destruct (ChatMore.chat_messages_malformed env messages Hbad 0%nat c0 w1)
        as (e & w' & Hrun & Hclass & Hsame)
  end.
  rewrite Hrun. exists e, w'. split; [reflexivity|].
  split; [unfold is_ValueError; rewrite Hclass; reflexivity|].
  destruct Hsame as (_ & Hk & _ & Ht). cbn [print_line _client trace] in Hk, Ht.
  split; [left; exists c; symmetry; exact Hk | symmetry; exact Ht].
Qed.

Lemma failure_response_cases (e : exn) (r : HttpResponse) :
  r = failure_response e ->
  (is_ValueError e = true ->
     status r = 400 /\ body r = error_body "bad_request" (exn_str e)) /\
  (is_ValueError e = false ->
     status r = 502 /\
     body r = error_body "gemini_failed" "Gemini request failed. Please retry.").
Proof.
  intros ->. unfold failure_response.
  split; intros ->; split; reflexivity.
Qed.

(** C7, as the code has it.  A request that is not a POST gets status
    405 with a body that has the [error] field only.  Every other
    failure has the body [{error, message, retryable: true}], with
    status 400, 404 or 502: 400 [invalid_json] for a body that is not
    a JSON object, 404 [not_found] for an unknown route, and for an
    operation that ends in an exception the class of the exception
    decides, 400 [bad_request] with its text for a [ValueError] and
    502 [gemini_failed] for anything else.  So a validation check
    that raises a [ValueError] (image missing, image not base64,
    image too large, messages not a list) is answered 400, an image
    whose decoding raises something else (a [TypeError], for a value
    that is not a string) is answered 502, and a remote collaborator
    that raises at every attempt is answered 502 unless what it
    raises is a [ValueError], which is answered 400; a chat message
    that is not an object, or whose [role] or [content] is not a
    string, raises an [AttributeError] and is answered 502. *)
Theorem failure_envelope (env : Env) (request : Request) (w : World) :
  let r := fst (handle env request w) in
  (method request <> "POST" ->
     status r = 405 /\ body r = method_not_allowed_body) /\
  (method request = "POST" ->
     (forall payload, get_json request <> JObj payload) ->
     status r = 400 /\
     body r = error_body "invalid_json" "Request body must be JSON") /\
  (forall payload,
      method request = "POST" -> get_json request = JObj payload ->
      path request <> "/analyze" -> path request <> "/chat" ->
      status r = 404 /\ body r = error_body "not_found" "Unknown endpoint") /\
  (forall payload func e w',
      method request = "POST" -> get_json request = JObj payload ->
      (path request = "/analyze" /\ func = _analyze env payload \/
       path request = "/chat" /\ func = _chat env payload) ->
      _call_with_retry func 2 w = (Err e, w') ->
      (is_ValueError e = true ->
         status r = 400 /\ body r = error_body "bad_request" (exn_str e)) /\
      (is_ValueError e = false ->
         status r = 502 /\
         body r = error_body "gemini_failed" "Gemini request failed. Please retry.")) /\
  (status r <> 200 -> status r <> 405 ->
     In (status r) [400; 404; 502] /\
     exists code message, body r = error_body code message) /\
  (forall payload e,
      method request = "POST" -> get_json request = JObj payload ->
      validation_failure env (path request) payload e ->
      status r = 400 /\ body r = error_body "bad_request" (exn_str e)) /\
  (forall payload e,
      method request = "POST" -> get_json request = JObj payload ->
      path request = "/analyze" ->
      truthy (dict_get payload "image_base64") = true ->
      b64decode env (dict_get payload "image_base64") = Err e ->
      is_ValueError e = false ->
      status r = 502 /\
      body r = error_body "gemini_failed" "Gemini request failed. Please retry.") /\
  (forall payload image_bytes e,
      method request = "POST" -> get_json request = JObj payload ->
      path request = "/analyze" ->
      truthy (dict_get payload "image_base64") = true ->
      b64decode env (dict_get payload "image_base64") = Ok image_bytes ->
      (forall w0, check_max_bytes env image_bytes w0 = (Ok tt, w0)) ->
      analyze_ready env image_bytes w ->
      remote_raises env e ->
      (is_ValueError e = true ->
         status r = 400 /\ body r = error_body "bad_request" (exn_str e)) /\
      (is_ValueError e = false ->
         status r = 502 /\
         body r = error_body "gemini_failed" "Gemini request failed. Please retry.")) /\
  (forall payload messages system_prompt e,
      method request = "POST" -> get_json request = JObj payload ->
      path request = "/chat" ->
      dict_get payload "messages" = JList messages ->
      Forall readable_message messages ->
      build_chat_prompt env []
        (if truthy (dict_get payload "plant_context")
         then dict_get payload "plant_context" else JObj [])
      = Ok system_prompt ->
      client_available env w ->
      remote_raises env e ->
      (is_ValueError e = true ->
         status r = 400 /\ body r = error_body "bad_request" (exn_str e)) /\
      (is_ValueError e = false ->
         status r = 502 /\
         body r = error_body "gemini_failed" "Gemini request failed. Please retry.")) /\
  (forall payload messages system_prompt,
      method request = "POST" -> get_json request = JObj payload ->
      path request = "/chat" ->
      dict_get payload "messages" = JList messages ->
      Exists malformed_message messages ->
      build_chat_prompt env []
        (if truthy (dict_get payload "plant_context")
         then dict_get payload "plant_context" else JObj [])
      = Ok system_prompt ->
      client_available env w ->
      status r = 502 /\
      body r = error_body "gemini_failed" "Gemini request failed. Please retry.").
Proof.
  cbv zeta.
  assert (Hpath : forall p, p <> "" ->
             (if str_nonempty p then p else "/") = p).
  { intros p Hp. unfold str_nonempty.
    destruct (String.eqb_spec p ""); [contradiction | reflexivity]. }
  assert (Hreq : forall p payload,
             method request = "POST" -> get_json request = JObj payload ->
             path request = p ->
             request = Build_Request p "POST" (JObj payload)).
  { intros p payload Hm Hj Hp. destruct request as [p0 m0 j0].
    cbn in Hm, Hj, Hp. subst. reflexivity. }
  split; [|split; [|split; [|split; [|split; [|split; [|split; [|split; [|split]]]]]]]].
  - intros Hm. unfold handle.
    destruct (String.eqb_spec (method request) "POST"); [contradiction|].
    split; reflexivity.
  - intros Hm Hj. unfold handle. rewrite Hm, String.eqb_refl. cbn [negb].
    destruct (get_json request) eqn:E; try (split; reflexivity).
    exfalso. eapply Hj. reflexivity.
  - intros payload Hm Hj Ha Hc. unfold handle. rewrite Hm, String.eqb_refl, Hj.
    cbn [negb]. unfold route.
    assert (Ha' : String.eqb (if str_nonempty (path request)
                              then path request else "/") "/analyze" = false).
    { apply String.eqb_neq. unfold str_nonempty.
      destruct (String.eqb (path request) ""); cbn [negb]; [discriminate | exact Ha]. }
    assert (Hc' : String.eqb (if str_nonempty (path request)
                              then path request else "/") "/chat" = false).
    { apply String.eqb_neq. unfold str_nonempty.
      destruct (String.eqb (path request) ""); cbn [negb]; [discriminate | exact Hc]. }
    rewrite Ha', Hc'. split; reflexivity.
  - intros payload func e w' Hm Hj Hp Hrun.
    unfold handle. rewrite Hm, String.eqb_refl, Hj. cbn [negb].
    assert (Hroute : route env (if str_nonempty (path request)
                                then path request else "/") payload w
                     = (Err e, w')).
    { destruct Hp as [[Hp ->] | [Hp ->]]; rewrite Hp; unfold route;
        cbn -[_call_with_retry]; unfold bind; rewrite Hrun; reflexivity. }
    rewrite Hroute.
    split; intros ->; split; reflexivity.
  - intros H200 H405. unfold handle in *.
    destruct (negb (String.eqb (method request) "POST")).
    + exfalso. apply H405. reflexivity.
    + destruct (get_json request) as [ | | | | |payload];
        try (split; [simpl; tauto | eexists; eexists; reflexivity]).
      destruct (route env _ payload w) as [[resp|e] w1] eqn:Hroute.
      * unfold route in Hroute.
        destruct (String.eqb _ "/analyze").
        { unfold bind, ret in Hroute.
          destruct (_call_with_retry _ 2 w) as [[d|e] w2];
            inversion Hroute; subst. exfalso. apply H200. reflexivity. }
        destruct (String.eqb _ "/chat").
        { unfold bind, ret in Hroute.
          destruct (_call_with_retry _ 2 w) as [[d|e] w2];
            inversion Hroute; subst. exfalso. apply H200. reflexivity. }
        inversion Hroute; subst.
        split; [simpl; tauto | eexists; eexists; reflexivity].
      * destruct (is_ValueError e);
          (split; [simpl; tauto | eexists; eexists; reflexivity]).
  - intros payload e Hm Hj Hv.
    destruct (DispatchProps.validation_failure_raises Hv) as [He Hcase].
    assert (Hp : path request = "/analyze" \/ path request = "/chat")
      by (destruct Hcase as [[Hp _] | [Hp _]]; [left | right]; exact Hp).
    assert (Hresp : fst (handle env request w) = failure_response e).
    { destruct Hcase as [[Hp' Hf] | [Hp' Hf]];
        rewrite (Hreq _ payload Hm Hj Hp');
        apply pure_failure_response; [left | right]; split;
          (reflexivity || exact Hf). }
    destruct (failure_response_cases e _ Hresp) as [H400 _]. exact (H400 He).
  - intros payload e Hm Hj Hp Ht Hd He.
    assert (Hf : forall w0, _analyze env payload w0 = (Err e, w0)).
    { intros w0. unfold _analyze. rewrite Ht, Hd. reflexivity. }
    assert (Hresp : fst (handle env request w) = failure_response e).
    { rewrite (Hreq _ payload Hm Hj Hp).
      apply pure_failure_response. left. split; [reflexivity | exact Hf]. }
    destruct (failure_response_cases e _ Hresp) as [_ H502]. exact (H502 He).
  - intros payload image_bytes e Hm Hj Hp Ht Hd Hsize Hready Hdown.
    apply (failure_response_cases e).
    rewrite (Hreq _ payload Hm Hj Hp).
    destruct (AnalyzeMore.analyze_request_fails_with env payload image_bytes
                Ht Hd Hsize e w) as [Hresp _]; [|exact Hready|exact Hresp].
    intros history model contents. rewrite Hdown. reflexivity.
  - intros payload messages system_prompt e Hm Hj Hp Hmsgs Hread Hprompt Hclient
           Hdown.
    apply (failure_response_cases e).
    rewrite (Hreq _ payload Hm Hj Hp).
    apply (chat_request_fails_with env payload messages system_prompt e w);
      assumption.
  - intros payload messages system_prompt Hm Hj Hp Hmsgs Hbad Hprompt Hclient.
    rewrite (Hreq _ payload Hm Hj Hp).
    rewrite (malformed_message_response env payload messages system_prompt w
               Hmsgs Hbad Hprompt Hclient).
    split; reflexivity.
Qed.

End EnvelopeProps.

(** * Further runs *)

Module RunsMore.

Lemma set_then_get_run :
  exists self',
    LRUCache.set (LRUCache.__init__ 2 3600) "k" (JObj []) 1 = (Ok tt, self') /\
    LRUCache.get self' "k" 5 = (Some (JObj []), self').
Proof.
  apply (@CacheMore.set_then_get (LRUCache.__init__ 2 3600) "k" (JObj []) 1%Q 5%Q).
  - simpl. lia.
  - constructor.
  - unfold Qle. simpl. lia.
Defined.

Lemma reachable_keys_unique_run :
  exists states,
    LRUCache.run (LRUCache.__init__ 2 3600)
      [LRUCache.Set_ "a" (JObj []) 1; LRUCache.Get "a" 2;
       LRUCache.Set_ "a" (JObj []) 3; LRUCache.Set_ "b" (JObj []) 4] = Ok states /\
    Forall (fun c => NoDup (LRUCache.keys c)) states.
Proof.
  assert (Hrun : exists states,
             LRUCache.run (LRUCache.__init__ 2 3600)
               [LRUCache.Set_ "a" (JObj []) 1; LRUCache.Get "a" 2;
                LRUCache.Set_ "a" (JObj []) 3; LRUCache.Set_ "b" (JObj []) 4]
             = Ok states) by (eexists; reflexivity).
  destruct Hrun as [states Hrun]. exists states. split; [exact Hrun|].
  apply (@CacheMore.reachable_keys_unique (LRUCache.__init__ 2 3600)
           [LRUCache.Set_ "a" (JObj []) 1; LRUCache.Get "a" 2;
            LRUCache.Set_ "a" (JObj []) 3; LRUCache.Set_ "b" (JObj []) 4] states);
    [constructor | exact Hrun].
Defined.

Lemma set_overwrites_run :
  exists self',
    LRUCache.set Samples.two_entries "a" (JObj [("status", JStr "healthy")]) 3
    = (Ok tt, self') /\
    LRUCache._cache self'
    = OrderedDict.remove "a" (LRUCache._cache Samples.two_entries)
      ++ [("a", (JObj [("status", JStr "healthy")], 3%Q))] /\
    LRUCache.size self' = LRUCache.size Samples.two_entries.
Proof.
  apply (@CacheMore.set_overwrites Samples.two_entries "a"
           (JObj [("status", JStr "healthy")]) 3%Q (JObj [], 1%Q)).
  - simpl. lia.
  - repeat constructor; simpl; intuition discriminate.
  - vm_compute. discriminate.
  - reflexivity.
Defined.

Lemma set_new_key_run :
  LRUCache.set Samples.two_entries "c" (JObj []) 3
  = (Ok tt, LRUCache.with_cache Samples.two_entries
              ([("b", (JObj [], 2%Q))] ++ [("c", (JObj [], 3%Q))])).
Proof.
  assert (Hpos : 0 < LRUCache._max_size Samples.two_entries) by (simpl; lia).
  assert (Hnd : NoDup (LRUCache.keys Samples.two_entries))
    by (repeat constructor; simpl; intuition discriminate).
  destruct (@CacheMore.set_new_key Samples.two_entries "c" (JObj []) 3%Q
              Hpos Hnd eq_refl) as [_ Hfull].
  apply (Hfull ("a", (JObj [], 1%Q)) [("b", (JObj [], 2%Q))]); reflexivity.
Defined.

Lemma other_keys_untouched_run :
  "a" <> "b" /\
  forall now,
    OrderedDict.lookup "b"
      (LRUCache._cache (snd (LRUCache.get Samples.two_entries "a" now)))
    = OrderedDict.lookup "b" (LRUCache._cache Samples.two_entries).
Proof.
  assert (Hne : "a" <> "b") by discriminate.
  split; [exact Hne|].
  destruct (@CacheMore.other_keys_untouched Samples.two_entries "a" "b" Hne)
    as [Hget _].
  exact Hget.
Defined.

Lemma hit_does_not_refresh_run :
  exists self1 self2,
    FloatLRUCache.get Samples.two_entries "a" 3000 = (Some (JObj []), self1) /\
    OrderedDict.lookup "a" (LRUCache._cache self1) = Some (JObj [], 1%Q) /\
    FloatLRUCache.get self1 "a" 3700 = (None, self2) /\
    OrderedDict.lookup "a" (LRUCache._cache self2) = None.
Proof.
  apply (ExpiryProps.hit_does_not_refresh Samples.two_entries "a" (JObj [])
           1%Q 3000%Q 3700%Q).
  - repeat constructor; simpl; intuition discriminate.
  - reflexivity.
  - vm_compute. reflexivity.
  - vm_compute. reflexivity.
Defined.

Lemma set_without_capacity_run :
  LRUCache._max_size (LRUCache.__init__ 0 3600) <= 0 /\
  LRUCache._cache (snd (LRUCache.set (LRUCache.__init__ 0 3600) "k" (JObj []) 1)) = [] /\
  fst (LRUCache.set (LRUCache.__init__ 0 3600) "k" (JObj []) 1) = Ok tt.
Proof.
  assert (Hmax : LRUCache._max_size (LRUCache.__init__ 0 3600) <= 0)
    by (simpl; lia).
  destruct (@CacheMore.set_without_capacity (LRUCache.__init__ 0 3600) "k"
              (JObj []) 1%Q Hmax) as (Hempty & Hzero & _).
  split; [exact Hmax|]. split; [exact Hempty | apply Hzero; reflexivity].
Defined.

Lemma call_with_retry_negative_run :
  _call_with_retry Demo.failing_call (-1) Demo.start
  = (Err (Exn RuntimeError "unreachable"), Demo.start).
Proof.
  apply (@RetryMore.call_with_retry_negative json Demo.failing_call (-1) Demo.start).
  lia.
Defined.

Lemma total_backoff_run :
  (clock (snd (_call_with_retry Samples.quiet (Z.of_nat 2) Demo.start))
   == clock Demo.start + (24 # 10))%Q.
Proof.
  destruct (@RetryMore.total_backoff json Samples.quiet 2%nat Demo.start)
    as [_ Htwo].
  - intros w'. eexists. reflexivity.
  - intros w'. reflexivity.
  - apply Htwo. reflexivity.
Defined.

Lemma extract_json_strips_surroundings_run :
  _extract_json (Demo.env None Demo.down)
                (Some ("Here you go: " ++ "{" ++ "" ++ "}" ++ " Anything else?"))%string
  = json_loads (Demo.env None Demo.down) ("{" ++ "" ++ "}")%string.
Proof.
  apply (@ExtractMore.extract_json_strips_surroundings (Demo.env None Demo.down)
           "Here you go: " "" " Anything else?"); reflexivity.
Defined.

Lemma extract_json_without_object_run :
  _extract_json (Demo.env None Demo.down) (Some ("} first, " ++ "{ second"))%string
  = Err V_no_json.
Proof.
  apply (@ExtractMore.extract_json_without_object (Demo.env None Demo.down)
           "} first, " "{ second"); reflexivity.
Defined.

Lemma get_client_reuses_run :
  exists c w',
    _get_client (Demo.env None Demo.down) Demo.start = (Ok c, w') /\
    _get_client Samples.no_key_env w' = (Ok c, w').
Proof.
  assert (Hget : exists c w',
             _get_client (Demo.env None Demo.down) Demo.start = (Ok c, w'))
    by (eexists; eexists; reflexivity).
  destruct Hget as (c & w' & Hget). exists c, w'. split; [exact Hget|].
  destruct (DispatchMore.get_client_reuses (Demo.env None Demo.down) Demo.start
              w' c Hget) as [_ Hagain].
  apply Hagain.
Defined.

Lemma missing_api_key_is_502_run :
  no_api_key Samples.no_key_env /\
  fst (handle Samples.no_key_env
              (Build_Request "/chat" "POST" (JObj [("messages", JList [])]))
              Demo.start)
  = _error_response "gemini_failed" "Gemini request failed. Please retry." 502.
Proof.
  assert (Hkey : no_api_key Samples.no_key_env) by (left; reflexivity).
  split; [exact Hkey|].
  destruct (DispatchMore.missing_api_key_is_502 Samples.no_key_env
              [("messages", JList [])] Demo.start eq_refl Hkey) as [_ Hchat].
  rewrite (Hchat [] eq_refl). reflexivity.
Defined.

Lemma remote_error_classified_run :
  let env := Demo.env None Demo.down in
  let out := handle env (Build_Request "/analyze" "POST" (JObj Samples.image_payload))
                    Demo.start in
  fst out
  = _error_response "gemini_failed" "Gemini request failed. Please retry." 502 /\
  trace (snd out)
  = trace Demo.start
    ++ [analyze_call env Samples.image_payload [x41]; EvSleep initial_delay;
        analyze_call env Samples.image_payload [x41];
        EvSleep (initial_delay * 2)%Q;
        analyze_call env Samples.image_payload [x41]].
Proof.
  cbv zeta.
  assert (Hready : analyze_ready (Demo.env None Demo.down) [x41] Demo.start).
  { split; [reflexivity|]. right. exists "key". split; reflexivity. }
  destruct (AnalyzeMore.remote_error_classified (Demo.env None Demo.down)
              Samples.image_payload [x41] (Exn ProviderError "503 UNAVAILABLE")
              Demo.start eq_refl eq_refl (fun w0 => eq_refl) Hready
              (fun _ _ _ => eq_refl)) as (Htrace & Hother & _).
  split; [apply Hother; reflexivity | exact Htrace].
Defined.

Lemma none_text_is_502_run :
  let env := Demo.env None Samples.answers_none in
  let out := handle env (Build_Request "/analyze" "POST" (JObj Samples.image_payload))
                    Demo.start in
  text_is_none Samples.none_response /\
  fst out
  = _error_response "gemini_failed" "Gemini request failed. Please retry." 502 /\
  generate_count (trace (snd out)) = (generate_count (trace Demo.start) + 3)%nat.
Proof.
  cbv zeta.
  assert (Hnone : text_is_none Samples.none_response)
    by (split; [left; reflexivity | reflexivity]).
  assert (Hready : analyze_ready (Demo.env None Samples.answers_none) [x41]
                                 Demo.start).
  { split; [reflexivity|]. right. exists "key". split; reflexivity. }
  split; [exact Hnone|].
  apply (AnalyzeMore.none_text_is_502 (Demo.env None Samples.answers_none)
           Samples.image_payload [x41] Demo.start eq_refl eq_refl
           (fun w0 => eq_refl) Hready).
  intros history model contents. exists Samples.none_response, 1%Q.
  split; [reflexivity | exact Hnone].
Defined.

Lemma unparsable_answer_is_400_run :
  let env := Demo.env None (Demo.answers "{oops}") in
  let out := handle env (Build_Request "/analyze" "POST" (JObj Samples.image_payload))
                    Demo.start in
  fst out
  = _error_response "bad_request"
      "Expecting property name enclosed in double quotes: line 1 column 2 (char 1)"
      400 /\
  generate_count (trace (snd out)) = (generate_count (trace Demo.start) + 3)%nat.
Proof.
  cbv zeta.
  assert (Hready : analyze_ready (Demo.env None (Demo.answers "{oops}")) [x41]
                                 Demo.start).
  { split; [reflexivity|]. right. exists "key". split; reflexivity. }
  apply (AnalyzeMore.unparsable_answer_is_400 (Demo.env None (Demo.answers "{oops}"))
           Samples.image_payload [x41] "" "oops" ""
           (Exn JSONDecodeError
                "Expecting property name enclosed in double quotes: line 1 column 2 (char 1)")
           Demo.start
           eq_refl eq_refl (fun w0 => eq_refl) Hready eq_refl eq_refl eq_refl
           eq_refl).
  intros history model contents. exists (Demo.text_response "{oops}"), 1%Q.
  split; reflexivity.
Defined.

Lemma analyze_miss_then_hit_run :
  let env := Demo.env None (Demo.answers Demo.healthy_text) in
  let data := JObj [("status", JStr "healthy")] in
  let w1 := snd (_analyze env Samples.image_payload Demo.start) in
  _analyze env Samples.image_payload Demo.start = (Ok data, w1) /\
  fst (handle env (Build_Request "/analyze" "POST" (JObj Samples.question_payload))
              w1)
  = _json_response data 200 /\
  trace (snd (handle env (Build_Request "/analyze" "POST"
                                        (JObj Samples.question_payload)) w1))
  = trace w1.
Proof.
  cbv zeta.
  assert (Hrun : _analyze (Demo.env None (Demo.answers Demo.healthy_text))
                          Samples.image_payload Demo.start
                 = (Ok (JObj [("status", JStr "healthy")]),
                    snd (_analyze (Demo.env None (Demo.answers Demo.healthy_text))
                                  Samples.image_payload Demo.start)))
    by reflexivity.
  split; [exact Hrun|].
  assert (Hpos : 0 < LRUCache._max_size (_analysis_cache Demo.start))
    by (simpl; lia).
  destruct (AnalyzeMore.analyze_miss_then_hit
              (Demo.env None (Demo.answers Demo.healthy_text))
              Samples.image_payload Samples.question_payload [x41]
              (JObj [("status", JStr "healthy")]) Demo.start _
              Hpos (NoDup_nil _) eq_refl eq_refl Hrun eq_refl eq_refl eq_refl)
    as [_ Hhit].
  apply Hhit; [reflexivity|].
  vm_compute. discriminate.
Defined.

Lemma failed_analyze_adds_no_entry_run :
  exists e w',
    _analyze (Demo.env None Demo.down) Samples.image_payload Demo.start = (Err e, w') /\
    incl (LRUCache.keys (_analysis_cache w')) (LRUCache.keys (_analysis_cache Demo.start)).
Proof.
  assert (Hrun : exists e w',
             _analyze (Demo.env None Demo.down) Samples.image_payload Demo.start
             = (Err e, w')) by (eexists; eexists; vm_compute; reflexivity).
  destruct Hrun as (e & w' & Hrun). exists e, w'. split; [exact Hrun|].
  apply (AnalyzeMore.failed_analyze_adds_no_entry (Demo.env None Demo.down)
           Samples.image_payload e Demo.start w' Hrun).
Defined.

Lemma analyze_without_capacity_run :
  let env := Samples.no_cache_env (Demo.answers Demo.healthy_text) in
  let out := handle env (Build_Request "/analyze" "POST" (JObj Samples.image_payload))
                    (startup env 0) in
  always_answers_json env /\
  status (fst out) = 200 /\
  LRUCache._cache (_analysis_cache (snd out)) = [] /\
  generate_count (trace (snd out)) = (generate_count (trace (startup env 0)) + 1)%nat.
Proof.
  cbv zeta.
  assert (Hremote : always_answers_json
                      (Samples.no_cache_env (Demo.answers Demo.healthy_text))).
  { intros history model contents.
    exists (Demo.text_response Demo.healthy_text), 1%Q,
           (JObj [("status", JStr "healthy")]).
    split; reflexivity. }
  assert (Hready : analyze_ready
                     (Samples.no_cache_env (Demo.answers Demo.healthy_text)) [x41]
                     (startup (Samples.no_cache_env (Demo.answers Demo.healthy_text)) 0)).
  { split; [reflexivity|]. right. exists "key". split; reflexivity. }
  split; [exact Hremote|].
  destruct (AnalyzeMore.analyze_without_capacity
              (Samples.no_cache_env (Demo.answers Demo.healthy_text))
              Samples.image_payload [x41]
              (startup (Samples.no_cache_env (Demo.answers Demo.healthy_text)) 0)
              eq_refl eq_refl (fun w0 => eq_refl) Hremote Hready) as [Hzero _].
  apply Hzero. reflexivity.
Defined.

Lemma malformed_message_is_502_run :
  let env := Demo.env None (Demo.answers Demo.healthy_text) in
  let payload := [("messages", JList [JStr "hello"])] in
  let out := handle env (Build_Request "/chat" "POST" (JObj payload)) Demo.start in
  Exists malformed_message [JStr "hello"] /\
  fst out
  = _error_response "gemini_failed" "Gemini request failed. Please retry." 502 /\
  trace (snd out)
  = trace Demo.start ++ [EvSleep initial_delay; EvSleep (initial_delay * 2)%Q].
Proof.
  cbv zeta.
  assert (Hbad : Exists malformed_message [JStr "hello"]).
  { constructor. left. intros d H. discriminate H. }
  split; [exact Hbad|].
  apply (ChatMore.malformed_message_is_502
           (Demo.env None (Demo.answers Demo.healthy_text))
           [("messages", JList [JStr "hello"])] [JStr "hello"]
           "You are a plant care assistant." Demo.start eq_refl Hbad eq_refl).
  right. exists "key". split; reflexivity.
Defined.

Lemma analyze_prompt_reads_six_keys_run :
  ~ In "image_base64" analyze_prompt_keys /\
  Prompts.build_analyze_prompt Samples.str_of
    (dict_set Samples.question_payload "image_base64" (JStr "QUJD"))
  = Prompts.build_analyze_prompt Samples.str_of Samples.question_payload.
Proof.
  assert (Hkey : ~ In "image_base64" analyze_prompt_keys)
    by (unfold analyze_prompt_keys; simpl; intuition discriminate).
  split; [exact Hkey|].
  apply (PromptsMore.analyze_prompt_reads_six_keys Samples.str_of
           Samples.question_payload "image_base64" (JStr "QUJD") Hkey).
Defined.

Lemma analyze_missing_field_is_unknown_run :
  Prompts.build_analyze_prompt Samples.str_of
    (dict_set Samples.image_payload "plant_name" (JStr "Unknown"))
  = Prompts.build_analyze_prompt Samples.str_of Samples.image_payload.
Proof.
  apply (PromptsMore.analyze_missing_field_is_unknown Samples.str_of
           Samples.image_payload "plant_name").
  - left. reflexivity.
  - reflexivity.
Defined.

Lemma chat_context_not_object_is_502_run :
  let env := Prompts.install Samples.str_of
               (Demo.env None (Demo.answers Demo.healthy_text)) in
  let payload := [("messages", JList []); ("plant_context", JStr "ficus")] in
  let out := handle env (Build_Request "/chat" "POST" (JObj payload)) Demo.start in
  fst out
  = _error_response "gemini_failed" "Gemini request failed. Please retry." 502 /\
  trace (snd out)
  = trace Demo.start ++ [EvSleep initial_delay; EvSleep (initial_delay * 2)%Q].
Proof.
  cbv zeta.
  apply (PromptsMore.chat_context_not_object_is_502 Samples.str_of
           (Demo.env None (Demo.answers Demo.healthy_text))
           [("messages", JList []); ("plant_context", JStr "ficus")] []
           Demo.start eq_refl eq_refl).
  - intros d H. discriminate H.
  - right. exists "key". split; reflexivity.
Defined.

Lemma chat_prompt_skips_blank_messages_run :
  let env := Demo.env None Demo.down in
  let hello := JObj [("content", JStr "hello")] in
  blank_message env Samples.blank /\
  Prompts.build_chat_prompt Samples.str_of env ([hello] ++ Samples.blank :: [])
                            (JObj [])
  = Prompts.build_chat_prompt Samples.str_of env ([hello] ++ []) (JObj []).
Proof.
  cbv zeta.
  assert (Hblank : blank_message (Demo.env None Demo.down) Samples.blank).
  { exists [("role", JStr "user"); ("content", JStr "")], "user", "".
    repeat split; reflexivity. }
  split; [exact Hblank|].
  destruct (PromptsMore.chat_prompt_skips_blank_messages Samples.str_of
              (Demo.env None Demo.down) Samples.blank
              [JObj [("content", JStr "hello")]] [] [] Hblank) as [Hskip _].
  apply Hskip. discriminate.
Defined.

(** Runs for the expiry test in binary64. *)

Lemma cache_ttl_expiry_run :
  let value := JObj [("status", JStr "healthy")] in
  let self := snd (LRUCache.set (LRUCache.__init__ 100 3600) "k" value 10) in
  let removed := LRUCache.Build [] 100 3600 in
  NoDup (LRUCache.keys self) /\
  OrderedDict.lookup "k" (LRUCache._cache self) = Some (value, 10%Q) /\
  FloatLRUCache.get self "k" 3611 = (None, removed) /\
  FloatLRUCache.get removed "k" 3612 = (None, removed) /\
  FloatLRUCache.get self "k" (3610 + Qmake 1 (2 ^ 41)) = (None, removed) /\
  fst (FloatLRUCache.get self "k" 3610) = Some value.
Proof.
  cbv zeta.
  set (value := JObj [("status", JStr "healthy")]).
  set (self := snd (LRUCache.set (LRUCache.__init__ 100 3600) "k" value 10)).
  assert (Hnd : NoDup (LRUCache.keys self))
    by (repeat constructor; simpl; intuition).
  assert (Hlook : OrderedDict.lookup "k" (LRUCache._cache self) = Some (value, 10%Q))
    by reflexivity.
  split; [exact Hnd|]. split; [exact Hlook|].
  split; [|split; [|split]].
  - destruct (ExpiryProps.cache_ttl_expiry self "k" value 10%Q 3611%Q Hnd Hlook)
      as (_ & _ & _ & _ & Hlate & _).
    apply Hlate; [vm_compute; discriminate | vm_compute; discriminate].
  - destruct (ExpiryProps.cache_ttl_expiry self "k" value 10%Q 3611%Q Hnd Hlook)
      as (_ & [_ Hgone] & _).
    apply Hgone.
  - destruct (ExpiryProps.cache_ttl_expiry self "k" value 10%Q
                (3610 + Qmake 1 (2 ^ 41))%Q Hnd Hlook)
      as (_ & _ & Habove & _).
    apply (Habove (3600 + Qmake 1 (2 ^ 41))%Q);
      [vm_compute; reflexivity | vm_compute; reflexivity | vm_compute; discriminate].
  - destruct (ExpiryProps.cache_ttl_expiry self "k" value 10%Q 3610%Q Hnd Hlook)
      as (_ & _ & _ & _ & _ & Hearly).
    rewrite Hearly; [reflexivity | vm_compute; discriminate | vm_compute; discriminate].
Defined.

(** An entry stored at [0.3] with a TTL of 3600 seconds is still
    served at [3600.3], a reading strictly after the insertion time
    plus the TTL: the difference of the two floats is [3600.0]. *)
Lemma ttl_excess_lost_in_rounding :
  let value := JObj [("status", JStr "healthy")] in
  Binary64.is_double Samples.float_0_3 = true /\
  Binary64.is_double Samples.float_3600_3 = true /\
  OrderedDict.lookup "k" (LRUCache._cache Samples.stored_at_0_3)
  = Some (value, Samples.float_0_3) /\
  LRUCache._ttl_seconds Samples.stored_at_0_3 = 3600 /\
  (Samples.float_0_3 + inject_Z 3600 < Samples.float_3600_3)%Q /\
  FloatLRUCache.expired Samples.stored_at_0_3 Samples.float_0_3 Samples.float_3600_3
  = false /\
  fst (FloatLRUCache.get Samples.stored_at_0_3 "k" Samples.float_3600_3)
  = Some value.
Proof.
  cbv zeta. repeat split; vm_compute; reflexivity.
Qed.

(** Runs for the response envelopes. *)

Lemma failure_envelope_run :
  let env := Demo.env None Demo.down in
  let answer request := fst (handle env request Demo.start) in
  (status (answer (Build_Request "/analyze" "GET" (JObj []))) = 405 /\
   body (answer (Build_Request "/analyze" "GET" (JObj []))) = method_not_allowed_body) /\
  (status (answer (Build_Request "/analyze" "POST" JNull)) = 400 /\
   body (answer (Build_Request "/analyze" "POST" JNull))
   = error_body "invalid_json" "Request body must be JSON") /\
  (status (answer (Build_Request "/nowhere" "POST" (JObj []))) = 404 /\
   body (answer (Build_Request "/nowhere" "POST" (JObj [])))
   = error_body "not_found" "Unknown endpoint") /\
  (status (answer (Build_Request "/analyze" "POST" (JObj []))) = 400 /\
   body (answer (Build_Request "/analyze" "POST" (JObj [])))
   = error_body "bad_request" "image_base64 is required") /\
  (status (answer (Build_Request "/analyze" "POST"
                                 (JObj [("image_base64", JNum 123)]))) = 502 /\
   body (answer (Build_Request "/analyze" "POST" (JObj [("image_base64", JNum 123)])))
   = error_body "gemini_failed" "Gemini request failed. Please retry.") /\
  (status (answer (Build_Request "/analyze" "POST" (JObj Samples.image_payload)))
   = 502 /\
   body (answer (Build_Request "/analyze" "POST" (JObj Samples.image_payload)))
   = error_body "gemini_failed" "Gemini request failed. Please retry.") /\
  (status (fst (handle (Demo.env None Samples.confused)
                       (Build_Request "/chat" "POST"
                          (JObj [("messages", JList [Samples.blank])]))
                       Demo.start)) = 400 /\
   body (fst (handle (Demo.env None Samples.confused)
                     (Build_Request "/chat" "POST"
                        (JObj [("messages", JList [Samples.blank])]))
                     Demo.start))
   = error_body "bad_request" "unsupported response") /\
  (_call_with_retry (_chat env []) 2 Demo.start
   = (Err V_messages_not_list, snd (_call_with_retry (_chat env []) 2 Demo.start)) /\
   status (answer (Build_Request "/chat" "POST" (JObj []))) = 400 /\
   body (answer (Build_Request "/chat" "POST" (JObj [])))
   = error_body "bad_request" "messages must be a list") /\
  (In (status (answer (Build_Request "/chat" "POST" (JObj [])))) [400; 404; 502] /\
   exists code message,
     body (answer (Build_Request "/chat" "POST" (JObj [])))
     = error_body code message) /\
  (status (answer (Build_Request "/chat" "POST"
                                 (JObj [("messages", JList [JStr "hello"])]))) = 502 /\
   body (answer (Build_Request "/chat" "POST"
                               (JObj [("messages", JList [JStr "hello"])])))
   = error_body "gemini_failed" "Gemini request failed. Please retry.").
Proof.
  cbv zeta.
  split; [|split; [|split; [|split; [|split; [|split; [|split; [|split; [|split]]]]]]]].
  10:{ destruct (EnvelopeProps.failure_envelope (Demo.env None Demo.down)
                  (Build_Request "/chat" "POST"
                     (JObj [("messages", JList [JStr "hello"])])) Demo.start)
         as (_ & _ & _ & _ & _ & _ & _ & _ & _ & H).
       apply (H [("messages", JList [JStr "hello"])] [JStr "hello"]
                "You are a plant care assistant."); try reflexivity.
       - constructor. left. intros d E. discriminate E.
       - right. exists "key". split; reflexivity. }
  9:{ destruct (EnvelopeProps.failure_envelope (Demo.env None Demo.down)
                 (Build_Request "/chat" "POST" (JObj [])) Demo.start)
        as (_ & _ & _ & _ & H & _).
      apply H; vm_compute; discriminate. }
  8:{ assert (Hrun : _call_with_retry (_chat (Demo.env None Demo.down) []) 2 Demo.start
                     = (Err V_messages_not_list,
                        snd (_call_with_retry (_chat (Demo.env None Demo.down) []) 2
                               Demo.start))) by reflexivity.
      split; [exact Hrun|].
      destruct (EnvelopeProps.failure_envelope (Demo.env None Demo.down)
                 (Build_Request "/chat" "POST" (JObj [])) Demo.start)
        as (_ & _ & _ & H & _).
      destruct (H [] (_chat (Demo.env None Demo.down) []) V_messages_not_list _
                  eq_refl eq_refl (or_intror (conj eq_refl eq_refl)) Hrun)
        as [H400 _].
      apply H400. reflexivity. }
  - destruct (EnvelopeProps.failure_envelope (Demo.env None Demo.down)
                (Build_Request "/analyze" "GET" (JObj [])) Demo.start)
      as (H & _).
    apply H. discriminate.
  - destruct (EnvelopeProps.failure_envelope (Demo.env None Demo.down)
                (Build_Request "/analyze" "POST" JNull) Demo.start)
      as (_ & H & _).
    apply H; [reflexivity | intros payload E; discriminate E].
  - destruct (EnvelopeProps.failure_envelope (Demo.env None Demo.down)
                (Build_Request "/nowhere" "POST" (JObj [])) Demo.start)
      as (_ & _ & H & _).
    apply (H []); (reflexivity || discriminate).
  - destruct (EnvelopeProps.failure_envelope (Demo.env None Demo.down)
                (Build_Request "/analyze" "POST" (JObj [])) Demo.start)
      as (_ & _ & _ & _ & _ & H & _).
    apply (H [] V_image_required); [reflexivity | reflexivity|].
    apply VF_missing_image. reflexivity.
  - destruct (EnvelopeProps.failure_envelope (Demo.env None Demo.down)
                (Build_Request "/analyze" "POST" (JObj [("image_base64", JNum 123)]))
                Demo.start)
      as (_ & _ & _ & _ & _ & _ & H & _).
    apply (H [("image_base64", JNum 123)]
             (Exn TypeError
                "argument should be a bytes-like object or ASCII string, not 'int'"));
      reflexivity.
  - destruct (EnvelopeProps.failure_envelope (Demo.env None Demo.down)
                (Build_Request "/analyze" "POST" (JObj Samples.image_payload))
                Demo.start)
      as (_ & _ & _ & _ & _ & _ & _ & H & _).
    assert (Hready : analyze_ready (Demo.env None Demo.down) [x41] Demo.start).
    { split; [reflexivity|]. right. exists "key". split; reflexivity. }
    destruct (H Samples.image_payload [x41] (Exn ProviderError "503 UNAVAILABLE")
                eq_refl eq_refl eq_refl eq_refl eq_refl (fun w0 => eq_refl) Hready
                (fun _ _ _ => eq_refl))
      as [_ H502].
    apply H502. reflexivity.
  - destruct (EnvelopeProps.failure_envelope (Demo.env None Samples.confused)
                (Build_Request "/chat" "POST"
                   (JObj [("messages", JList [Samples.blank])]))
                Demo.start)
      as (_ & _ & _ & _ & _ & _ & _ & _ & H & _).
    assert (Hread : Forall readable_message [Samples.blank]).
    { constructor; [|constructor].
      exists [("role", JStr "user"); ("content", JStr "")], "user", "".
      repeat split; reflexivity. }
    assert (Hclient : client_available (Demo.env None Samples.confused) Demo.start).
    { right. exists "key". split; reflexivity. }
    destruct (H [("messages", JList [Samples.blank])] [Samples.blank]
                "You are a plant care assistant."
                (Exn ValueError "unsupported response")
                eq_refl eq_refl eq_refl eq_refl Hread eq_refl Hclient
                (fun _ _ _ => eq_refl))
      as [H400 _].
    apply H400. reflexivity.
Defined.

(** Four failures that are not answered as the envelope table says:
    the answer to a GET has the [error] field only; an image that is
    a number, not a string, fails validation and is answered 502,
    without any remote call; a remote collaborator that raises a
    [ValueError] is answered 400; a chat message that is a string,
    not an object, is answered 502, without any remote call. *)
Lemma envelope_deviations :
  let env := Demo.env None Demo.down in
  let get := fst (handle env (Build_Request "/analyze" "GET" (JObj [])) Demo.start) in
  let number := handle env (Build_Request "/analyze" "POST"
                              (JObj [("image_base64", JNum 123)])) Demo.start in
  let confused := handle (Demo.env None Samples.confused)
                         (Build_Request "/analyze" "POST" (JObj Samples.image_payload))
                         Demo.start in
  let text_message := handle env (Build_Request "/chat" "POST"
                                    (JObj [("messages", JList [JStr "hello"])]))
                             Demo.start in
  (status get = 405 /\
   body get = JObj [("error", JStr "method_not_allowed")] /\
   ~ (exists code message,
         body get = JObj [("error", JStr code); ("message", JStr message);
                          ("retryable", JBool true)])) /\
  (b64decode env (JNum 123)
   = Err (Exn TypeError
                "argument should be a bytes-like object or ASCII string, not 'int'") /\
   status (fst number) = 502 /\
   body (fst number)
   = error_body "gemini_failed" "Gemini request failed. Please retry." /\
   generate_count (trace (snd number)) = 0%nat) /\
  (remote_raises (Demo.env None Samples.confused)
                 (Exn ValueError "unsupported response") /\
   status (fst confused) = 400 /\
   body (fst confused) = error_body "bad_request" "unsupported response" /\
   generate_count (trace (snd confused)) = 3%nat) /\
  (status (fst text_message) = 502 /\
   body (fst text_message)
   = error_body "gemini_failed" "Gemini request failed. Please retry." /\
   generate_count (trace (snd text_message)) = 0%nat).
Proof.
  cbv zeta. split; [|split; [|split]].
  - split; [reflexivity|]. split; [reflexivity|].
    intros (code & message & H). discriminate H.
  - repeat split; reflexivity.
  - split; [intros history model contents; reflexivity|].
    repeat split; reflexivity.
  - repeat split; reflexivity.
Qed.

(** A run with an undecodable image between two plain messages. *)
Lemma chat_undecodable_image_is_dropped_run :
  let env := Demo.env None (Demo.answers Demo.healthy_text) in
  let payload := [("messages", JList Samples.three_messages)] in
  let e := Exn BinasciiError "Incorrect padding" in
  let out := handle env (Build_Request "/chat" "POST" (JObj payload)) Demo.start in
  b64decode env (dict_get_default Demo.message_with_bad_image "image_base64" JNull)
  = Err e /\
  fst out = _json_response (JObj [("status", JStr "healthy")]) 200 /\
  trace (snd out)
  = [EvGenerate "gemini-3-flash-preview"
       [Build_Content "user" [Part_from_text "You are a plant care assistant."];
        Build_Content "model" [Part_from_text understood];
        Build_Content "user" [Part_from_text "hello"];
        Build_Content "user" [Part_from_text "what is this plant?"];
        Build_Content "model" [Part_from_text "a fern"]]] /\
  stdout (snd out)
  = [DebugReceived 3; DebugPlantContext (JObj []);
     DebugMessage 0 "user" true false; DebugAdding 1 "user";
     DebugMessage 1 "user" true true; WarningDecode 1 e; DebugAdding 1 "user";
     DebugMessage 2 "model" true false; DebugAdding 1 "model";
     DebugTotal 5].
Proof.
  cbv zeta.
  assert (He : b64decode (Demo.env None (Demo.answers Demo.healthy_text))
                 (dict_get_default Demo.message_with_bad_image "image_base64" JNull)
               = Err (Exn BinasciiError "Incorrect padding")) by reflexivity.
  split; [exact He|].
  destruct (ImageDropProps.chat_undecodable_image_is_dropped
              (Demo.env None (Demo.answers Demo.healthy_text))
              [("messages", JList Samples.three_messages)]
              [JObj [("role", JStr "user"); ("content", JStr "hello")]]
              [JObj [("role", JStr "assistant"); ("content", JStr "a fern")]]
              Demo.message_with_bad_image
              (Exn BinasciiError "Incorrect padding")
              Demo.start eq_refl eq_refl He) as (Hrun & _).
  destruct (Hrun "You are a plant care assistant.") as (_ & Htrace & Hout & Hok).
  - exists Demo.message_with_bad_image, "user", "what is this plant?".
    repeat split; reflexivity.
  - constructor; [|constructor].
    exists [("role", JStr "user"); ("content", JStr "hello")], "user", "hello".
    repeat split; reflexivity.
  - constructor; [|constructor].
    exists [("role", JStr "assistant"); ("content", JStr "a fern")],
           "assistant", "a fern".
    repeat split; reflexivity.
  - reflexivity.
  - right. exists "key". split; reflexivity.
  - destruct (Hok (JObj [("status", JStr "healthy")]) eq_refl) as [Hresp Hworld].
    split; [exact Hresp|]. rewrite Hworld.
    split; [rewrite Htrace; reflexivity | rewrite Hout; reflexivity].
Defined.


End RunsMore.
